(* ===== verification/_CoqProject ===== *)
-Q . S2P
Prelude.v
Classifier.v
Scoring.v
Storage.v
Tracker.v
Content.v
Backend.v
Options.v
Popup.v
Async.v
System.v
