(* ===== verification/Prelude.v ===== *)
(** * A verification library for the ProTracker browser extension

    ** The program

    The repository is a Chrome extension that times the pages a user
    visits, classifies each domain, scores the focus of each visit and
    sends the visits to an Express backend.  Its parts:
    - [src/background.js]: the [EnterpriseTimeTracker] service worker.  It
      holds the current session, the settings and the browser storage;
      Chrome events (tab activated or updated, navigation, window focus,
      idle state, alarms, messages) call its handlers, which end the current
      session (score it, store it, aggregate it per day, post it to the
      backend) and start the next one.
    - [src/content.js]: counts keystrokes, mouse movements, scrolls and
      clicks in the page and sends them to the background as
      [activityUpdate] messages.
    - [src/popup.js], [src/options.js]: the user interface.  The popup
      asks the background for the settings, the current session and the
      daily statistics, fetches the score from the backend, refreshes
      every second and sends [toggleFocusMode], [updateSettings] and
      [startPomodoro]; the options page edits the settings, writes them to
      the shared storage and sends [updateSettings].
    - [src/server.js], [src/activityRoutes.js], [src/analyticsRoutes.js],
      [src/Activity.js]: the backend, a MongoDB collection of activities
      and the analytics computed over it.

    ** The development

    - [Prelude] (this file): JavaScript numbers ([num]: [NaN], the two
      infinities and exact rationals, with IEEE rules for the special
      values), the operations [Math.min], [Math.max], [Math.round],
      ASCII strings and their methods ([includes], [startsWith],
      [toLowerCase], [replace], [split], [parseInt], decimal printing), the
      state and exception monad [js S A := S -> S * outcome A] in which the
      handlers run (a [throw] keeps the writes made before it), the hint
      database [tracker], and the shared lemmas, among them
      [parseInt (Z_to_dec z) = num_of_Z z].
    - [Classifier]: [categorizeWebsite], [getCategories], [matchesPattern],
      [analyzePageContent], [extractDomain] (with the hostname part of the
      WHATWG URL parser) and [isSystemUrl].  [classify_spec] is the
      abstract classifier (override, first matching rule of the flattened
      table, content analysis) that [categorizeWebsite] refines.
    - [Scoring]: the session object ([Session], a record with one field
      per property the code sets) and [calculateFinalFocusScore],
      [calculateProductivityScore], [calculateActivityScore].
    - [Storage]: [chrome.storage.local] as a [gmap string Value]; the
      settings and their merge in [updateSettings]; the writes of
      [saveSessionData]; [updateDailyAggregates], with the abstract summary
      [daily_matches] of a day's sessions it refines; [cleanupOldData].
    - [Tracker]: the tracker object ([Tracker]: current session,
      settings, store, the effects sent to Chrome and the backend, and the
      [World] it observes: clock, tabs, network, random strings); every
      handler of [background.js] as a [js Tracker] computation, composed as
      the code composes them ([handleTabChange] awaits [endCurrentSession]
      then [startNewSession]); the listeners as [dispatch], and the event
      loop as the step relation [step], from [boot] (the constructor and
      [init]).
    - [Content]: the counters of [content.js] ([ContentState]), its four
      listeners ([on_dom_event]) and [updateActivity] with its send
      condition; [activity_events] delivers the messages it sends to
      [Tracker.dispatch] as [activityUpdate] requests of the page's tab.
    - [Backend]: the [Activity] schema and the validation of [save()]
      ([createActivity], [conforms]), the body the extension posts
      ([body_of_payload], with [JSON.stringify] turning [NaN] into
      [null]), Express's first-match routing ([first_route] over the
      route tables in declaration order), the handlers of
      [activityRoutes.js] and [analyticsRoutes.js] over the collection as
      a list in insertion order, and [server] for the paths [server.js]
      mounts.
    - [Options]: [OptionsManager] as [OptionsState] (its settings object,
      the [active] class of each switch, the status line) and its
      handlers; [options_saveSettings] writes the store of the background's
      [Tracker] and runs [dispatch] on the [updateSettings] message.
    - [Popup]: [EnterprisePopupManager] as [Popup] (user, session copy,
      settings copy, what each element shows, the running countdowns).
      [send_message] runs [dispatch] on a message and returns the first
      [sendResponse] of the listener, or [None] for the rejected promise
      of a listener that throws first; the score comes from
      [Backend.server] when the [World]'s network is up.  [popup_init],
      [realTimeTick], the buttons ([popup_click]) and [countdownTick]
      compose these.
    - [Async]: the tab-change path, [handleMessage] and the memory
      check's [cleanupOldData] of [background.js] with their await
      points.  Its memory [AState] holds the tracker's fields, a heap of
      session objects and [this.currentSession] as a reference, so that
      [endCurrentSession]'s assignments to [session] are seen by every
      listener holding it.  A listener is a computation [async A] that
      stops at each [await] on [chrome.storage], [chrome.tabs.get] or
      [fetch] ([io]); [drain] runs it without interleaving, and [astep] is
      the event loop, which starts a listener or resumes a pending one.
      [res_stored] is the invariant of a pausing computation at each of
      its await points, in the manner of a postcondition with a bind
      rule, and [cfg_stored] that of the event loop.
    - [System]: the request [syncWithBackend] makes ([sync_request])
      served by [Backend.server], relating the backend's collection and
      analytics to the payloads [Tracker] and [Async] post.

    ** Methods the code calls but does not define

    [background.js] calls eight methods its class does not declare:
    [getCustomCategory], [queueForRetry], [updateRealTimeAnalytics],
    [trackNavigation], [getSessionsForDate], [calculateDailySummary],
    [getDailyStats], [startPomodoroTimer].  Calling one throws a
    [TypeError].  The record [Extensions] of [Tracker] says which of them an
    environment provides; [source_methods] is the repository as it is (none
    of them), and the theorems about the repository are stated for it,
    while the theorems about the intended behaviour take any [Extensions]
    with [getCustomCategory] present.

    ** What the theorems show

    - The repository never tracks anything: [categorizeWebsite] throws
      before a session is stored, from every reachable state
      ([Tracker.source_never_tracks]).
    - With the missing classifier supplied, a failed backend post throws
      out of [endCurrentSession] before [currentSession] is cleared: the
      session stays current and no new session starts
      ([stuck_session_on_sync_failure]); every later tab change of the
      day, in any number, counts the same visit once more in the day's
      aggregate ([offline_double_count]).
    - A tab change ends then starts sessions as specified
      ([tab_change_ends_then_starts]); the well-formedness of the live
      session (scores in range, non-negative counters, times in the past)
      is preserved by every listener and holds in every reachable state
      ([dispatch_preserves_wf], [ended_focus_nan_iff]).
    - [categorizeWebsite] refines [classify_spec]; the rule
      ['google.com/search'] is dead and the keyword tests of
      [analyzePageContent] other than ['doc'] and ['fun'] are dead.
    - The final focus and productivity scores are [NaN] or integers in
      [[0, 100]]; the final focus score is [NaN] exactly when the session
      recorded neither active nor idle time (the specification says the
      activity ratio is then 1).
    - The daily aggregate of a day's sessions is their total time,
      productive time, count, mean focus and per-category time
      ([daily_aggregate_refines]); [cleanupOldData] removes the session
      records older than 30 days and never removes a daily aggregate.
    - Content script: its counters count the DOM events and its active
      time includes every idle gap; it sends on every event until the
      first mouse movement; it sends running totals that the background
      adds as deltas, so twenty key presses become 210
      ([Content.content_counts], [cumulative_reports_inflate]).
    - Backend: every request keeps the collection conforming to the
      schema ([collection_conforms]); [GET /user] is unreachable behind
      [GET /:userId]; a session on a host-less URL is refused and lost;
      a negative legacy duration pushes the score to 200; the score is an
      integer in [[0, 100]] for non-negative times; [/recent] answers
      newest first.
    - Options page: opened in any state the background reaches, it holds
      and draws the background's settings, since every change of them is
      saved at once and the page's defaults agree with the background's
      ([options_open_agree], resting on the invariant
      [reachable_stored] of [Tracker]); its switches
      always show its settings, saving makes the background hold them and
      reset restores the defaults without touching the thresholds; a
      second save within 3 seconds has its status hidden early
      ([status_hidden_early]).
    - Serial and interleaved listeners: the two models are related by
      the lemmas [serial_runs_agree] (run without interleaving, the
      listeners with await points compute what [Tracker]'s do) and
      [step_simulated] (every run of [Tracker.step] is a schedule of the
      event loop).  Under every schedule the background's settings and
      the stored ones agree at every moment
      ([settings_saved_interleaved]); but two aggregations of the day
      whose reads interleave lose the first session
      ([daily_update_lost]), and a tab change that arrives while the
      previous one waits on [chrome.storage] ends the same session object
      again ([second_listener_reends]), after which the session is posted
      twice and the next session is lost ([interleaved_tab_changes]);
      two focus-mode toggles whose listeners interleave both answer with
      the final mode ([toggles_answer_late]).
    - Extension and backend: the posts, served in order, append one
      document per payload the schema accepts and raise the productivity
      totals by exactly their time ([System.sync_delivered]); in the
      interleaved run both listeners make a user id ([getUserId_race],
      from every memory with no id stored), so the session is stored
      twice under two users ([interleaved_two_users]).
    - Popup: with the repository's methods its [init()] always ends in
      the offline mode, and however many real-time ticks follow, which
      show the session and reload the score, the daily metrics and the
      control buttons are never drawn ([popup_init_offline]); the
      Pomodoro button always
      fails; its copy of the three toggled settings agrees with the
      background's; its one-second refresh reloads the score once in every
      30 runs ([score_reload_live]); a countdown of [n] seconds stops after
      [n + 1] ticks; [formatDuration] is the direct hours-and-minutes
      decomposition.

    ** Modelling choices and bounds

    - Numbers: timestamps, durations and counters are [Z] (the code only
      meets integers below 2^53, where doubles are exact); quotients are
      exact rationals, so the rounding of double division is not modelled;
      the sign of zero is not modelled.
    - Strings are ASCII [string]s; the URL parser handles the schemes,
      authority, userinfo and port that hostnames need, not IDNA or
      percent-decoding.
    - [Date.now()] is the [clock] of the [World]; the step relation only
      lets it go forward.  [Math.random] is the list [randoms], consumed
      in order.
    - In [Tracker] each listener runs to completion before the next
      event; [Async] models the interleaving of listeners at their
      [await]s.
    - Decimal printing uses [S (N.size_nat n)] steps of fuel, enough for
      every digit since [n < 2 ^ size <= 10 ^ size]
      ([N_lt_pow_size]); no other definition uses fuel.  The popup's
      intervals are explicit ticks ([realTimeTick], [countdownTick]) at
      times the theorems choose, one second apart.
    - In [Tracker] and for the pages, a message runs the background's
      listener to completion at once; the options page does not await
      [updateSettings], and its handler is taken to run before the page's
      next event.  [Async] lifts this for the tab, message and memory-check
      listeners:
      only an [await] on a Chrome API call or [fetch] lets another event
      in (the other awaits only wait for microtasks, which run first), a
      request takes effect when it is made, and the other listeners, which
      have no such await before their last write, run at once.
    - [System] serves each post at a time the theorem's caller chooses,
      in the order the extension made them; the network does not lose,
      duplicate or reorder requests.
    - Express routing is first match in declaration order with its
      defaults: literal segments match regardless of case, a trailing
      ['/'] is allowed, and a parameter matches one non-empty segment.
    - The backend's collection is a list in insertion order; [Number()]
      on a query string is modelled on signed decimal integers, and
      [parseInt] as in [Prelude].
    - The string literals of [popup.js] are its bytes: its emoji are
      stored mis-encoded, and the model keeps them so.

    ** Not modelled

    The rendering of the pages (HTML, styles, the timeouts that remove the
    popup's notifications); the [breakdown] and [recommendations]
    branches of the popup's score display, which the backend's answer
    never reaches ([formatScoreKey] is modelled on its own); the await
    point of [handleAlarm]: [generateDailySummary] awaits
    [getSessionsForDate], which the class does not define, so it throws
    before it awaits, and the notification after it writes no state; in
    the backend, the CORS headers, the
    MongoDB connection (a database that is down makes every query reject
    into the handlers' 500 branches, which is the library's behaviour)
    and [listen], which are process wiring with no state of the
    program's own (the body parser is modelled: a body it refuses is a
    400 before any route); the
    [formatDuration] of [background.js], used only in console output; and
    the Chrome API beyond its effect on the tracker: alarms,
    notifications, badge and scripts are recorded as [Effect]s. *)

From stdpp Require Import base decidable gmap strings list.
From Stdlib Require Import QArith Qround ZArith Lia Lqa Ascii String.

(** ** JavaScript numbers

    A JavaScript number is an IEEE double.  The tracker only ever handles
    integers below 2^53 (millisecond timestamps and counters) and quotients
    of them, so the finite values are modelled exactly as rationals [Q]; the
    rounding error of double arithmetic is not modelled.  What is modelled is
    the special values: [NaN] and the two infinities, with the IEEE rules by
    which they arise and propagate.  The sign of zero is not modelled (every
    zero is +0), so [x / 0] is [+Infinity] for positive [x]. *)

Inductive num : Type :=
  | NaN
  | PInf
  | NInf
  | Fin (q : Q).

Definition num_of_Z (z : Z) : num := Fin (inject_Z z).
Arguments num_of_Z : simpl never.

Declare Scope js_scope.
Delimit Scope js_scope with js.
Local Open Scope js_scope.

Definition num_neg (a : num) : num :=
  match a with
  | NaN => NaN
  | PInf => NInf
  | NInf => PInf
  | Fin x => Fin (- x)
  end.

Definition num_add (a b : num) : num :=
  match a, b with
  | NaN, _ | _, NaN => NaN
  | PInf, NInf | NInf, PInf => NaN
  | PInf, _ | _, PInf => PInf
  | NInf, _ | _, NInf => NInf
  | Fin x, Fin y => Fin (x + y)
  end.

Definition num_sub (a b : num) : num := num_add a (num_neg b).

(** the infinity of the sign of a finite non-zero factor *)
Definition inf_times (pos : bool) (y : Q) : num :=
  match Qcompare y 0 with
  | Eq => NaN
  | Gt => if pos then PInf else NInf
  | Lt => if pos then NInf else PInf
  end.

Definition num_mul (a b : num) : num :=
  match a, b with
  | NaN, _ | _, NaN => NaN
  | Fin x, Fin y => Fin (x * y)
  | PInf, PInf | NInf, NInf => PInf
  | PInf, NInf | NInf, PInf => NInf
  | PInf, Fin y | Fin y, PInf => inf_times true y
  | NInf, Fin y | Fin y, NInf => inf_times false y
  end.

Definition num_div (a b : num) : num :=
  match a, b with
  | NaN, _ | _, NaN => NaN
  | (PInf | NInf), (PInf | NInf) => NaN
  | PInf, Fin y => match Qcompare y 0 with Lt => NInf | _ => PInf end
  | NInf, Fin y => match Qcompare y 0 with Lt => PInf | _ => NInf end
  | Fin _, (PInf | NInf) => Fin 0
  | Fin x, Fin y =>
      match Qcompare y 0 with
      | Eq => match Qcompare x 0 with Eq => NaN | Gt => PInf | Lt => NInf end
      | _ => Fin (x / y)
      end
  end.

(** [a < b]: false as soon as one side is [NaN]. *)
Definition num_ltb (a b : num) : bool :=
  match a, b with
  | NaN, _ | _, NaN => false
  | PInf, _ => false
  | NInf, NInf => false
  | NInf, _ => true
  | Fin _, NInf => false
  | Fin _, PInf => true
  | Fin x, Fin y => match Qcompare x y with Lt => true | _ => false end
  end.

Definition is_nan (a : num) : bool := match a with NaN => true | _ => false end.

(** [a <= b] and [a >= b] *)
Definition num_leb (a b : num) : bool :=
  if is_nan a || is_nan b then false else negb (num_ltb b a).
Definition num_geb (a b : num) : bool := num_leb b a.

(** [Math.min(a, b)] and [Math.max(a, b)] *)
Definition js_min (a b : num) : num :=
  if is_nan a || is_nan b then NaN else if num_ltb b a then b else a.
Definition js_max (a b : num) : num :=
  if is_nan a || is_nan b then NaN else if num_ltb a b then b else a.

(** [Math.round(x)] rounds half-way cases towards +Infinity: floor (x + 1/2). *)
Definition js_round (a : num) : num :=
  match a with
  | Fin x => num_of_Z (Qfloor (x + (1 # 2)))
  | _ => a
  end.

Infix "+" := num_add : js_scope.
Infix "-" := num_sub : js_scope.
Infix "*" := num_mul : js_scope.
Infix "/" := num_div : js_scope.

(** Equality of values: rationals up to [Qeq]. *)
Definition num_eq (a b : num) : Prop :=
  match a, b with
  | NaN, NaN | PInf, PInf | NInf, NInf => True
  | Fin x, Fin y => x == y
  | _, _ => False
  end.
Infix "≃" := num_eq (at level 70, no associativity) : js_scope.

(** An integer-valued number within [lo, hi]. *)
Definition int_between (lo hi : Z) (a : num) : Prop :=
  exists z, a = num_of_Z z /\ (lo <= z <= hi)%Z.

(** ** JavaScript strings (ASCII)

    [String.prototype.includes], [startsWith], [toLowerCase] and [replace]
    with a string pattern, on ASCII strings. *)

Fixpoint includes (s pat : string) : bool :=
  if String.prefix pat s then true
  else match s with
       | EmptyString => false
       | String _ s' => includes s' pat
       end.

Definition startsWith (s pat : string) : bool := String.prefix pat s.

Definition ascii_lower (c : Ascii.ascii) : Ascii.ascii :=
  let n := Ascii.nat_of_ascii c in
  if (65 <=? n)%nat && (n <=? 90)%nat then Ascii.ascii_of_nat (n + 32) else c.

Fixpoint toLowerCase (s : string) : string :=
  match s with
  | EmptyString => EmptyString
  | String c s' => String (ascii_lower c) (toLowerCase s')
  end.

Fixpoint str_drop (n : nat) (s : string) : string :=
  match n, s with
  | O, _ => s
  | S n', String _ s' => str_drop n' s'
  | S _, EmptyString => EmptyString
  end.

(** [s.replace(pat, rep)]: only the first occurrence is replaced. *)
Fixpoint replace_first (pat rep s : string) : string :=
  if String.prefix pat s then rep ++ str_drop (String.length pat) s
  else match s with
       | EmptyString => EmptyString
       | String c s' => String c (replace_first pat rep s')
       end.

(** [c] occurs in [s] *)
Fixpoint has_char (c : Ascii.ascii) (s : string) : bool :=
  match s with
  | EmptyString => false
  | String d s' => if decide (c = d) then true else has_char c s'
  end.

(** ** A state and exception monad for the extension's handlers

    The extension's handlers mutate the tracker object and may throw; a
    throw does not undo the mutations made before it.  [js S A] threads a
    state [S] and ends either with a value or with an exception. *)

Inductive exn : Type :=
  | TypeError (what : string)
  | Rejection (what : string).

Inductive outcome (A : Type) : Type :=
  | Done (a : A)
  | Thrown (e : exn).
Arguments Done {A} a.
Arguments Thrown {A} e.

Definition js (S A : Type) : Type := S -> S * outcome A.

#[export] Instance js_mret S : MRet (js S) := fun A a s => (s, Done a).
#[export] Instance js_mbind S : MBind (js S) := fun A B f m s =>
  match m s with
  | (s', Done a) => f a s'
  | (s', Thrown e) => (s', Thrown e)
  end.

Definition js_throw {S A} (e : exn) : js S A := fun s => (s, Thrown e).
Definition js_get {S} : js S S := fun s => (s, Done s).
Definition js_put {S} (s : S) : js S unit := fun _ => (s, Done tt).
Definition js_modify {S} (f : S -> S) : js S unit := fun s => (f s, Done tt).

(** [try { m } catch { h }] *)
Definition js_catch {S A} (m : js S A) (h : exn -> js S A) : js S A := fun s =>
  match m s with
  | (s', Thrown e) => h e s'
  | r => r
  end.

(** ** Finite numbers

    [NaN] and the infinities only arise from a division by zero in the
    code; these lemmas track finiteness through the other operations. *)

Definition finite (a : num) : Prop := exists q, a = Fin q.

(** ** Decimal printing of integers, as template literals print them *)

Definition digit_char (d : N) : Ascii.ascii := Ascii.ascii_of_N (48 + d).

(** [fuel] bounds the number of digits; [S (N.size_nat n)] is enough *)
Fixpoint dec_digits (fuel : nat) (n : N) (acc : string) : string :=
  match fuel with
  | O => acc
  | S f =>
      let acc' := String (digit_char (N.modulo n 10)) acc in
      if (N.div n 10 =? 0)%N then acc' else dec_digits f (N.div n 10) acc'
  end.

Definition N_to_dec (n : N) : string := dec_digits (S (N.size_nat n)) n EmptyString.

Definition Z_to_dec (z : Z) : string :=
  match z with
  | Zneg p => String "-"%char (N_to_dec (Npos p))
  | _ => N_to_dec (Z.to_N z)
  end.

(** ** Sums *)

Definition sumZ (l : list Z) : Z := foldr Z.add 0%Z l.
Arguments sumZ : simpl never.

Definition sumQ (l : list Q) : Q := foldr Qplus 0 l.
Arguments sumQ : simpl never.

(** ** [parseInt(s)] in base 10 *)

Definition is_space (c : Ascii.ascii) : bool :=
  Ascii.eqb c " "%char || Ascii.eqb c (Ascii.ascii_of_nat 9) || Ascii.eqb c (Ascii.ascii_of_nat 10).

Definition digit_value (c : Ascii.ascii) : option Z :=
  let n := Ascii.nat_of_ascii c in
  if (48 <=? n)%nat && (n <=? 57)%nat then Some (Z.of_nat n - 48)%Z else None.

(** the value of the leading digits, [None] when there is none *)
Fixpoint lead_digits (s : string) (acc : option Z) : option Z :=
  match s with
  | EmptyString => acc
  | String c s' =>
      match digit_value c with
      | Some d => lead_digits s' (Some (default 0 acc * 10 + d)%Z)
      | None => acc
      end
  end.

Fixpoint trim_start (s : string) : string :=
  match s with
  | String c s' => if is_space c then trim_start s' else s
  | EmptyString => EmptyString
  end.

Definition parseInt (s : string) : num :=
  let s := trim_start s in
  let '(neg, rest) :=
    match s with
    | String c r => if Ascii.eqb c "-"%char then (true, r)
                    else if Ascii.eqb c "+"%char then (false, r) else (false, s)
    | EmptyString => (false, s)
    end in
  match lead_digits rest None with
  | Some v => num_of_Z (if neg then - v else v)%Z
  | None => NaN
  end.

(** [s.split(sep)[i]], [undefined] past the last field *)
Fixpoint split_on (sep : Ascii.ascii) (s : string) : list string :=
  match s with
  | EmptyString => [EmptyString]
  | String c s' =>
      match split_on sep s' with
      | [] => [EmptyString]
      | f :: fs => if decide (c = sep) then EmptyString :: f :: fs else String c f :: fs
      end
  end.


(** ** Automation *)

Create HintDb tracker.

Ltac js_unfold :=
  unfold mbind, mret, js_mbind, js_mret, js_throw, js_get, js_put, js_modify,
    js_catch in *.

Ltac num_cases :=
  repeat match goal with
         | a : num |- _ => destruct a as [| | |a]
         end;
  cbn [num_eq is_nan num_neg num_add num_mul num_div num_ltb js_round] in *; try done.

(** ** [num_eq] is an equivalence and the operations respect it *)

#[export] Instance num_eq_equiv : Equivalence num_eq.
Proof.
  split.
  - intros [| | |x]; simpl; solve [done | reflexivity].
  - intros [| | |x] [| | |y]; simpl; try done; apply Qeq_sym.
  - intros [| | |x] [| | |y] [| | |z]; simpl; try done; apply Qeq_trans.
Qed.

#[export] Instance Fin_proper : Proper (Qeq ==> num_eq) Fin.
Proof. intros x y H. exact H. Qed.

#[export] Instance inf_times_proper b : Proper (Qeq ==> num_eq) (inf_times b).
Proof. intros x y H. unfold inf_times. by rewrite H. Qed.


#[export] Instance num_neg_proper : Proper (num_eq ==> num_eq) num_neg.
Proof. intros a b H. num_cases. by rewrite H. Qed.

#[export] Instance num_add_proper : Proper (num_eq ==> num_eq ==> num_eq) num_add.
Proof. intros a b H c d H'. num_cases. by rewrite H, H'. Qed.

#[export] Instance num_sub_proper : Proper (num_eq ==> num_eq ==> num_eq) num_sub.
Proof. intros a b H c d H'. unfold num_sub. by rewrite H, H'. Qed.

#[export] Instance num_mul_proper : Proper (num_eq ==> num_eq ==> num_eq) num_mul.
Proof.
  intros a b H c d H'. num_cases; try (by rewrite ?H, ?H').
Qed.

#[export] Instance num_div_proper : Proper (num_eq ==> num_eq ==> num_eq) num_div.
Proof.
  intros a b H c d H'. num_cases;
    rewrite ?(Qcompare_comp _ _ H 0 0 (Qeq_refl 0)), ?(Qcompare_comp _ _ H' 0 0 (Qeq_refl 0));
    repeat case_match; simpl; try done.
  all: by rewrite H, H'.
Qed.

#[export] Instance num_ltb_proper : Proper (num_eq ==> num_eq ==> eq) num_ltb.
Proof. intros a b H c d H'. num_cases. by rewrite H, H'. Qed.

#[export] Instance is_nan_proper : Proper (num_eq ==> eq) is_nan.
Proof. intros a b H. by num_cases. Qed.

#[export] Instance js_min_proper : Proper (num_eq ==> num_eq ==> num_eq) js_min.
Proof.
  intros a b H c d H'. unfold js_min. rewrite H, H'.
  destruct (is_nan b || is_nan d); [done|]. rewrite H, H'. by destruct (num_ltb d b).
Qed.

#[export] Instance js_max_proper : Proper (num_eq ==> num_eq ==> num_eq) js_max.
Proof.
  intros a b H c d H'. unfold js_max. rewrite H, H'.
  destruct (is_nan b || is_nan d); [done|]. rewrite H, H'. by destruct (num_ltb b d).
Qed.

#[export] Instance js_round_proper : Proper (num_eq ==> num_eq) js_round.
Proof. intros a b H. num_cases. unfold num_of_Z. by rewrite H. Qed.

(** ** Lemmas on numbers *)

Lemma Qcompare_inject_Z (x y : Z) : Qcompare (inject_Z x) (inject_Z y) = Z.compare x y.
Proof. unfold Qcompare, inject_Z; simpl. by rewrite !Z.mul_1_r. Qed.

Lemma num_ltb_Z (x y : Z) : num_ltb (num_of_Z x) (num_of_Z y) = (x <? y)%Z.
Proof.
  unfold num_ltb, num_of_Z. rewrite Qcompare_inject_Z.
  destruct (Z.compare_spec x y); symmetry; apply Z.ltb_lt || apply Z.ltb_ge; lia.
Qed.

Lemma is_nan_Z (z : Z) : is_nan (num_of_Z z) = false.
Proof. reflexivity. Qed.

Lemma js_round_not_nan (a : num) : is_nan (js_round a) = is_nan a.
Proof. by destruct a. Qed.

(** [Math.max(lo, Math.min(hi, n))] on an integer [n] *)
Lemma clamp_Z (lo hi z : Z) :
  (lo <= hi)%Z ->
  js_max (num_of_Z lo) (js_min (num_of_Z hi) (num_of_Z z)) = num_of_Z (Z.max lo (Z.min hi z)).
Proof.
  intros Hle. unfold js_min. rewrite !is_nan_Z, num_ltb_Z. cbn [orb].
  destruct (Z.ltb_spec z hi); unfold js_max; rewrite !is_nan_Z, num_ltb_Z; cbn [orb];
    [destruct (Z.ltb_spec lo z) | destruct (Z.ltb_spec lo hi)];
    f_equal; lia.
Qed.

Lemma js_max_Z (lo z : Z) : js_max (num_of_Z lo) (num_of_Z z) = num_of_Z (Z.max lo z).
Proof.
  unfold js_max. rewrite !is_nan_Z, num_ltb_Z. cbn [orb].
  destruct (Z.ltb_spec lo z); f_equal; lia.
Qed.

Lemma js_min_PInf (z : Z) : js_min (num_of_Z z) PInf = num_of_Z z.
Proof. reflexivity. Qed.
Lemma js_min_NInf (z : Z) : js_min (num_of_Z z) NInf = NInf.
Proof. reflexivity. Qed.
Lemma js_max_NInf (z : Z) : js_max (num_of_Z z) NInf = num_of_Z z.
Proof. reflexivity. Qed.

(** The clamp [Math.max(lo, Math.min(hi, Math.round(x)))] of the scoring
    functions: [NaN] exactly when [x] is [NaN], otherwise an integer in
    [[lo, hi]]. *)
Lemma clamp_round_cases (lo hi : Z) (a : num) :
  (lo <= hi)%Z ->
  let r := js_max (num_of_Z lo) (js_min (num_of_Z hi) (js_round a)) in
  (a = NaN /\ r = NaN) \/ (a <> NaN /\ int_between lo hi r).
Proof.
  intros Hle r. subst r. destruct a as [| | |q]; [left; done | right .. ].
  - split; [done|]. exists hi. simpl. rewrite js_min_PInf, js_max_Z. split; [f_equal; lia|lia].
  - split; [done|]. exists lo. simpl. rewrite js_min_NInf, js_max_NInf. split; [done|lia].
  - split; [done|]. simpl. rewrite clamp_Z by done. eexists; split; [done|lia].
Qed.

Lemma num_eq_nan (a b : num) : a ≃ b -> (a = NaN <-> b = NaN).
Proof. intros H. num_cases. Qed.

(** ** Lemmas on strings *)

Lemma has_char_app (c : Ascii.ascii) (a b : string) :
  has_char c (a ++ b) = has_char c a || has_char c b.
Proof. induction a as [|d a IH]; simpl; [done|]. by case_decide. Qed.

Lemma prefix_has_char (c : Ascii.ascii) (p s : string) :
  String.prefix p s = true -> has_char c p = true -> has_char c s = true.
Proof.
  revert s. induction p as [|d p IH]; intros [|e s]; simpl; try done.
  destruct (Ascii.ascii_dec d e) as [<-|]; [|done].
  intros Hp. case_decide; [done|]. by apply IH.
Qed.

(** A substring found by [includes] brings its characters with it. *)
Lemma includes_has_char (c : Ascii.ascii) (s p : string) :
  includes s p = true -> has_char c p = true -> has_char c s = true.
Proof.
  induction s as [|d s IH]; intros Hi Hc.
  - destruct p; simpl in *; done.
  - cbn [includes] in Hi. destruct (String.prefix p (String d s)) eqn:Hp.
    + apply (prefix_has_char c p (String d s) Hp Hc).
    + cbn [has_char]. case_decide; [done|]. by apply IH.
Qed.

Lemma includes_app_r (a b k : string) :
  includes b k = true -> includes (a ++ b) k = true.
Proof.
  induction a as [|d a IH]; intros Hb; [done|].
  change (String d a +:+ b) with (String d (a +:+ b)).
  cbn [includes]. destruct (String.prefix k (String d (a ++ b))); [done|].
  by apply IH.
Qed.

Lemma toLowerCase_app (a b : string) :
  toLowerCase (a +:+ b) = toLowerCase a +:+ toLowerCase b.
Proof. induction a as [|d a IH]; simpl; [done|]. by rewrite IH. Qed.

(** lower-casing never produces a character it was not given, but for the
    letters: a ['/'] of the output was a ['/'] of the input *)
Lemma ascii_lower_slash (c : Ascii.ascii) :
  ascii_lower c = "/"%char -> c = "/"%char.
Proof. destruct c as [[] [] [] [] [] [] [] []]; vm_compute; congruence. Qed.

Lemma has_char_toLowerCase_slash (s : string) :
  has_char "/"%char (toLowerCase s) = true -> has_char "/"%char s = true.
Proof.
  induction s as [|d s IH]; simpl; [done|]. intros H.
  destruct (decide ("/"%char = d)); [done|].
  destruct (decide ("/"%char = ascii_lower d)) as [E|]; [|by apply IH].
  symmetry in E. apply ascii_lower_slash in E. congruence.
Qed.

Lemma has_char_str_drop (c : Ascii.ascii) (n : nat) (s : string) :
  has_char c (str_drop n s) = true -> has_char c s = true.
Proof.
  revert s. induction n as [|n IH]; intros [|d s]; simpl; try done.
  intros H. case_decide; [done|]. by apply IH.
Qed.

Lemma has_char_replace_first_empty (c : Ascii.ascii) (pat s : string) :
  has_char c (replace_first pat "" s) = true -> has_char c s = true.
Proof.
  induction s as [|d s IH]; cbn [replace_first].
  - destruct (String.prefix pat ""); [apply has_char_str_drop | done].
  - destruct (String.prefix pat (String d s)).
    + apply has_char_str_drop.
    + cbn [has_char]. case_decide; [done|]. apply IH.
Qed.

#[export] Hint Resolve includes_app_r : tracker.

(** ** Rounding *)

Lemma Qfloor_half_bounds (x : Q) :
  inject_Z (Qfloor (x + (1 # 2))) <= x + (1 # 2) < inject_Z (Qfloor (x + (1 # 2))) + 1.
Proof.
  split; [apply Qfloor_le|]. pose proof (Qlt_floor (x + (1 # 2))) as H.
  by rewrite inject_Z_plus in H.
Qed.

(** [Math.round] of a finite number in [[lo, hi]], with integer bounds,
    stays in [[lo, hi]]. *)
Lemma js_round_between (lo hi : Z) (x : Q) :
  inject_Z lo <= x <= inject_Z hi -> int_between lo hi (js_round (Fin x)).
Proof.
  intros [Hlo Hhi]. exists (Qfloor (x + (1 # 2))). split; [done|].
  destruct (Qfloor_half_bounds x) as [H1 H2].
  set (z := Qfloor (x + (1 # 2))) in *.
  split.
  - destruct (Z_lt_le_dec z lo) as [Hlt|]; [exfalso|done].
    assert (Hq : inject_Z (z + 1) <= inject_Z lo) by (rewrite <- Zle_Qle; lia).
    rewrite inject_Z_plus in Hq. change (inject_Z 1) with 1 in Hq. lra.
  - destruct (Z_lt_le_dec hi z) as [Hlt|]; [exfalso|done].
    assert (Hq : inject_Z (hi + 1) <= inject_Z z) by (rewrite <- Zle_Qle; lia).
    rewrite inject_Z_plus in Hq. change (inject_Z 1) with 1 in Hq. lra.
Qed.

(** ** Lemmas on finite numbers *)

Lemma finite_Z (z : Z) : finite (num_of_Z z).
Proof. by eexists. Qed.
Lemma finite_Fin (q : Q) : finite (Fin q).
Proof. by eexists. Qed.
Lemma finite_add (a b : num) : finite a -> finite b -> finite (a + b).
Proof. intros [x ->] [y ->]. by eexists. Qed.
Lemma finite_sub (a b : num) : finite a -> finite b -> finite (a - b).
Proof. intros [x ->] [y ->]. by eexists. Qed.
Lemma finite_mul (a b : num) : finite a -> finite b -> finite (a * b).
Proof. intros [x ->] [y ->]. by eexists. Qed.
Lemma finite_min (a b : num) : finite a -> finite b -> finite (js_min a b).
Proof. intros [x ->] [y ->]. unfold js_min; simpl. repeat case_match; by eexists. Qed.
Lemma finite_round (a : num) : finite a -> finite (js_round a).
Proof. intros [x ->]. by eexists. Qed.

Lemma num_add_Z (x y : Z) : num_of_Z x + num_of_Z y = num_of_Z (x + y).
Proof. unfold num_of_Z; simpl. by rewrite inject_Z_plus. Qed.

Lemma finite_div_Z (a : num) (y : Z) : finite a -> y <> 0%Z -> finite (a / num_of_Z y).
Proof.
  intros [x ->] Hy. unfold num_of_Z; simpl.
  change 0 with (inject_Z 0). rewrite Qcompare_inject_Z.
  destruct (Z.compare_spec y 0); [lia| |]; by eexists.
Qed.

Lemma finite_not_nan (a : num) : finite a -> a <> NaN.
Proof. by intros [x ->]. Qed.

#[export] Hint Resolve finite_Z finite_Fin finite_add finite_sub finite_mul finite_min
  finite_round finite_div_Z finite_not_nan : tracker.

Lemma num_div_Z_pos (x y : Z) :
  (0 < y)%Z -> num_of_Z x / num_of_Z y = Fin (inject_Z x / inject_Z y).
Proof.
  intros Hy. unfold num_of_Z. cbn [num_div].
  change 0 with (inject_Z 0). rewrite Qcompare_inject_Z.
  by destruct (Z.compare_spec y 0); [lia|lia|].
Qed.

Lemma num_mul_Z_Fin (b : Z) (q : Q) : num_of_Z b * Fin q = Fin (inject_Z b * q).
Proof. reflexivity. Qed.

Lemma num_div_Fin_pos (x : Q) (y : Z) :
  (0 < y)%Z -> Fin x / num_of_Z y = Fin (x / inject_Z y).
Proof.
  intros Hy. unfold num_of_Z. cbn [num_div].
  change 0 with (inject_Z 0). rewrite Qcompare_inject_Z.
  by destruct (Z.compare_spec y 0); [lia|lia|].
Qed.

(** ** Lemmas on sums *)

Lemma sumZ_app (l1 l2 : list Z) : sumZ (l1 ++ l2) = (sumZ l1 + sumZ l2)%Z.
Proof. induction l1 as [|x l1 IH]; [done|]. unfold sumZ in *. simpl. lia. Qed.

Lemma sumQ_app (l1 l2 : list Q) : sumQ (l1 ++ l2) == sumQ l1 + sumQ l2.
Proof.
  induction l1 as [|x l1 IH]; [unfold sumQ; simpl; ring|].
  unfold sumQ in *. simpl. rewrite IH. ring.
Qed.

Lemma sumZ_single (x : Z) : sumZ [x] = x.
Proof. unfold sumZ; simpl. lia. Qed.

Lemma num_eq_Z_finite (a : num) (z : Z) : a ≃ num_of_Z z -> finite a.
Proof. destruct a; simpl; try done. by eexists. Qed.

Lemma num_mul_add_Fin (a b : Q) (n : Z) :
  Fin a * num_of_Z n + Fin b = Fin (a * inject_Z n + b).
Proof. reflexivity. Qed.

#[export] Hint Resolve num_eq_Z_finite : tracker.


(** ** Printing and parsing integers *)

Lemma str_app_assoc (a b c : string) : a +:+ (b +:+ c) = (a +:+ b) +:+ c.
Proof.
  induction a as [|d a IH]; [done|].
  change (String d (a +:+ b +:+ c) = String d ((a +:+ b) +:+ c)). by rewrite IH.
Qed.

Lemma str_app_nil_r (a : string) : a +:+ EmptyString = a.
Proof. induction a as [|d a IH]; [done|]. change (String d (a +:+ EmptyString) = String d a). by rewrite IH. Qed.

Lemma str_app_String (c : Ascii.ascii) (a b : string) : String c a +:+ b = String c (a +:+ b).
Proof. done. Qed.

Lemma dec_digits_acc (f : nat) (n : N) (acc : string) :
  dec_digits f n acc = dec_digits f n EmptyString +:+ acc.
Proof.
  revert n acc. induction f as [|f IH]; intros n acc; [done|]. cbn [dec_digits].
  case_match; [done|]. rewrite (IH _ (String _ acc)), (IH _ (String _ EmptyString)).
  by rewrite <- str_app_assoc.
Qed.

Lemma digit_value_char (d : N) : (d < 10)%N -> digit_value (digit_char d) = Some (Z.of_N d).
Proof.
  intros Hd.
  assert (d = 0 \/ d = 1 \/ d = 2 \/ d = 3 \/ d = 4 \/ d = 5 \/ d = 6 \/ d = 7 \/ d = 8 \/ d = 9)%N
    as H by lia.
  by repeat destruct H as [->|H]; [..|subst].
Qed.

Lemma digit_char_props (d : N) :
  (d < 10)%N ->
  is_space (digit_char d) = false /\ Ascii.eqb (digit_char d) "-"%char = false /\
  Ascii.eqb (digit_char d) "+"%char = false.
Proof.
  intros Hd.
  assert (d = 0 \/ d = 1 \/ d = 2 \/ d = 3 \/ d = 4 \/ d = 5 \/ d = 6 \/ d = 7 \/ d = 8 \/ d = 9)%N
    as H by lia.
  by repeat destruct H as [->|H]; [..|subst].
Qed.

Lemma lead_digits_None (c : Ascii.ascii) (s : string) (d : Z) :
  digit_value c = Some d -> lead_digits (String c s) None = lead_digits (String c s) (Some 0%Z).
Proof. intros Hc. cbn [lead_digits]. by rewrite Hc. Qed.

(** the digits of [dec_digits], read by [lead_digits] *)
Lemma lead_digits_dec (f : nat) (n : N) (rest : string) :
  (n < 10 ^ N.of_nat f)%N ->
  lead_digits (dec_digits f n EmptyString +:+ rest) (Some 0%Z) =
  lead_digits rest (Some (Z.of_N n)).
Proof.
  revert n rest. induction f as [|f IH]; intros n rest Hn.
  - replace n with 0%N by lia. done.
  - cbn [dec_digits]. pose proof (N.mod_lt n 10 ltac:(done)) as Hm.
    destruct (n / 10 =? 0)%N eqn:E.
    + apply N.eqb_eq, N.div_small_iff in E; [|done].
      rewrite str_app_String. cbn [lead_digits]. rewrite digit_value_char by done.
      rewrite N.mod_small by done. do 2 f_equal; lia.
    + rewrite dec_digits_acc, <- str_app_assoc, IH.
      * rewrite str_app_String. cbn [lead_digits]. rewrite digit_value_char by done. 
        pose proof (N.div_mod n 10 ltac:(done)). do 2 f_equal. simpl. lia.
      * apply N.Div0.div_lt_upper_bound. by rewrite Nat2N.inj_succ, N.pow_succ_r' in Hn.
Qed.

Lemma pos_lt_pow_size (p : positive) : (Npos p < 2 ^ N.of_nat (Pos.size_nat p))%N.
Proof. induction p; cbn [Pos.size_nat]; rewrite ?Nat2N.inj_succ, ?N.pow_succ_r'; lia. Qed.

(** the fuel [S (N.size_nat n)] of [N_to_dec] is enough for all digits *)
Lemma N_lt_pow_size (n : N) : (n < 10 ^ N.of_nat (S (N.size_nat n)))%N.
Proof.
  destruct n as [|p]; [cbn; lia|]. pose proof (pos_lt_pow_size p).
  assert (2 ^ N.of_nat (Pos.size_nat p) <= 10 ^ N.of_nat (Pos.size_nat p))%N
    by (apply N.pow_le_mono_l; lia).
  rewrite Nat2N.inj_succ, N.pow_succ_r'. cbn [N.size_nat]. lia.
Qed.

Lemma dec_digits_S (f : nat) (n : N) (acc : string) :
  dec_digits (S f) n acc =
  if (n / 10 =? 0)%N then String (digit_char (n mod 10)) acc
  else dec_digits f (n / 10) (String (digit_char (n mod 10)) acc).
Proof. reflexivity. Qed.

Lemma dec_digits_head (f : nat) (n : N) :
  exists d s, dec_digits (S f) n EmptyString = String (digit_char d) s /\ (d < 10)%N.
Proof.
  revert n. induction f as [|f IH]; intros n; rewrite dec_digits_S.
  - destruct (_ =? 0)%N; (do 2 eexists; split; [done | apply N.mod_lt; done]).
  - destruct (_ =? 0)%N; [do 2 eexists; split; [done | apply N.mod_lt; done]|].
    rewrite dec_digits_acc. destruct (IH (n / 10)%N) as (d & s & Hds & Hd).
    rewrite Hds. by eexists d, _.
Qed.

(** [parseInt] reads back what a template literal prints of an integer *)
Lemma parseInt_Z_to_dec (z : Z) : parseInt (Z_to_dec z) = num_of_Z z.
Proof.
  assert (Hlead : forall n : N, exists c s, N_to_dec n = String c s /\ is_space c = false /\
            Ascii.eqb c "-"%char = false /\ Ascii.eqb c "+"%char = false /\
            lead_digits (N_to_dec n) None = Some (Z.of_N n)).
  { intros n. unfold N_to_dec. destruct (dec_digits_head (N.size_nat n) n) as (d & s & Hds & Hd).
    destruct (digit_char_props d Hd) as (H1 & H2 & H3).
    exists (digit_char d), s. rewrite Hds. do 4 (split; [done|]).
    rewrite (lead_digits_None _ _ (Z.of_N d)) by (by apply digit_value_char).
    rewrite <- Hds, <- (str_app_nil_r (dec_digits _ _ _)), lead_digits_dec; [done|].
    apply N_lt_pow_size. }
  destruct z as [|p|p]; unfold Z_to_dec, parseInt.
  - reflexivity.
  - destruct (Hlead (Npos p)) as (c & s & Hcs & H1 & H2 & H3 & H4).
    change (Z.to_N (Zpos p)) with (Npos p). rewrite Hcs in *. cbn [trim_start]. rewrite H1, H2, H3.
    by rewrite H4.
  - destruct (Hlead (Npos p)) as (c & s & Hcs & H1 & H2 & H3 & H4).
    cbn [trim_start]. change (is_space "-"%char) with false. cbv iota.
    change (Ascii.eqb "-"%char "-"%char) with true. cbv iota. by rewrite H4.
Qed.

Lemma split_on_no_sep (sep : Ascii.ascii) (s : string) :
  has_char sep s = false -> split_on sep s = [s].
Proof.
  induction s as [|c s IH]; [done|]. cbn [has_char split_on].
  case_decide as Hc; [done|]. intros Hs. rewrite IH by done.
  rewrite decide_False by congruence. done.
Qed.

(** a printed integer holds digits and a sign only *)
Lemma has_char_Z_to_dec (c : Ascii.ascii) (z : Z) :
  c <> "-"%char -> (forall d, (d < 10)%N -> c <> digit_char d) -> has_char c (Z_to_dec z) = false.
Proof.
  intros Hm Hd.
  assert (Hn : forall f n, has_char c (dec_digits f n EmptyString) = false).
  { induction f as [|f IH]; intros n; [done|]. rewrite dec_digits_S.
    assert (Hc : has_char c (String (digit_char (n mod 10)) EmptyString) = false)
      by (cbn [has_char]; rewrite decide_False; [done|]; apply Hd, N.mod_lt; done).
    destruct (_ =? 0)%N; [done|]. rewrite dec_digits_acc, has_char_app, IH. done. }
  destruct z; unfold Z_to_dec, N_to_dec; [apply Hn|apply Hn|].
  cbn [has_char]. rewrite decide_False by congruence. apply Hn.
Qed.

Lemma startsWith_app (p s : string) : startsWith (p +:+ s) p = true.
Proof.
  unfold startsWith. induction p as [|c p IH]; [by destruct s|].
  rewrite str_app_String. cbn [String.prefix]. by destruct (Ascii.ascii_dec c c).
Qed.

Lemma sumZ_cons (x : Z) (l : list Z) : sumZ (x :: l) = (x + sumZ l)%Z.
Proof. reflexivity. Qed.

Lemma sumQ_cons (x : Q) (l : list Q) : sumQ (x :: l) = (x + sumQ l)%Q.
Proof. reflexivity. Qed.

Lemma sumQ_nonneg (l : list Q) : Forall (fun q => 0 <= q)%Q l -> (0 <= sumQ l)%Q.
Proof.
  induction 1 as [|x l Hx _ IH]; [unfold sumQ; cbn; lra|].
  rewrite sumQ_cons. lra.
Qed.

(** dropping non-negative terms does not increase a sum *)
Lemma sumQ_filter_le {A} (f : A -> bool) (g : A -> Q) (l : list A) :
  Forall (fun a => 0 <= g a)%Q l -> (sumQ (map g (List.filter f l)) <= sumQ (map g l))%Q.
Proof.
  induction 1 as [|a l Ha _ IH]; [unfold sumQ; cbn; lra|].
  cbn [List.filter map]. destruct (f a); cbn [map]; rewrite !sumQ_cons; lra.
Qed.

(** ** Sequencing in the handlers' monad *)

Lemma js_bind_done {S A B} (m : js S A) (f : A -> js S B) (s s' : S) (x : A) :
  m s = (s', Done x) -> (m ≫= f) s = f x s'.
Proof. intros E. unfold mbind, js_mbind. by rewrite E. Qed.

Lemma js_bind_thrown {S A B} (m : js S A) (f : A -> js S B) (s s' : S) (e : exn) :
  m s = (s', Thrown e) -> (m ≫= f) s = (s', Thrown e).
Proof. intros E. unfold mbind, js_mbind. by rewrite E. Qed.
