(* ===== verification/Classifier.v ===== *)
(** * The domain classifier of [src/background.js]

    [categorizeWebsite], [getCategories], [matchesPattern],
    [analyzePageContent], [extractDomain] and [isSystemUrl], with the part of
    the platform's URL parser that [extractDomain] relies on
    ([new URL(url).hostname]). *)

From stdpp Require Import base decidable countable strings list.
From Stdlib Require Import QArith Ascii String.
From S2P Require Import Prelude.

Local Open Scope string_scope.
Local Open Scope nat_scope.

(** ** Categories: the five strings of the code, as an enumeration *)

Inductive Category : Type :=
  | highly_productive
  | productive
  | neutral
  | unproductive
  | break.

#[export] Instance Category_eq_dec : EqDecision Category.
Proof. solve_decision. Defined.

Definition category_index (c : Category) : nat :=
  match c with
  | highly_productive => 0 | productive => 1 | neutral => 2
  | unproductive => 3 | break => 4
  end.

Definition category_of_index (n : nat) : Category :=
  match n with
  | 0 => highly_productive | 1 => productive | 2 => neutral
  | 3 => unproductive | _ => break
  end.

#[export] Instance Category_countable : Countable Category :=
  inj_countable' category_index category_of_index (ltac:(by intros [])).

Definition category_name (c : Category) : string :=
  match c with
  | highly_productive => "highly_productive"
  | productive => "productive"
  | neutral => "neutral"
  | unproductive => "unproductive"
  | break => "break"
  end.

(** ** The platform's URL parser, as far as [hostname] goes

    [new URL(url)] throws on a string with no scheme; [hostname] is the
    host of the authority, lower-cased for the special schemes, with the
    user-info and the port removed; a non-special URL without [//] (such as
    [about:blank]) has the empty host.  Percent-decoding, IDNA and the
    normalisation of IP addresses are not modelled. *)

Definition is_alpha (c : Ascii.ascii) : bool :=
  let n := Ascii.nat_of_ascii c in
  ((65 <=? n)%nat && (n <=? 90)%nat) || ((97 <=? n)%nat && (n <=? 122)%nat).

Definition is_digit (c : Ascii.ascii) : bool :=
  let n := Ascii.nat_of_ascii c in (48 <=? n)%nat && (n <=? 57)%nat.

Definition is_scheme_char (c : Ascii.ascii) : bool :=
  is_alpha c || is_digit c || Ascii.eqb c "+"%char || Ascii.eqb c "-"%char || Ascii.eqb c "."%char.

Fixpoint take_until (stop : Ascii.ascii -> bool) (s : string) : string * string :=
  match s with
  | EmptyString => (EmptyString, EmptyString)
  | String c s' =>
      if stop c then (EmptyString, s)
      else let (a, r) := take_until stop s' in (String c a, r)
  end.

Fixpoint drop_while (p : Ascii.ascii -> bool) (s : string) : string :=
  match s with
  | EmptyString => EmptyString
  | String c s' => if p c then drop_while p s' else s
  end.

(** the part of [s] after the last occurrence of [c] (all of [s] if none) *)
Fixpoint after_last (c : Ascii.ascii) (s : string) : string :=
  match s with
  | EmptyString => EmptyString
  | String d s' =>
      if has_char c s' then after_last c s'
      else if decide (d = c) then s' else s
  end.

Definition split_scheme (u : string) : option (string * string) :=
  match u with
  | String c _ =>
      if is_alpha c then
        match take_until (fun c => negb (is_scheme_char c)) u with
        | (sch, String ":"%char rest) => Some (toLowerCase sch, rest)
        | _ => None
        end
      else None
  | EmptyString => None
  end.

Definition is_special (scheme : string) : bool :=
  bool_decide (scheme ∈ ["http"; "https"; "ws"; "wss"; "ftp"]).

(** host and port of an authority; the port must be decimal *)
Definition host_of_authority (auth : string) : option string :=
  let (host, port) := take_until (fun c => Ascii.eqb c ":"%char) (after_last "@"%char auth) in
  match port with
  | String _ digits =>
      if forallb is_digit (list_ascii_of_string digits) then Some host else None
  | EmptyString => Some host
  end.

Definition special_stop (c : Ascii.ascii) : bool :=
  Ascii.eqb c "/"%char || Ascii.eqb c "\"%char || Ascii.eqb c "?"%char || Ascii.eqb c "#"%char.

Definition plain_stop (c : Ascii.ascii) : bool :=
  Ascii.eqb c "/"%char || Ascii.eqb c "?"%char || Ascii.eqb c "#"%char.

Definition url_hostname (u : string) : option string :=
  match split_scheme u with
  | None => None
  | Some (scheme, rest) =>
      if is_special scheme then
        let auth := fst (take_until special_stop
                           (drop_while (fun c => Ascii.eqb c "/"%char || Ascii.eqb c "\"%char) rest)) in
        match host_of_authority auth with
        | Some EmptyString | None => None
        | Some h => Some (toLowerCase h)
        end
      else if String.eqb scheme "file" then
        if String.prefix "//" rest then
          let h := toLowerCase (fst (take_until special_stop (str_drop 2 rest))) in
          Some (if String.eqb h "localhost" then EmptyString else h)
        else Some EmptyString
      else
        if String.prefix "//" rest then
          host_of_authority (fst (take_until plain_stop (str_drop 2 rest)))
        else Some EmptyString
  end.

(** ** The classifier *)

(** [extractDomain(url)]: [new URL(url).hostname.replace('www.', '')], and
    ['unknown'] when the constructor throws.  [replace] removes the first
    [www.] wherever it occurs, not only at the start. *)
Definition extractDomain (url : string) : string :=
  match url_hostname url with
  | Some h => replace_first "www." "" h
  | None => "unknown"
  end.

Definition isSystemUrl (url : string) : bool :=
  startsWith url "chrome://" ||
  startsWith url "chrome-extension://" ||
  startsWith url "moz-extension://" ||
  startsWith url "about:".

(** A rule of [getCategories]: a JS object with a [domains] or a
    [keywords] array and a [weight] (which no code reads). *)
Record Pattern : Type := {
  domains : option (list string);
  keywords : option (list string);
  weight : Q
}.

Definition dom_rule (ds : list string) (w : Q) : Pattern :=
  {| domains := Some ds; keywords := None; weight := w |}.
Definition kw_rule (ks : list string) (w : Q) : Pattern :=
  {| domains := None; keywords := Some ks; weight := w |}.

(** The rule table, in the insertion order that [Object.entries] follows. *)
Definition getCategories : list (Category * list Pattern) :=
  [ (highly_productive,
      [ dom_rule ["github.com"; "gitlab.com"; "bitbucket.org"] 1;
        dom_rule ["stackoverflow.com"; "stackexchange.com"] (95 # 100);
        dom_rule ["developer.mozilla.org"; "w3schools.com"] (9 # 10);
        kw_rule ["documentation"; "api"; "tutorial"; "learn"] (85 # 100) ]);
    (productive,
      [ dom_rule ["google.com/search"; "bing.com"; "duckduckgo.com"] (8 # 10);
        dom_rule ["medium.com"; "dev.to"; "hashnode.com"] (75 # 100);
        dom_rule ["coursera.org"; "udemy.com"; "edx.org"] (9 # 10);
        kw_rule ["work"; "project"; "task"; "productivity"] (7 # 10) ]);
    (neutral,
      [ dom_rule ["gmail.com"; "outlook.com"; "slack.com"] (6 # 10);
        dom_rule ["drive.google.com"; "dropbox.com"; "onedrive.com"] (65 # 100);
        kw_rule ["news"; "weather"; "maps"] (5 # 10) ]);
    (unproductive,
      [ dom_rule ["facebook.com"; "twitter.com"; "instagram.com"] (2 # 10);
        dom_rule ["youtube.com"; "netflix.com"; "twitch.tv"] (1 # 10);
        dom_rule ["reddit.com"; "pinterest.com"; "tiktok.com"] (15 # 100);
        kw_rule ["game"; "entertainment"; "meme"; "funny"] (25 # 100) ]);
    (break,
      [ dom_rule ["spotify.com"; "music.apple.com"; "soundcloud.com"] (4 # 10);
        kw_rule ["meditation"; "relaxation"; "break"] (6 # 10) ]) ].

(** [matchesPattern(domain, url, pattern)]: a present [domains] array
    decides alone (even when no entry matches). *)
Definition matchesPattern (domain url : string) (p : Pattern) : bool :=
  match domains p with
  | Some ds => existsb (fun d => includes domain d) ds
  | None =>
      match keywords p with
      | Some ks =>
          let text := toLowerCase (domain ++ " " ++ url) in
          existsb (fun k => includes text k) ks
      | None => false
      end
  end.

(** The two nested [for ... of] loops of [categorizeWebsite], with their
    early [return]. *)
Fixpoint scan_patterns (domain url : string) (c : Category) (ps : list Pattern)
    : option Category :=
  match ps with
  | [] => None
  | p :: ps' => if matchesPattern domain url p then Some c
                else scan_patterns domain url c ps'
  end.

Fixpoint scan_categories (domain url : string) (cs : list (Category * list Pattern))
    : option Category :=
  match cs with
  | [] => None
  | (c, ps) :: cs' =>
      match scan_patterns domain url c ps with
      | Some r => Some r
      | None => scan_categories domain url cs'
      end
  end.

Definition analyzePageContent (url : string) : Category :=
  let urlLower := toLowerCase url in
  if includes urlLower "learn" || includes urlLower "tutorial" || includes urlLower "doc"
  then productive
  else if includes urlLower "game" || includes urlLower "fun" ||
          includes urlLower "entertainment"
  then unproductive
  else neutral.

(** [categorizeWebsite(url)].  [getCustomCategory] is called on [this] but
    no such method is defined in the repository: [None] stands for the
    missing method, whose call throws a [TypeError]; [Some f] for an
    implementation returning the user's override for a domain. *)
Definition categorizeWebsite (getCustomCategory : option (string -> option Category))
    (url : string) : outcome Category :=
  let domain := extractDomain url in
  let categories := getCategories in
  match getCustomCategory with
  | None => Thrown (TypeError "this.getCustomCategory is not a function")
  | Some lookup =>
      match lookup domain with
      | Some c => Done c
      | None =>
          match scan_categories domain url categories with
          | Some c => Done c
          | None => Done (analyzePageContent url)
          end
      end
  end.

(** ** The abstract classifier

    What [categorizeWebsite] promises: the user's override if there is one,
    else the category of the first rule, in declared order, that matches,
    else the content heuristic. *)

Definition rules : list (Category * Pattern) :=
  flat_map (fun cps => map (pair cps.1) cps.2) getCategories.

Definition classify_spec (custom : string -> option Category) (url : string) : Category :=
  let domain := extractDomain url in
  match custom domain with
  | Some c => c
  | None =>
      match find (fun r => matchesPattern domain url r.2) rules with
      | Some r => r.1
      | None => analyzePageContent url
      end
  end.

Definition no_overrides : string -> option Category := fun _ => None.

(** ** Lemmas *)

Section Scan.
Context (domain url : string).

Lemma find_app {A} (f : A -> bool) (l1 l2 : list A) :
  find f (l1 ++ l2) = match find f l1 with Some x => Some x | None => find f l2 end.
Proof. induction l1 as [|x l1 IH]; simpl; [done|]. by destruct (f x). Qed.

Lemma scan_patterns_find (c : Category) (ps : list Pattern) :
  scan_patterns domain url c ps =
  fst <$> find (fun r => matchesPattern domain url r.2) (map (pair c) ps).
Proof. induction ps as [|p ps IH]; simpl; [done|]. by destruct (matchesPattern _ _ p). Qed.

(** the nested loops are a single first-match search over the flattened table *)
Lemma scan_categories_find (cs : list (Category * list Pattern)) :
  scan_categories domain url cs =
  fst <$> find (fun r => matchesPattern domain url r.2)
               (flat_map (fun cps => map (pair cps.1) cps.2) cs).
Proof.
  induction cs as [|[c ps] cs IH]; simpl; [done|].
  rewrite find_app, scan_patterns_find.
  destruct (find _ (map (pair c) ps)); simpl; done.
Qed.

Lemma scan_categories_none (cs : list (Category * list Pattern)) c ps p :
  scan_categories domain url cs = None -> In (c, ps) cs -> In p ps ->
  matchesPattern domain url p = false.
Proof.
  induction cs as [|[c' ps'] cs IH]; simpl; [done|].
  destruct (scan_patterns domain url c' ps') eqn:Hs; [done|].
  intros Hn [[= -> ->]|Hin] Hp; [|by apply IH].
  clear IH Hn. induction ps as [|q ps IHp]; simpl in *; [done|].
  destruct (matchesPattern domain url q) eqn:Hq; [done|].
  destruct Hp as [<-|Hp]; auto.
Qed.
End Scan.

(** a keyword rule that did not match did not match the URL alone *)
Lemma keyword_miss_url (domain url k : string) (ks : list string) (w : Q) :
  matchesPattern domain url (kw_rule ks w) = false -> In k ks ->
  includes (toLowerCase url) k = false.
Proof.
  unfold matchesPattern; simpl. intros Hm Hin.
  destruct (includes (toLowerCase url) k) eqn:Hk; [|done].
  exfalso. assert (Hex : existsb (fun k => includes (toLowerCase (domain +:+ " " +:+ url)) k) ks = true).
  { apply existsb_exists. exists k. split; [done|].
    rewrite !toLowerCase_app. by do 2 apply includes_app_r. }
  by rewrite Hex in Hm.
Qed.

Lemma take_until_app (stop : Ascii.ascii -> bool) (s : string) :
  s = (take_until stop s).1 +:+ (take_until stop s).2.
Proof.
  induction s as [|c s IH]; simpl; [done|].
  destruct (stop c); [done|]. destruct (take_until stop s) as [a r]; simpl in *. by rewrite IH.
Qed.

Lemma take_until_no_stop (stop : Ascii.ascii -> bool) (c : Ascii.ascii) (s : string) :
  has_char c (take_until stop s).1 = true -> stop c = false.
Proof.
  induction s as [|d s IH]; simpl; [done|].
  destruct (stop d) eqn:Hd; [done|]. destruct (take_until stop s) as [a r] eqn:E; simpl in *.
  case_decide; [congruence|]. done.
Qed.

Lemma has_char_take_until (stop : Ascii.ascii -> bool) (c : Ascii.ascii) (s : string) :
  has_char c (take_until stop s).1 = true -> has_char c s = true.
Proof.
  intros H. rewrite (take_until_app stop s), has_char_app, H. done.
Qed.

Lemma has_char_after_last (c d : Ascii.ascii) (s : string) :
  has_char c (after_last d s) = true -> has_char c s = true.
Proof.
  induction s as [|e s IH]; [done|]. intros H. simpl in H.
  destruct (has_char d s).
  - specialize (IH H). simpl. case_decide; auto.
  - destruct (decide (e = d)).
    + simpl. case_decide; auto.
    + exact H.
Qed.

Lemma host_of_authority_has_char (c : Ascii.ascii) (auth h : string) :
  host_of_authority auth = Some h -> has_char c h = true -> has_char c auth = true.
Proof.
  unfold host_of_authority. intros Hh Hc.
  pose proof (has_char_take_until (fun c => Ascii.eqb c ":") c (after_last "@" auth)) as Ht.
  destruct (take_until _ (after_last "@" auth)) as [host [|x digits]]; simpl in *.
  - injection Hh as <-. by apply has_char_after_last with "@"%char, Ht.
  - destruct (forallb _ _); [|done]. injection Hh as <-. by apply has_char_after_last with "@"%char, Ht.
Qed.

Lemma take_until_no_slash (stop : Ascii.ascii -> bool) (s : string) :
  stop "/"%char = true -> has_char "/"%char (take_until stop s).1 = false.
Proof.
  intros Hs. destruct (has_char _ _) eqn:Hc; [|done].
  apply take_until_no_stop in Hc. congruence.
Qed.

Lemma url_hostname_no_slash (u h : string) :
  url_hostname u = Some h -> has_char "/"%char h = false.
Proof.
  unfold url_hostname. destruct (split_scheme u) as [[scheme rest]|]; [|done].
  destruct (is_special scheme); [|destruct (String.eqb scheme "file")];
    [| destruct (String.prefix "//" rest) .. ]; try (intros [= <-]; done).
  - destruct (host_of_authority _) as [[|x h0]|] eqn:Ha; try done. intros [= <-].
    destruct (has_char _ _) eqn:Hc; [|done].
    change (String (ascii_lower x) (toLowerCase h0)) with (toLowerCase (String x h0)) in Hc.
    apply has_char_toLowerCase_slash, (host_of_authority_has_char _ _ _ Ha) in Hc.
    by rewrite take_until_no_slash in Hc.
  - intros [= <-]. destruct (String.eqb _ "localhost"); [done|].
    destruct (has_char _ _) eqn:Hc; [|done].
    apply has_char_toLowerCase_slash in Hc. by rewrite take_until_no_slash in Hc.
  - intros Ha. destruct (has_char _ _) eqn:Hc; [|done].
    apply (host_of_authority_has_char _ _ _ Ha) in Hc. by rewrite take_until_no_slash in Hc.
Qed.

Lemma extractDomain_no_slash (url : string) : has_char "/"%char (extractDomain url) = false.
Proof.
  unfold extractDomain. destruct (url_hostname url) as [h|] eqn:E; [|done].
  destruct (has_char _ _) eqn:Hc; [|done].
  apply has_char_replace_first_empty in Hc. by rewrite (url_hostname_no_slash url h E) in Hc.
Qed.

(** ** Theorems *)

(** C7: [categorizeWebsite], given an implementation of the missing
    [getCustomCategory], refines the abstract classifier: the override
    first, then the first matching rule of the flattened table in declared
    order, then [analyzePageContent]. *)
Theorem categorizeWebsite_refines (custom : string -> option Category) (url : string) :
  categorizeWebsite (Some custom) url = Done (classify_spec custom url).
Proof.
  unfold categorizeWebsite, classify_spec. rewrite scan_categories_find.
  destruct (custom (extractDomain url)); [done|].
  unfold rules. by destruct (find _ _).
Qed.

(** C13: the rule ['google.com/search'] of the [productive] category never
    matches: [matchesPattern] tests it against a hostname, which never
    contains a ['/']. *)
Theorem google_search_rule_dead (url : string) :
  includes (extractDomain url) "google.com/search" = false.
Proof.
  destruct (includes _ _) eqn:E; [|done].
  apply (includes_has_char "/"%char) in E; [|done].
  by rewrite extractDomain_no_slash in E.
Qed.

(** C14: when no rule matches, the tests of [analyzePageContent] for
    ['learn'], ['tutorial'], ['game'] and ['entertainment'] are dead: the
    keyword rules already looked for them in the lower-cased URL, so only
    ['doc'] and ['fun'] can still decide. *)
Theorem analyzePageContent_fallback (url : string) :
  scan_categories (extractDomain url) url getCategories = None ->
  analyzePageContent url =
    (let l := toLowerCase url in
     if includes l "doc" then productive
     else if includes l "fun" then unproductive else neutral).
Proof.
  intros Hn.
  pose proof (scan_categories_none _ _ _ highly_productive _
                (kw_rule ["documentation"; "api"; "tutorial"; "learn"] (85 # 100)) Hn
                ltac:(by left) ltac:(simpl; tauto)) as Hh.
  pose proof (scan_categories_none _ _ _ unproductive _
                (kw_rule ["game"; "entertainment"; "meme"; "funny"] (25 # 100)) Hn
                ltac:(simpl; tauto) ltac:(simpl; tauto)) as Hu.
  unfold analyzePageContent.
  rewrite (keyword_miss_url _ _ "learn" _ _ Hh), (keyword_miss_url _ _ "tutorial" _ _ Hh),
    (keyword_miss_url _ _ "game" _ _ Hu), (keyword_miss_url _ _ "entertainment" _ _ Hu)
    by (simpl; tauto).
  by destruct (includes (toLowerCase url) "doc"), (includes (toLowerCase url) "fun").
Qed.

Lemma analyzePageContent_fallback_witness :
  scan_categories (extractDomain "https://example.org/docs") "https://example.org/docs"
    getCategories = None /\
  analyzePageContent "https://example.org/docs" =
    (let l := toLowerCase "https://example.org/docs" in
     if includes l "doc" then productive
     else if includes l "fun" then unproductive else neutral).
Proof.
  assert (Hn : scan_categories (extractDomain "https://example.org/docs") "https://example.org/docs"
                 getCategories = None) by (vm_compute; reflexivity).
  split; [exact Hn|]. exact (analyzePageContent_fallback _ Hn).
Defined.

(** The examples of the specification, and the Google search page,
    which the dead rule leaves [neutral]. *)
Example categorize_examples :
  categorizeWebsite (Some no_overrides) "https://github.com/foo" = Done highly_productive /\
  categorizeWebsite (Some no_overrides) "https://youtube.com/watch?v=1" = Done unproductive /\
  categorizeWebsite (Some no_overrides) "https://unknown-site.example" = Done neutral /\
  categorizeWebsite (Some no_overrides) "https://www.google.com/search?q=rocq" = Done neutral.
Proof. vm_compute. repeat split. Qed.
