(* ===== verification/Scoring.v ===== *)
(** * Sessions and the scoring functions of [src/background.js]

    The session object built by [startNewSession] and completed by
    [endCurrentSession], and the three scoring methods
    [calculateFinalFocusScore], [calculateProductivityScore] and
    [calculateActivityScore]. *)

From stdpp Require Import base decidable strings list.
From Stdlib Require Import QArith Qround ZArith Lia Lqa.
From S2P Require Import Prelude Classifier.

Local Open Scope js_scope.

(** ** The session object

    The fields [idleStartTime] and [lastBlurTime] are added and [delete]d
    while the session runs; [endTime], [duration], [finalFocusScore] and
    [productivityScore] are added by [endCurrentSession].  An absent field
    is [None].  Times are milliseconds since the epoch. *)
Record Session : Type := {
  sessionId : string;
  tabId : Z;
  url : string;
  domain : string;
  title : string;
  startTime : Z;
  category : Category;
  focusScore : Z;
  activityScore : Z;
  distractions : Z;
  keystrokes : Z;
  mouseMovements : Z;
  scrolls : Z;
  clicks : Z;
  timeSpentActive : Z;
  timeSpentIdle : Z;
  idleStartTime : option Z;
  lastBlurTime : option Z;
  endTime : option Z;
  duration : option Z;
  finalFocusScore : option num;
  productivityScore : option num
}.

(** The assignments the tracker makes to a live session. *)
Definition set_focusScore (s : Session) (v : Z) : Session :=
  {| sessionId := sessionId s; tabId := tabId s; url := url s; domain := domain s;
     title := title s; startTime := startTime s; category := category s;
     focusScore := v; activityScore := activityScore s;
     distractions := distractions s; keystrokes := keystrokes s;
     mouseMovements := mouseMovements s; scrolls := scrolls s; clicks := clicks s;
     timeSpentActive := timeSpentActive s; timeSpentIdle := timeSpentIdle s;
     idleStartTime := idleStartTime s; lastBlurTime := lastBlurTime s;
     endTime := endTime s; duration := duration s;
     finalFocusScore := finalFocusScore s; productivityScore := productivityScore s |}.

Definition set_idle (s : Session) (idle : Z) (idleStart lastBlur : option Z) : Session :=
  {| sessionId := sessionId s; tabId := tabId s; url := url s; domain := domain s;
     title := title s; startTime := startTime s; category := category s;
     focusScore := focusScore s; activityScore := activityScore s;
     distractions := distractions s; keystrokes := keystrokes s;
     mouseMovements := mouseMovements s; scrolls := scrolls s; clicks := clicks s;
     timeSpentActive := timeSpentActive s; timeSpentIdle := idle;
     idleStartTime := idleStart; lastBlurTime := lastBlur;
     endTime := endTime s; duration := duration s;
     finalFocusScore := finalFocusScore s; productivityScore := productivityScore s |}.

Definition set_activity (s : Session) (ks mm sc cl active score : Z) : Session :=
  {| sessionId := sessionId s; tabId := tabId s; url := url s; domain := domain s;
     title := title s; startTime := startTime s; category := category s;
     focusScore := focusScore s; activityScore := score;
     distractions := distractions s; keystrokes := ks;
     mouseMovements := mm; scrolls := sc; clicks := cl;
     timeSpentActive := active; timeSpentIdle := timeSpentIdle s;
     idleStartTime := idleStartTime s; lastBlurTime := lastBlurTime s;
     endTime := endTime s; duration := duration s;
     finalFocusScore := finalFocusScore s; productivityScore := productivityScore s |}.

Definition set_ended (s : Session) (endT dur : option Z) (final prod : option num) : Session :=
  {| sessionId := sessionId s; tabId := tabId s; url := url s; domain := domain s;
     title := title s; startTime := startTime s; category := category s;
     focusScore := focusScore s; activityScore := activityScore s;
     distractions := distractions s; keystrokes := keystrokes s;
     mouseMovements := mouseMovements s; scrolls := scrolls s; clicks := clicks s;
     timeSpentActive := timeSpentActive s; timeSpentIdle := timeSpentIdle s;
     idleStartTime := idleStartTime s; lastBlurTime := lastBlurTime s;
     endTime := endT; duration := dur;
     finalFocusScore := final; productivityScore := prod |}.

(** an absent numeric field reads as [undefined], which arithmetic turns
    into [NaN] *)
Definition num_field (f : option Z) : num :=
  match f with Some z => num_of_Z z | None => NaN end.

Definition score_field (f : option num) : num :=
  match f with Some v => v | None => NaN end.

(** ** The scores *)

Definition optimalLength : Z := (25 * 60 * 1000)%Z.

Definition calculateFinalFocusScore (session : Session) : num :=
  let score := num_of_Z (focusScore session) in
  let activityRatio :=
    num_of_Z (timeSpentActive session) /
      (num_of_Z (timeSpentActive session) + num_of_Z (timeSpentIdle session)) in
  let score := score * activityRatio in
  let lengthFactor := js_min (num_of_Z 1) (num_field (duration session) / num_of_Z optimalLength) in
  let score := score * (Fin (1 # 2) + Fin (1 # 2) * lengthFactor) in
  let score := score - num_of_Z (distractions session) * num_of_Z 5 in
  js_max (num_of_Z 0) (js_min (num_of_Z 100) (js_round score)).

(** [categoryScores[session.category] || 50]: every category has a
    non-zero entry, so the default is never taken. *)
Definition categoryScores (c : Category) : Z :=
  match c with
  | highly_productive => 100
  | productive => 80
  | neutral => 50
  | unproductive => 20
  | break => 40
  end.

Definition calculateProductivityScore (session : Session) : num :=
  let baseScore := categoryScores (category session) in
  let focusMultiplier := score_field (finalFocusScore session) / num_of_Z 100 in
  js_round (num_of_Z baseScore * focusMultiplier).

(** [calculateActivityScore(session)] at time [now].  Past the first
    minute the divisor is at least one, so the rate is a finite number and
    is computed in [Q]. *)
Definition calculateActivityScore (session : Session) (now : Z) : Z :=
  let dur := (now - startTime session)%Z in
  if (dur <? 60000)%Z then 100%Z
  else
    let activityRate :=
      (inject_Z (keystrokes session + mouseMovements session + scrolls session) /
        (inject_Z dur / inject_Z 60000))%Q in
    if Qle_bool 30 activityRate && Qle_bool activityRate 60 then 100%Z
    else if Qle_bool 15 activityRate && Qle_bool activityRate 90 then 80%Z
    else if Qle_bool 5 activityRate && Qle_bool activityRate 120 then 60%Z
    else 40%Z.

(** The object literal of [startNewSession]: scores at 100, counters at 0. *)
Definition sessionData (sessionId : string) (tabId : Z) (url domain title : string)
    (startTime : Z) (category : Category) : Session :=
  {| sessionId := sessionId; tabId := tabId; url := url; domain := domain;
     title := title; startTime := startTime; category := category;
     focusScore := 100; activityScore := 100; distractions := 0;
     keystrokes := 0; mouseMovements := 0; scrolls := 0; clicks := 0;
     timeSpentActive := 0; timeSpentIdle := 0;
     idleStartTime := None; lastBlurTime := None;
     endTime := None; duration := None;
     finalFocusScore := None; productivityScore := None |}.

(** an ended session, for the examples *)
Definition ended_session (focus active idle dist dur : Z) (c : Category) : Session :=
  {| sessionId := "s"; tabId := 1; url := "u"; domain := "d"; title := "t";
     startTime := 0; category := c; focusScore := focus; activityScore := 100;
     distractions := dist; keystrokes := 0; mouseMovements := 0; scrolls := 0;
     clicks := 0; timeSpentActive := active; timeSpentIdle := idle;
     idleStartTime := None; lastBlurTime := None; endTime := Some dur;
     duration := Some dur; finalFocusScore := None; productivityScore := None |}.

Definition ended_80 : Session :=
  set_ended (ended_session 100 1500000 0 0 1500000 productive)
    (Some 1500000%Z) (Some 1500000%Z) (Some (num_of_Z 80)) None.

(** ** Lemmas *)

Lemma finalFocusScore_zero_time (s : Session) :
  timeSpentActive s = 0%Z -> timeSpentIdle s = 0%Z -> calculateFinalFocusScore s = NaN.
Proof. unfold calculateFinalFocusScore. intros -> ->. reflexivity. Qed.

Lemma finalFocusScore_finite_raw (s : Session) (d : Z) :
  duration s = Some d ->
  (timeSpentActive s + timeSpentIdle s)%Z <> 0%Z ->
  calculateFinalFocusScore s <> NaN.
Proof.
  intros Hd Hsum. unfold calculateFinalFocusScore. rewrite Hd, num_add_Z.
  match goal with |- js_max _ (js_min _ (js_round ?x)) <> NaN =>
    assert (Hx : finite x) by (cbn [num_field]; eauto 10 with tracker);
    destruct (clamp_round_cases 0 100 x ltac:(lia)) as [[Hn _]|[_ [z [Hz _]]]] end.
  - by apply finite_not_nan in Hx.
  - by rewrite Hz.
Qed.

(** ** Theorems *)

(** C9: [calculateFinalFocusScore] is [NaN] or an integer in [[0, 100]]:
    the clamp and the rounding keep every number in range, but a [NaN]
    passes through [Math.min] and [Math.max]. *)
Theorem finalFocusScore_range (s : Session) :
  calculateFinalFocusScore s = NaN \/ int_between 0 100 (calculateFinalFocusScore s).
Proof.
  unfold calculateFinalFocusScore.
  match goal with |- context [js_max _ (js_min _ (js_round ?x))] =>
    destruct (clamp_round_cases 0 100 x ltac:(lia)) as [[_ ->]|[_ H]]; auto end.
Qed.

(** C8: for a session that has ended (its duration is set) and whose
    accumulators are not negative, the final focus score is [NaN] exactly
    when no active and no idle time was recorded: [activityRatio] is then
    [0 / 0].  The specification says that this ratio counts as 1. *)
Theorem finalFocusScore_nan_iff (s : Session) (d : Z) :
  (0 <= timeSpentActive s)%Z -> (0 <= timeSpentIdle s)%Z -> duration s = Some d ->
  calculateFinalFocusScore s = NaN <-> timeSpentActive s = 0%Z /\ timeSpentIdle s = 0%Z.
Proof.
  intros Ha Hi Hd. split.
  - intros Hn. destruct (decide ((timeSpentActive s + timeSpentIdle s)%Z = 0%Z)); [lia|].
    by destruct (finalFocusScore_finite_raw s d Hd).
  - intros [H1 H2]. by apply finalFocusScore_zero_time.
Qed.

Lemma finalFocusScore_nan_iff_witness :
  (0 <= timeSpentActive (ended_session 100 0 0 0 60000 neutral))%Z /\
  (0 <= timeSpentIdle (ended_session 100 0 0 0 60000 neutral))%Z /\
  duration (ended_session 100 0 0 0 60000 neutral) = Some 60000%Z /\
  calculateFinalFocusScore (ended_session 100 0 0 0 60000 neutral) = NaN.
Proof.
  split; [simpl; lia|]. split; [simpl; lia|]. split; [reflexivity|].
  apply (proj2 (finalFocusScore_nan_iff (ended_session 100 0 0 0 60000 neutral) 60000
                  ltac:(simpl; lia) ltac:(simpl; lia) eq_refl)).
  split; reflexivity.
Defined.

(** The worked examples of the specification: a 25-minute session with
    no idle time keeps its focus score of 100; two distractions take 10
    points off; a [productive] session with final focus 80 scores 64. *)
Example score_examples :
  calculateFinalFocusScore (ended_session 100 1500000 0 0 1500000 productive) = num_of_Z 100 /\
  calculateFinalFocusScore (ended_session 100 1500000 0 2 1500000 productive) = num_of_Z 90 /\
  calculateProductivityScore
    (set_ended (ended_session 100 1500000 0 0 1500000 productive)
       (Some 1500000%Z) (Some 1500000%Z) (Some (num_of_Z 80)) None) = num_of_Z 64.
Proof. vm_compute. repeat split. Qed.

Lemma categoryScores_range (c : Category) : (0 <= categoryScores c <= 100)%Z.
Proof. destruct c; simpl; lia. Qed.

(** C15: given a final focus score that is [NaN] or an integer in
    [[0, 100]], the productivity score is [NaN] in the first case and an
    integer in [[0, 100]] in the second. *)
Theorem productivityScore_range (s : Session) (f : num) :
  finalFocusScore s = Some f -> (f = NaN \/ int_between 0 100 f) ->
  (f = NaN /\ calculateProductivityScore s = NaN) \/
  (f <> NaN /\ int_between 0 100 (calculateProductivityScore s)).
Proof.
  intros Hf [->|[z [-> Hz]]]; unfold calculateProductivityScore; rewrite Hf.
  - left. split; [done|]. reflexivity.
  - right. split; [done|]. cbn [score_field].
    rewrite num_div_Z_pos, num_mul_Z_Fin by lia.
    apply js_round_between.
    pose proof (categoryScores_range (category s)) as Hb.
    rewrite !Zle_Qle in Hz, Hb.
    set (b := inject_Z (categoryScores (category s))) in *.
    set (q := inject_Z z) in *. change (inject_Z 0) with 0 in *.
    change (inject_Z 100) with 100 in *.
    assert (Hq : (0 <= q / 100 <= 1)%Q) by (split; [apply Qle_shift_div_l | apply Qle_shift_div_r]; lra).
    split; [apply Qmult_le_0_compat; lra|].
    rewrite (Qmult_comm b). apply Qle_trans with (1 * b)%Q; [apply Qmult_le_compat_r; lra | lra].
Qed.

Lemma productivityScore_range_witness :
  finalFocusScore ended_80 = Some (num_of_Z 80) /\
  ((num_of_Z 80 = NaN /\ calculateProductivityScore ended_80 = NaN) \/
   (num_of_Z 80 <> NaN /\ int_between 0 100 (calculateProductivityScore ended_80))).
Proof.
  split; [reflexivity|].
  apply (productivityScore_range ended_80 (num_of_Z 80) eq_refl).
  right. exists 80%Z. split; [reflexivity|lia].
Defined.

(** [calculateActivityScore] is 100 during the first minute of a
    session, whatever the counters, and otherwise one of the four bands
    100, 80, 60 and 40. *)
Theorem activityScore_bands (s : Session) (now : Z) :
  ((now - startTime s < 60000)%Z -> calculateActivityScore s now = 100%Z) /\
  calculateActivityScore s now ∈ [100; 80; 60; 40]%Z.
Proof.
  unfold calculateActivityScore. split.
  - intros Hlt. by rewrite (proj2 (Z.ltb_lt _ _) Hlt).
  - repeat case_match; apply list_elem_of_In; simpl; tauto.
Qed.
