(* ===== verification/Storage.v ===== *)
(** * Local persistence of [src/background.js]: [chrome.storage.local]

    The key-value store the extension writes, the settings it keeps there
    and their merge in [updateSettings], the writes of [saveSessionData],
    [updateDailyAggregates] with the abstract summary of a day it
    refines, and [cleanupOldData]. *)

From stdpp Require Import base decidable countable gmap strings list.
From Stdlib Require Import QArith Qfield ZArith Lia Lqa Ascii.
From S2P Require Import Prelude Classifier Scoring.

Local Open Scope js_scope.

(** ** Settings: the object of the constructor, merged with the stored one *)

Record Settings : Type := {
  focusMode : bool;
  breakReminders : bool;
  deepWorkMode : bool;
  pomodoroTimer : bool;
  blockDistractions : bool;
  trackMouseMovement : bool;
  trackKeystrokes : bool;
  idleThreshold : Z;
  breakInterval : Z;
  pomodoroLength : Z
}.

Definition default_settings : Settings :=
  {| focusMode := false; breakReminders := true; deepWorkMode := false;
     pomodoroTimer := false; blockDistractions := false;
     trackMouseMovement := true; trackKeystrokes := true;
     idleThreshold := 300000; breakInterval := 3000000; pomodoroLength := 1500000 |}.

(** A partial settings object, as sent with [updateSettings]: a missing
    key keeps the current value under [{ ...this.settings, ...newSettings }]. *)
Record SettingsPatch : Type := {
  p_focusMode : option bool;
  p_breakReminders : option bool;
  p_deepWorkMode : option bool;
  p_pomodoroTimer : option bool;
  p_blockDistractions : option bool;
  p_trackMouseMovement : option bool;
  p_trackKeystrokes : option bool;
  p_idleThreshold : option Z;
  p_breakInterval : option Z;
  p_pomodoroLength : option Z
}.

Definition keep {A} (o : option A) (x : A) : A := match o with Some y => y | None => x end.

(** [{ ...s, ...p }] *)
Definition merge_settings (s : Settings) (p : SettingsPatch) : Settings :=
  {| focusMode := keep (p_focusMode p) (focusMode s);
     breakReminders := keep (p_breakReminders p) (breakReminders s);
     deepWorkMode := keep (p_deepWorkMode p) (deepWorkMode s);
     pomodoroTimer := keep (p_pomodoroTimer p) (pomodoroTimer s);
     blockDistractions := keep (p_blockDistractions p) (blockDistractions s);
     trackMouseMovement := keep (p_trackMouseMovement p) (trackMouseMovement s);
     trackKeystrokes := keep (p_trackKeystrokes p) (trackKeystrokes s);
     idleThreshold := keep (p_idleThreshold p) (idleThreshold s);
     breakInterval := keep (p_breakInterval p) (breakInterval s);
     pomodoroLength := keep (p_pomodoroLength p) (pomodoroLength s) |}.

Definition patch_of_settings (s : Settings) : SettingsPatch :=
  {| p_focusMode := Some (focusMode s); p_breakReminders := Some (breakReminders s);
     p_deepWorkMode := Some (deepWorkMode s); p_pomodoroTimer := Some (pomodoroTimer s);
     p_blockDistractions := Some (blockDistractions s);
     p_trackMouseMovement := Some (trackMouseMovement s);
     p_trackKeystrokes := Some (trackKeystrokes s);
     p_idleThreshold := Some (idleThreshold s); p_breakInterval := Some (breakInterval s);
     p_pomodoroLength := Some (pomodoroLength s) |}.

(** ** The daily aggregate object *)

Record Daily : Type := {
  date : string;
  totalTime : num;
  productiveTime : num;
  sessions : Z;
  averageFocus : num;
  categories : gmap Category num
}.

(** ** The store *)

Inductive Value : Type :=
  | VSession (s : Session)
  | VDaily (d : Daily)
  | VSettings (p : SettingsPatch)
  | VUserId (u : string).

Abbreviation Store := (gmap string Value).

(** [new Date(t).toDateString()]: the calendar depends on the time zone
    of the browser, so it is a parameter of the model. *)
Class Calendar := toDateString : Z -> string.

Definition dailyKey (today : string) : string := "daily_" +:+ today.
Definition sessionKey (startTime : Z) : string := "session_" +:+ Z_to_dec startTime.

Definition empty_daily (today : string) : Daily :=
  {| date := today; totalTime := num_of_Z 0; productiveTime := num_of_Z 0;
     sessions := 0; averageFocus := num_of_Z 0; categories := ∅ |}.

Definition is_productive (c : Category) : bool :=
  match c with productive | highly_productive => true | _ => false end.

(** [x || 0] on a number that may be absent: [undefined] and [NaN] are
    falsy *)
Definition or_zero (o : option num) : num :=
  match o with Some NaN | None => num_of_Z 0 | Some a => a end.

(** the body of [updateDailyAggregates] on the object read from the store *)
Definition add_to_daily (dailyData : Daily) (session : Session) : Daily :=
  let dur := num_field (duration session) in
  let n := (sessions dailyData + 1)%Z in
  {| date := date dailyData;
     totalTime := totalTime dailyData + dur;
     productiveTime :=
       if is_productive (category session) then productiveTime dailyData + dur
       else productiveTime dailyData;
     sessions := n;
     averageFocus :=
       (averageFocus dailyData * num_of_Z (n - 1) + score_field (finalFocusScore session))
         / num_of_Z n;
     categories :=
       <[category session :=
           or_zero (categories dailyData !! category session) + dur]>
         (categories dailyData) |}.

(** [existing[dailyKey] || { ...fresh... }]: the daily keys only ever hold
    daily objects. *)
Definition updateDailyAggregates `{Calendar} (now : Z) (session : Session) (st : Store) : Store :=
  let today := toDateString now in
  let dailyData :=
    match st !! dailyKey today with
    | Some (VDaily d) => d
    | _ => empty_daily today
    end in
  <[dailyKey today := VDaily (add_to_daily dailyData session)]> st.

(** The store writes of [saveSessionData]: the session under its start time and as
    [lastSession], then the aggregate. *)
Definition storeSessionData `{Calendar} (now : Z) (session : Session) (st : Store) : Store :=
  let st := <[sessionKey (startTime session) := VSession session]>
              (<["lastSession" := VSession session]> st) in
  updateDailyAggregates now session st.

(** ** What a day's aggregate promises

    The abstract summary of the sessions of a day, in [Z] and [Q]. *)

Definition dur_of (s : Session) : Z := default 0%Z (duration s).
Definition focus_of (s : Session) : Q :=
  match finalFocusScore s with Some (Fin q) => q | _ => 0 end.

(** an ended session with a finite final focus score *)
Definition ended_ok (s : Session) : Prop :=
  is_Some (duration s) /\ exists q, finalFocusScore s = Some (Fin q).

Definition daily_matches (d : Daily) (ss : list Session) : Prop :=
  totalTime d ≃ num_of_Z (sumZ (map dur_of ss)) /\
  productiveTime d ≃
    num_of_Z (sumZ (map dur_of (List.filter (fun s => is_productive (category s)) ss))) /\
  sessions d = Z.of_nat (length ss) /\
  (exists q, averageFocus d = Fin q /\ q * inject_Z (Z.of_nat (length ss)) == sumQ (map focus_of ss))%Q /\
  (forall c, or_zero (categories d !! c) ≃
               num_of_Z (sumZ (map dur_of (List.filter (fun s => bool_decide (category s = c)) ss)))).

Definition daily_of (st : Store) (today : string) : Daily :=
  match st !! dailyKey today with
  | Some (VDaily d) => d
  | _ => empty_daily today
  end.

(** ** [cleanupOldData]

    The keys of the form [session_<startTime>] whose start time is more
    than 30 days before [now] are removed; [parseInt] of the second
    ['_']-separated field reads the time back. *)

Definition key_timestamp (key : string) : num :=
  match split_on "_"%char key !! 1%nat with
  | Some f => parseInt f
  | None => NaN
  end.

Definition should_remove (cutoffDate : Z) (key : string) : bool :=
  startsWith key "session_" && num_ltb (key_timestamp key) (num_of_Z cutoffDate).

Definition cleanupOldData (now : Z) (st : Store) : Store :=
  let cutoffDate := (now - 30 * 24 * 60 * 60 * 1000)%Z in
  filter (fun kv => should_remove cutoffDate kv.1 = false) st.

(** A calendar for the examples: the UTC day number. *)
#[export] Instance utc_day_calendar : Calendar := fun t => Z_to_dec (t / 86400000)%Z.

Definition example_session (dur final : Z) (c : Category) : Session :=
  set_ended (ended_session 100 dur 0 0 dur c) (Some dur) (Some dur) (Some (num_of_Z final)) None.

(** ** Lemmas *)

Lemma num_field_dur (s : Session) : is_Some (duration s) -> num_field (duration s) = num_of_Z (dur_of s).
Proof. intros [d Hd]. unfold dur_of. by rewrite Hd. Qed.

Lemma sumZ_snoc (l : list Z) (x : Z) : sumZ (l ++ [x]) = (sumZ l + x)%Z.
Proof. rewrite sumZ_app. unfold sumZ at 2. simpl. lia. Qed.

Lemma or_zero_Z (z : Z) : or_zero (Some (num_of_Z z)) = num_of_Z z.
Proof. reflexivity. Qed.

Lemma or_zero_proper (a b : option num) :
  option_Forall2 num_eq a b -> or_zero a ≃ or_zero b.
Proof. intros [x y H|]; [|done]. destruct x, y; simpl in *; try done. Qed.

Lemma daily_matches_empty (t : string) : daily_matches (empty_daily t) [].
Proof.
  repeat split; try done. exists 0%Q. split; [done|]. reflexivity.
Qed.

Lemma or_zero_finite (a : num) : finite a -> or_zero (Some a) = a.
Proof. by intros [q ->]. Qed.

Lemma daily_matches_step (d : Daily) (ss : list Session) (s : Session) :
  ended_ok s -> daily_matches d ss -> daily_matches (add_to_daily d s) (ss ++ [s]).
Proof.
  intros [Hd [x Hx]] (Ht & Hp & Hn & (q & Hq & Hqs) & Hc).
  unfold add_to_daily. rewrite (num_field_dur s Hd), Hn, Hx. unfold daily_matches.
  cbn [totalTime productiveTime sessions averageFocus categories score_field].
  rewrite length_app, !List.filter_app, !map_app, !sumZ_app.
  split; [|split; [|split; [|split]]].
  - rewrite Ht, num_add_Z. simpl. by rewrite sumZ_single.
  - destruct (is_productive (category s)) eqn:E; simpl; rewrite ?E; simpl.
    + rewrite Hp, num_add_Z, sumZ_single. reflexivity.
    + rewrite Z.add_0_r. exact Hp.
  - simpl. lia.
  - rewrite Hq. replace (Z.of_nat (length ss) + 1 - 1)%Z with (Z.of_nat (length ss)) by lia.
    rewrite num_mul_add_Fin, num_div_Fin_pos by lia.
    eexists; split; [reflexivity|].
    rewrite sumQ_app, <- Hqs. simpl. unfold focus_of, sumQ. rewrite Hx. simpl.
    rewrite !inject_Z_plus. change (inject_Z (Z.of_nat 1)) with 1%Q. change (inject_Z 1) with 1%Q.
    assert (Hpos : (0 <= inject_Z (Z.of_nat (length ss)))%Q)
      by (change 0%Q with (inject_Z 0); rewrite <- Zle_Qle; lia).
    rewrite Nat2Z.inj_add, inject_Z_plus. change (inject_Z (Z.of_nat 1)) with 1%Q.
    set (n := inject_Z (Z.of_nat (length ss))) in *.
    field. lra.
  - intros c. rewrite List.filter_app, map_app, sumZ_app. specialize (Hc c).
    destruct (decide (category s = c)) as [<-|Hne].
    + rewrite lookup_insert_eq, or_zero_finite by eauto with tracker.
      simpl. rewrite bool_decide_true by done. simpl.
      rewrite Hc, num_add_Z, sumZ_single. reflexivity.
    + rewrite lookup_insert_ne by done. simpl. rewrite bool_decide_false by done.
      simpl. by rewrite Z.add_0_r.
Qed.

Lemma updateDailyAggregates_lookup `{Calendar} (t : Z) (s : Session) (st : Store) :
  updateDailyAggregates t s st !! dailyKey (toDateString t) =
  Some (VDaily (add_to_daily (daily_of st (toDateString t)) s)).
Proof. unfold updateDailyAggregates, daily_of. by rewrite lookup_insert_eq. Qed.

Lemma updateDailyAggregates_other `{Calendar} (t : Z) (s : Session) (st : Store) (k : string) :
  k <> dailyKey (toDateString t) -> updateDailyAggregates t s st !! k = st !! k.
Proof. intros Hk. unfold updateDailyAggregates. by rewrite lookup_insert_ne. Qed.

Lemma daily_matches_mean (d : Daily) (ss : list Session) :
  daily_matches d ss -> ss <> [] ->
  averageFocus d ≃ Fin (sumQ (map focus_of ss) / inject_Z (Z.of_nat (length ss))).
Proof.
  intros (_ & _ & _ & (q & -> & Hq) & _) Hne. simpl. rewrite <- Hq.
  assert (Hpos : (0 < inject_Z (Z.of_nat (length ss)))%Q).
  { change 0%Q with (inject_Z 0). rewrite <- Zlt_Qlt. destruct ss; [done|]. simpl. lia. }
  field. lra.
Qed.

(** ** Theorems *)

Section Aggregates.
Context `{Calendar}.

(** C10: the aggregate a day's sessions leave in the store is their
    summary: total, productive and per-category time are the sums of the
    durations, [sessions] counts them, and [averageFocus] (a running
    mean) is the arithmetic mean of the final focus scores, for sessions
    that ended with a finite score. *)
Theorem daily_aggregate_refines (today : string) (evs : list (Z * Session)) (st : Store) :
  st !! dailyKey today = None ->
  Forall (fun ev => toDateString ev.1 = today /\ ended_ok ev.2) evs ->
  evs <> [] ->
  exists d,
    foldl (fun st ev => updateDailyAggregates ev.1 ev.2 st) st evs !! dailyKey today
      = Some (VDaily d) /\
    daily_matches d (map snd evs) /\
    averageFocus d ≃
      Fin (sumQ (map focus_of (map snd evs)) / inject_Z (Z.of_nat (length evs))).
Proof.
  intros Hst Hall Hne. cut (exists d,
    daily_of (foldl (fun st ev => updateDailyAggregates ev.1 ev.2 st) st evs) today = d /\
    (evs <> [] ->
     foldl (fun st ev => updateDailyAggregates ev.1 ev.2 st) st evs !! dailyKey today
       = Some (VDaily d)) /\
    daily_matches d (map snd evs)).
  { intros (d & _ & Hl & Hm). exists d. split; [by apply Hl|]. split; [done|].
    rewrite (daily_matches_mean d _ Hm) by (by destruct evs).
    by rewrite length_map. }
  clear Hne. induction evs as [|[t s] evs IH] using rev_ind.
  - exists (empty_daily today). split; [unfold daily_of; simpl; by rewrite Hst|].
    split; [done|]. apply daily_matches_empty.
  - apply Forall_app in Hall as [Hall [[Ht Hs] _]%Forall_cons]. simpl in Ht, Hs.
    destruct (IH Hall) as (d & Hd & _ & Hm).
    exists (add_to_daily d s). rewrite foldl_app. simpl.
    assert (Hl : updateDailyAggregates t s
                   (foldl (fun st ev => updateDailyAggregates ev.1 ev.2 st) st evs)
                   !! dailyKey today = Some (VDaily (add_to_daily d s)))
      by (rewrite <- Ht, updateDailyAggregates_lookup, Ht, Hd; done).
    split; [unfold daily_of; by rewrite Hl|]. split; [done|].
    rewrite map_app. by apply daily_matches_step.
Qed.
End Aggregates.

Lemma daily_aggregate_refines_witness :
  exists d,
    foldl (fun st ev => updateDailyAggregates ev.1 ev.2 st) ∅
      [(1000000%Z, example_session 600000 100 productive);
       (2000000%Z, example_session 300000 50 neutral)] !! dailyKey (toDateString 1000000%Z)
      = Some (VDaily d) /\
    daily_matches d [example_session 600000 100 productive; example_session 300000 50 neutral] /\
    averageFocus d ≃ Fin (sumQ (map focus_of [example_session 600000 100 productive;
                                              example_session 300000 50 neutral]) / inject_Z 2).
Proof.
  apply (daily_aggregate_refines (toDateString 1000000%Z)
           [(1000000%Z, example_session 600000 100 productive);
            (2000000%Z, example_session 300000 50 neutral)] ∅).
  - reflexivity.
  - repeat constructor; try reflexivity; eexists; reflexivity.
  - discriminate.
Defined.

(** The example of the specification: after a 10-minute [productive]
    session with final focus 100 and a 5-minute [neutral] one with final
    focus 50, the day has 900000 ms in all, 600000 ms of productive time,
    two sessions and an average focus of 75. *)
Example daily_example :
  match updateDailyAggregates 2000000 (example_session 300000 50 neutral)
          (updateDailyAggregates 1000000 (example_session 600000 100 productive) ∅)
          !! dailyKey (toDateString 1000000%Z) with
  | Some (VDaily d) =>
      totalTime d = num_of_Z 900000 /\ productiveTime d = num_of_Z 600000 /\
      sessions d = 2%Z /\ averageFocus d ≃ num_of_Z 75
  | _ => False
  end.
Proof. vm_compute. repeat split. Qed.

(** ** Keys *)

Lemma sessionKey_not_daily (z : Z) (d : string) : sessionKey z <> dailyKey d.
Proof. unfold sessionKey, dailyKey. intros H%(f_equal (String.get 0)). vm_compute in H. congruence. Qed.

Lemma sessionKey_not_userId (z : Z) : sessionKey z <> "userId".
Proof. unfold sessionKey. intros H%(f_equal (String.get 0)). vm_compute in H. congruence. Qed.

Lemma sessionKey_not_last (z : Z) : sessionKey z <> "lastSession".
Proof. unfold sessionKey. intros H%(f_equal (String.get 0)). vm_compute in H. congruence. Qed.

Lemma storeSessionData_lookup `{Calendar} (now : Z) (s : Session) (st : Store) :
  storeSessionData now s st !! sessionKey (startTime s) = Some (VSession s).
Proof.
  unfold storeSessionData. rewrite updateDailyAggregates_other by apply sessionKey_not_daily.
  by rewrite lookup_insert_eq.
Qed.

#[export] Hint Resolve sessionKey_not_daily sessionKey_not_userId sessionKey_not_last : tracker.

(** ** Cleaning up *)

Lemma key_timestamp_sessionKey (t : Z) : key_timestamp (sessionKey t) = num_of_Z t.
Proof.
  unfold key_timestamp, sessionKey.
  assert (Hs : split_on "_"%char (Z_to_dec t) = [Z_to_dec t]).
  { apply split_on_no_sep, has_char_Z_to_dec; [done|].
    intros d Hd Heq. pose proof (digit_value_char d Hd) as Hv. rewrite <- Heq in Hv. done. }
  rewrite !str_app_String. change (EmptyString +:+ Z_to_dec t) with (Z_to_dec t).
  cbn [split_on]. rewrite Hs. cbn.
  apply parseInt_Z_to_dec.
Qed.

Lemma should_remove_sessionKey (cutoff t : Z) :
  should_remove cutoff (sessionKey t) = (t <? cutoff)%Z.
Proof.
  unfold should_remove. rewrite key_timestamp_sessionKey, num_ltb_Z.
  unfold sessionKey. by rewrite startsWith_app.
Qed.

Lemma should_remove_dailyKey (cutoff : Z) (d : string) : should_remove cutoff (dailyKey d) = false.
Proof. unfold should_remove, dailyKey. rewrite !str_app_String. reflexivity. Qed.

Lemma cleanupOldData_lookup (now : Z) (st : Store) (k : string) :
  cleanupOldData now st !! k =
  if should_remove (now - 2592000000)%Z k then None else st !! k.
Proof.
  unfold cleanupOldData. rewrite map_lookup_filter.
  destruct (st !! k); cbn; destruct (should_remove _ k); cbn; try done.
  all: first [rewrite option_guard_True by done | rewrite option_guard_False by done]; done.
Qed.

(** C11: [cleanupOldData] removes the stored session whose start time is
    more than 30 days (2592000000 ms) before [now], and keeps every
    younger one: the key it was stored under reads its start time back. *)
Theorem cleanupOldData_sessions (now t : Z) (st : Store) :
  cleanupOldData now st !! sessionKey t =
  if (t <? now - 2592000000)%Z then None else st !! sessionKey t.
Proof. by rewrite cleanupOldData_lookup, should_remove_sessionKey. Qed.

(** C12: [cleanupOldData] never removes a daily aggregate, however old:
    the specification asks for old session and daily data to be removed. *)
Theorem cleanupOldData_keeps_daily (now : Z) (d : string) (st : Store) :
  cleanupOldData now st !! dailyKey d = st !! dailyKey d.
Proof. by rewrite cleanupOldData_lookup, should_remove_dailyKey. Qed.
