(* ===== verification/Tracker.v ===== *)
(** * The background tracker of [src/background.js]

    The [EnterpriseTimeTracker] object: its state (the current session, the
    settings, [chrome.storage.local]), the browser it talks to, and every
    handler the event listeners call, as computations of the [js] monad of
    the prelude.  The dispatcher [dispatch] and the step relation [step] at
    the end are the event loop. *)

From stdpp Require Import base decidable countable gmap strings list.
From Stdlib Require Import QArith ZArith Lia.
From S2P Require Import Prelude Classifier Scoring Storage.

(** ** The browser *)

(** the part of a [chrome.tabs.Tab] the tracker reads *)
Record Tab : Type := {
  tab_id : Z;
  tab_url : option string;
  tab_title : option string;
  tab_active : bool
}.

(** What the tracker cannot see but depends on: the clock ([Date.now()]),
    the tabs [chrome.tabs.get] looks up, whether [fetch] reaches the
    backend, and the values [Math.random().toString(36).substr(2, 9)] will
    produce. *)
Record World : Type := {
  clock : Z;
  tabs : gmap Z Tab;
  network_up : bool;
  randoms : list string
}.

(** ** What the tracker sends out *)

Record SyncPayload : Type := {
  pl_userId : string;
  pl_sessionId : string;
  pl_domain : string;
  pl_url : string;
  pl_title : string;
  pl_timeSpent : option Z;
  pl_category : Category;
  pl_focusScore : option num;
  pl_productivityScore : option num;
  pl_distractions : Z;
  pl_keystrokes : Z;
  pl_mouseMovements : Z;
  pl_scrolls : Z;
  pl_clicks : Z;
  pl_timeSpentActive : Z;
  pl_timeSpentIdle : Z;
  pl_startTime : Z;
  pl_endTime : option Z
}.

Inductive Response : Type :=
  | RSettings (s : Settings)
  | RSuccess
  | RSession (s : option Session)
  | RBool (b : bool)
  | RDailyStats.

Inductive Effect : Type :=
  | CreateAlarm (name : string) (periodInMinutes : Z)
  | Notify (id : string)
  | SetBadgeText (text : string)
  | SetBadgeColor (color : string)
  | InjectContentScript (tabId : Z)
  | PostActivity (p : SyncPayload)
  | Respond (r : Response)
  | RetryQueued (sessionId : string).

(** ** Methods the class calls but does not define

    [background.js] calls [getCustomCategory], [queueForRetry],
    [updateRealTimeAnalytics], [trackNavigation], [getSessionsForDate],
    [calculateDailySummary], [getDailyStats] and [startPomodoroTimer] on
    [this], and defines none of them: each call throws a [TypeError].  An
    [Extensions] record says which of them a completed program would
    provide; [source_methods] is the repository as it is.  A provided
    method is assumed to leave the tracker's state alone, but for the effect
    recorded for it. *)
Record Extensions : Type := {
  getCustomCategory : option (string -> option Category);
  queueForRetry : bool;
  updateRealTimeAnalytics : bool;
  trackNavigation : bool;
  getSessionsForDate : bool;
  calculateDailySummary : bool;
  getDailyStats : bool;
  startPomodoroTimer : bool
}.

Definition source_methods : Extensions :=
  {| getCustomCategory := None; queueForRetry := false; updateRealTimeAnalytics := false;
     trackNavigation := false; getSessionsForDate := false; calculateDailySummary := false;
     getDailyStats := false; startPomodoroTimer := false |}.

(** ** The tracker object *)

Record Tracker : Type := {
  currentSession : option Session;
  settings : Settings;
  store : Store;
  effects : list Effect;
  world : World
}.

Abbreviation T := (js Tracker).

Definition with_session (s : Tracker) (o : option Session) : Tracker :=
  {| currentSession := o; settings := settings s; store := store s;
     effects := effects s; world := world s |}.
Definition with_settings (s : Tracker) (st : Settings) : Tracker :=
  {| currentSession := currentSession s; settings := st; store := store s;
     effects := effects s; world := world s |}.
Definition with_store (s : Tracker) (st : Store) : Tracker :=
  {| currentSession := currentSession s; settings := settings s; store := st;
     effects := effects s; world := world s |}.
Definition with_effects (s : Tracker) (es : list Effect) : Tracker :=
  {| currentSession := currentSession s; settings := settings s; store := store s;
     effects := es; world := world s |}.
Definition with_world (s : Tracker) (w : World) : Tracker :=
  {| currentSession := currentSession s; settings := settings s; store := store s;
     effects := effects s; world := w |}.

(** ** Primitive operations *)

Definition get_session : T (option Session) := fun s => (s, Done (currentSession s)).
Definition put_session (o : option Session) : T unit := fun s => (with_session s o, Done tt).
Definition get_settings : T Settings := fun s => (s, Done (settings s)).
Definition put_settings (st : Settings) : T unit := fun s => (with_settings s st, Done tt).
Definition store_get (k : string) : T (option Value) := fun s => (s, Done (store s !! k)).
Definition store_update (f : Store -> Store) : T unit :=
  fun s => (with_store s (f (store s)), Done tt).
Definition emit (e : Effect) : T unit :=
  fun s => (with_effects s (effects s ++ [e]), Done tt).

(** [Date.now()] *)
Definition date_now : T Z := fun s => (s, Done (clock (world s))).

(** [Math.random().toString(36).substr(2, 9)] *)
Definition random36 : T string := fun s =>
  match randoms (world s) with
  | [] => (s, Done "0")
  | r :: rs =>
      (with_world s {| clock := clock (world s); tabs := tabs (world s);
                       network_up := network_up (world s); randoms := rs |}, Done r)
  end.

(** [await chrome.tabs.get(tabId)]: rejects for a tab that does not exist *)
Definition tabs_get (id : Z) : T Tab := fun s =>
  match tabs (world s) !! id with
  | Some t => (s, Done t)
  | None => (s, Thrown (Rejection "No tab with id"))
  end.

(** [await fetch(...)]: rejects only when the network is down; an HTTP
    error status resolves *)
Definition fetch_post (p : SyncPayload) : T unit := fun s =>
  if network_up (world s) then (with_effects s (effects s ++ [PostActivity p]), Done tt)
  else (s, Thrown (Rejection "Failed to fetch")).

Definition call_missing {A} (name : string) : T A :=
  js_throw (TypeError (name +:+ " is not a function")).

(** a provided method of [Extensions], or the [TypeError] of a missing one *)
Definition call_method (provided : bool) (name : string) (after : T unit) : T unit :=
  if provided then after else call_missing name.

Definition lift_outcome {A} (o : outcome A) : T A := fun s => (s, o).

(** ** The methods of [EnterpriseTimeTracker] *)

Section Methods.
Context `{Calendar} (ext : Extensions).

Definition generateSessionId : T string :=
  t ← date_now; r ← random36;
  mret ("session_" +:+ Z_to_dec t +:+ "_" +:+ r).

Definition updateBadge (category : Category) : T unit :=
  let text := match category with
              | highly_productive => "++" | productive => "+"
              | unproductive => "-" | _ => "" end in
  let color := match category with
               | highly_productive => "#00C851" | productive => "#4CAF50"
               | neutral => "#FF9800" | unproductive => "#F44336"
               | break => "#2196F3" end in
  emit (SetBadgeText text);; emit (SetBadgeColor color).

Definition startActivityMonitoring (tabId : Z) : T unit :=
  st ← get_settings;
  if negb (trackMouseMovement st) && negb (trackKeystrokes st) then mret tt
  else emit (InjectContentScript tabId).

Definition applyFocusMode (session : Session) : T unit :=
  st ← get_settings;
  if bool_decide (category session = unproductive) && blockDistractions st then
    emit (Notify ("focus_alert_" +:+ sessionId session))
  else if bool_decide (category session = highly_productive) then
    (if deepWorkMode st then emit (Notify ("deep_work_" +:+ sessionId session)) else mret tt)
  else mret tt.

(** [startNewSession(tab)], for a tab whose [url] was checked by the
    caller; the object literal is evaluated in order, and the [await] on
    [categorizeWebsite] comes before [this.currentSession] is set *)
Definition startNewSession (tab : Tab) (u : string) : T unit :=
  sid ← generateSessionId;
  t ← date_now;
  cat ← lift_outcome (categorizeWebsite (getCustomCategory ext) u);
  let title := match tab_title tab with Some x => if String.eqb x "" then "Unknown" else x
                                        | None => "Unknown" end in
  let sessionData := sessionData sid (tab_id tab) u (extractDomain u) title t cat in
  put_session (Some sessionData);;
  st ← get_settings;
  (if focusMode st then applyFocusMode sessionData else mret tt);;
  startActivityMonitoring (tab_id tab);;
  updateBadge cat.

Definition getUserId : T string :=
  v ← store_get "userId";
  match v with
  | Some (VUserId u) => if String.eqb u "" then
                          t ← date_now; r ← random36;
                          let u' := "user_" +:+ Z_to_dec t +:+ "_" +:+ r in
                          store_update (insert "userId" (VUserId u'));; mret u'
                        else mret u
  | _ => t ← date_now; r ← random36;
         let u' := "user_" +:+ Z_to_dec t +:+ "_" +:+ r in
         store_update (insert "userId" (VUserId u'));; mret u'
  end.

Definition payload_of (userId : string) (session : Session) : SyncPayload :=
  {| pl_userId := userId; pl_sessionId := sessionId session; pl_domain := domain session;
     pl_url := url session; pl_title := title session; pl_timeSpent := duration session;
     pl_category := category session; pl_focusScore := finalFocusScore session;
     pl_productivityScore := productivityScore session;
     pl_distractions := distractions session; pl_keystrokes := keystrokes session;
     pl_mouseMovements := mouseMovements session; pl_scrolls := scrolls session;
     pl_clicks := clicks session; pl_timeSpentActive := timeSpentActive session;
     pl_timeSpentIdle := timeSpentIdle session; pl_startTime := startTime session;
     pl_endTime := endTime session |}.

(** [syncWithBackend(session)]: the [catch] calls [queueForRetry] *)
Definition syncWithBackend (session : Session) : T unit :=
  js_catch (userId ← getUserId; fetch_post (payload_of userId session))
           (fun _ => call_method (queueForRetry ext) "this.queueForRetry"
                       (emit (RetryQueued (sessionId session)))).

Definition saveSessionData (session : Session) : T unit :=
  t ← date_now; store_update (storeSessionData t session).

(** The three assignments of [endCurrentSession] to the session object:
    [endTime] and [duration], then the final focus score, then the
    productivity score (which reads the final focus score). *)
Definition ended_copy (session : Session) (t : Z) : Session :=
  let s1 := set_ended session (Some t) (Some (t - startTime session)%Z)
              (finalFocusScore session) (productivityScore session) in
  let s2 := set_ended s1 (endTime s1) (duration s1)
              (Some (calculateFinalFocusScore s1)) (productivityScore s1) in
  set_ended s2 (endTime s2) (duration s2) (finalFocusScore s2)
    (Some (calculateProductivityScore s2)).

(** [endCurrentSession()]: [session] is the object [this.currentSession]
    points to, so the assignments to it are visible through
    [this.currentSession] until the last line clears it *)
Definition endCurrentSession : T unit :=
  o ← get_session;
  match o with
  | None => mret tt
  | Some session =>
      t ← date_now;
      let session := ended_copy session t in
      put_session (Some session);;
      saveSessionData session;;
      syncWithBackend session;;
      put_session None
  end.

(** [handleTabChange(tabId)]: the end is awaited outside the [try] *)
Definition handleTabChange (tabId : Z) : T unit :=
  endCurrentSession;;
  js_catch (tab ← tabs_get tabId;
            match tab_url tab with
            | Some u =>
                if negb (String.eqb u "") && negb (isSystemUrl u)
                then startNewSession tab u else mret tt
            | None => mret tt
            end)
           (fun _ => mret tt).
End Methods.

(** ** The other listeners *)

Definition WINDOW_ID_NONE : Z := -1.

Inductive IdleState : Type := active | idle | locked.

Record ActivityData : Type := {
  d_keystrokes : option Z;
  d_mouseMovements : option Z;
  d_scrolls : option Z;
  d_clicks : option Z;
  d_activeTime : option Z
}.

Inductive Request : Type :=
  | RqGetSettings
  | RqUpdateSettings (p : SettingsPatch)
  | RqGetCurrentSession
  | RqGetDailyStats
  | RqActivityUpdate (data : ActivityData)
  | RqToggleFocusMode
  | RqStartPomodoro
  | RqOther (action : string).

(** [x || 0] on an optional integer field *)
Definition or0 (o : option Z) : Z := default 0%Z o.

(** a timestamp field is truthy when present and not 0 *)
Definition truthy_time (o : option Z) : option Z :=
  match o with Some t => if (t =? 0)%Z then None else Some t | None => None end.

Section Handlers.
Context `{Calendar} (ext : Extensions).

Definition handleWindowFocus (windowId : Z) : T unit :=
  o ← get_session; now ← date_now;
  match o with
  | None => mret tt
  | Some s =>
      if (windowId =? WINDOW_ID_NONE)%Z then
        put_session (Some (set_idle s (timeSpentIdle s) (idleStartTime s) (Some now)))
      else
        match truthy_time (lastBlurTime s) with
        | Some blur =>
            put_session (Some (set_idle s (timeSpentIdle s + (now - blur))%Z
                                 (idleStartTime s) None))
        | None => mret tt
        end
  end.

Definition handleIdleState (state : IdleState) : T unit :=
  o ← get_session;
  match o with
  | None => mret tt
  | Some s =>
      now ← date_now;
      match state with
      | idle | locked =>
          put_session (Some (set_focusScore
                               (set_idle s (timeSpentIdle s) (Some now) (lastBlurTime s))
                               (Z.max 0 (focusScore s - 10))))
      | active =>
          match truthy_time (idleStartTime s) with
          | Some start =>
              put_session (Some (set_idle s (timeSpentIdle s + (now - start))%Z
                                   None (lastBlurTime s)))
          | None => mret tt
          end
      end
  end.

Definition showBreakReminder : T unit :=
  st ← get_settings; o ← get_session;
  match o with
  | Some s =>
      if breakReminders st then
        now ← date_now;
        if (breakInterval st <? now - startTime s)%Z then emit (Notify "break_reminder")
        else mret tt
      else mret tt
  | None => mret tt
  end.

Definition generateDailySummary : T unit :=
  now ← date_now;
  let today := toDateString now in
  call_method (getSessionsForDate ext) "this.getSessionsForDate"
    (call_method (calculateDailySummary ext) "this.calculateDailySummary"
       (emit (Notify "daily_summary"))).

(** the focus bonus is written before the call to the missing
    [updateRealTimeAnalytics] throws *)
Definition performanceCheck : T unit :=
  o ← get_session;
  match o with
  | None => mret tt
  | Some s =>
      now ← date_now;
      let sessionDuration := (now - startTime s)%Z in
      let focus := focusScore s in
      (if (1800000 <? sessionDuration)%Z && (80 <? focus)%Z then
         put_session (Some (set_focusScore s (Z.min 100 (focus + 5))))
       else mret tt);;
      call_method (updateRealTimeAnalytics ext) "this.updateRealTimeAnalytics" (mret tt)
  end.

Definition handleAlarm (name : string) : T unit :=
  if String.eqb name "breakReminder" then showBreakReminder
  else if String.eqb name "dailySummary" then generateDailySummary
  else if String.eqb name "performanceCheck" then performanceCheck
  else mret tt.

Definition updateSessionActivity (data : ActivityData) : T unit :=
  o ← get_session;
  match o with
  | None => mret tt
  | Some s =>
      let s1 := set_activity s (keystrokes s + or0 (d_keystrokes data))
                  (mouseMovements s + or0 (d_mouseMovements data))
                  (scrolls s + or0 (d_scrolls data)) (clicks s + or0 (d_clicks data))
                  (timeSpentActive s + or0 (d_activeTime data)) (activityScore s) in
      now ← date_now;
      put_session (Some (set_activity s1 (keystrokes s1) (mouseMovements s1) (scrolls s1)
                           (clicks s1) (timeSpentActive s1) (calculateActivityScore s1 now)))
  end.

Definition saveSettings : T unit :=
  st ← get_settings; store_update (insert "settings" (VSettings (patch_of_settings st))).

Definition updateSettings (p : SettingsPatch) : T unit :=
  st ← get_settings; put_settings (merge_settings st p);; saveSettings.

(** [handleMessage(request, sender, sendResponse)]; [sender.tab] is
    [None] for a message from an extension page, and reading its [id]
    throws *)
Definition handleMessage (request : Request) (senderTab : option Z) : T unit :=
  match request with
  | RqGetSettings => st ← get_settings; emit (Respond (RSettings st))
  | RqUpdateSettings p => updateSettings p;; emit (Respond RSuccess)
  | RqGetCurrentSession => o ← get_session; emit (Respond (RSession o))
  | RqGetDailyStats => call_method (getDailyStats ext) "this.getDailyStats" (emit (Respond RDailyStats))
  | RqActivityUpdate data =>
      o ← get_session;
      match o with
      | None => mret tt
      | Some s =>
          match senderTab with
          | None => js_throw (TypeError "Cannot read properties of undefined (reading 'id')")
          | Some id => if (id =? tabId s)%Z then updateSessionActivity data else mret tt
          end
      end
  | RqToggleFocusMode =>
      st ← get_settings;
      let st' := merge_settings st {| p_focusMode := Some (negb (focusMode st));
                   p_breakReminders := None; p_deepWorkMode := None; p_pomodoroTimer := None;
                   p_blockDistractions := None; p_trackMouseMovement := None;
                   p_trackKeystrokes := None; p_idleThreshold := None;
                   p_breakInterval := None; p_pomodoroLength := None |} in
      put_settings st';; saveSettings;; emit (Respond (RBool (focusMode st')))
  | RqStartPomodoro => call_method (startPomodoroTimer ext) "this.startPomodoroTimer" (emit (Respond RSuccess))
  | RqOther _ => mret tt
  end.
End Handlers.

(** ** The event loop *)

(** the listeners of [setupEventListeners], the [setInterval] of
    [startPerformanceMonitoring], and two changes of the world no listener
    sees *)
Inductive Event : Type :=
  | EvTabActivated (tabId : Z)
  | EvTabUpdated (tabId : Z) (statusComplete : bool) (tab : Tab)
  | EvNavigationCompleted (frameId : Z)
  | EvFocusChanged (windowId : Z)
  | EvIdleChanged (state : IdleState)
  | EvAlarm (name : string)
  | EvMessage (request : Request) (senderTab : option Z)
  | EvMemoryCheck (usedJSHeapSize : Z)
  | EvNetwork (up : bool).

Definition set_world (f : World -> World) : T unit := fun s => (with_world s (f (world s)), Done tt).

Definition set_clock (t : Z) : T unit :=
  set_world (fun w => {| clock := t; tabs := tabs w; network_up := network_up w; randoms := randoms w |}).
Definition set_tab (id : Z) (tab : Tab) : T unit :=
  set_world (fun w => {| clock := clock w; tabs := <[id := tab]> (tabs w);
                         network_up := network_up w; randoms := randoms w |}).
Definition set_network (up : bool) : T unit :=
  set_world (fun w => {| clock := clock w; tabs := tabs w; network_up := up; randoms := randoms w |}).

Section Loop.
Context `{Calendar} (ext : Extensions).

Definition optimizeMemoryUsage : T unit :=
  now ← date_now; store_update (cleanupOldData now).

Definition dispatch (t : Z) (ev : Event) : T unit :=
  set_clock t;;
  match ev with
  | EvTabActivated id => handleTabChange ext id
  | EvTabUpdated id complete tab =>
      set_tab id tab;;
      if complete && tab_active tab then handleTabChange ext id else mret tt
  | EvNavigationCompleted frameId =>
      if (frameId =? 0)%Z then call_method (trackNavigation ext) "this.trackNavigation" (mret tt)
      else mret tt
  | EvFocusChanged w => handleWindowFocus w
  | EvIdleChanged st => handleIdleState st
  | EvAlarm name => handleAlarm ext name
  | EvMessage req senderTab => handleMessage ext req senderTab
  | EvMemoryCheck used =>
      if (50 * 1024 * 1024 <? used)%Z then optimizeMemoryUsage else mret tt
  | EvNetwork up => set_network up
  end.



Definition loadSettings : T unit :=
  v ← store_get "settings";
  match v with
  | Some (VSettings p) => st ← get_settings; put_settings (merge_settings st p)
  | _ => mret tt
  end.

Definition setupAlarms : T unit :=
  emit (CreateAlarm "breakReminder" 50);;
  emit (CreateAlarm "dailySummary" (24 * 60));;
  emit (CreateAlarm "performanceCheck" 15).

Definition init : T unit := loadSettings;; setupAlarms.

(** the object the constructor builds, then [init()] *)
Definition boot (w : World) (st : Store) : Tracker :=
  (init {| currentSession := None; settings := default_settings; store := st;
           effects := []; world := w |}).1.

(** a run of timed events *)
Fixpoint run (evs : list (Z * Event)) (s : Tracker) : Tracker :=
  match evs with
  | [] => s
  | (t, ev) :: evs' => run evs' (dispatch t ev s).1
  end.
End Loop.

(** ** Well-formed states *)

(** what a live session satisfies at time [now] *)
Definition session_wf (now : Z) (s : Session) : Prop :=
  (0 <= focusScore s <= 100)%Z /\
  (0 <= keystrokes s)%Z /\ (0 <= mouseMovements s)%Z /\ (0 <= scrolls s)%Z /\
  (0 <= clicks s)%Z /\ (0 <= timeSpentActive s)%Z /\ (0 <= timeSpentIdle s)%Z /\
  (startTime s <= now)%Z /\
  from_option (fun t => t <= now)%Z True (idleStartTime s) /\
  from_option (fun t => t <= now)%Z True (lastBlurTime s).

Definition tracker_wf (s : Tracker) : Prop :=
  from_option (session_wf (clock (world s))) True (currentSession s).

(** the content script reports counts, which are never negative *)
Definition activity_ok (d : ActivityData) : Prop :=
  (0 <= or0 (d_keystrokes d))%Z /\ (0 <= or0 (d_mouseMovements d))%Z /\
  (0 <= or0 (d_scrolls d))%Z /\ (0 <= or0 (d_clicks d))%Z /\ (0 <= or0 (d_activeTime d))%Z.

Definition event_ok (ev : Event) : Prop :=
  match ev with
  | EvMessage (RqActivityUpdate d) _ => activity_ok d
  | _ => True
  end.

Section Step.
Context `{Calendar} (ext : Extensions).

(** A listener's exception is reported and dropped; its writes stay.
    The clock does not go back, and activity reports carry the counts
    of the content script. *)
Inductive step : Tracker -> Tracker -> Prop :=
  | step_event (s : Tracker) (t : Z) (ev : Event) :
      (clock (world s) <= t)%Z -> event_ok ev -> step s (dispatch ext t ev s).1.
End Step.

(** ** A concrete browser for the examples *)

Definition demo_github : Tab :=
  {| tab_id := 7; tab_url := Some "https://github.com/rocq-prover"; tab_title := Some "GitHub";
     tab_active := true |}.
Definition demo_youtube : Tab :=
  {| tab_id := 8; tab_url := Some "https://youtube.com/watch?v=1"; tab_title := None;
     tab_active := true |}.

Definition demo_world : World :=
  {| clock := 1000000; tabs := <[7%Z := demo_github]> (<[8%Z := demo_youtube]> ∅);
     network_up := true; randoms := ["k3x9"; "p0q1"; "z7w2"; "m4n5"; "r8t6"] |}.

(** the repository, completed by a [getCustomCategory] without overrides *)
Definition demo_ext : Extensions :=
  {| getCustomCategory := Some no_overrides; queueForRetry := false;
     updateRealTimeAnalytics := false; trackNavigation := false; getSessionsForDate := false;
     calculateDailySummary := false; getDailyStats := false; startPomodoroTimer := false |}.

Definition demo_boot : Tracker := boot demo_world ∅.

(** tracking GitHub, then the backend goes away *)
Definition demo_offline : Tracker :=
  run demo_ext [(1000000%Z, EvTabActivated 7); (1100000%Z, EvNetwork false)] demo_boot.

Definition demo_tracking : Tracker := run demo_ext [(1000000%Z, EvTabActivated 7)] demo_boot.

(** the [sessions] count of the aggregate of [day] in the store, 0 when
    there is none *)
Definition daily_sessions (day : string) (st : Store) : Z :=
  match st !! dailyKey day with Some (VDaily d) => sessions d | _ => 0%Z end.

(** the settings [loadSettings] would read from the store: the stored
    object over the defaults *)
Definition stored_settings (st : Store) : Settings :=
  match st !! "settings" with
  | Some (VSettings p) => merge_settings default_settings p
  | _ => default_settings
  end.

(** the background's settings are the ones stored *)
Definition stored_ok (s : Tracker) : Prop := settings s = stored_settings (store s).

(** a computation that keeps them so, whether it returns or throws *)
Definition keeps_stored {A} (m : T A) : Prop := forall s, stored_ok s -> stored_ok (m s).1.

(** an activity report from the content script of tab 7 *)
Definition demo_activity : ActivityData :=
  {| d_keystrokes := Some 20%Z; d_mouseMovements := Some 50%Z; d_scrolls := Some 3%Z;
     d_clicks := Some 4%Z; d_activeTime := Some 30000%Z |}.

(** ** Symbolic execution *)

(** unfold the monad and the primitive operations, keeping the pure
    functions of the other components folded *)
Ltac js_run :=
  js_unfold;
  unfold get_session, put_session, get_settings, put_settings, store_get, store_update, emit,
    date_now, random36, tabs_get, fetch_post, call_missing, call_method, lift_outcome,
    set_world, set_clock, set_tab, set_network in *;
  cbn -[categorizeWebsite extractDomain calculateFinalFocusScore calculateProductivityScore
        calculateActivityScore storeSessionData cleanupOldData ended_copy
        merge_settings patch_of_settings].

(** run a computation to the end, splitting on every test it makes *)
Ltac js_exec := js_run; repeat (case_match; simplify_eq/=; js_run).

Ltac unfold_handlers :=
  unfold init, dispatch, handleTabChange, endCurrentSession, startNewSession, generateSessionId,
    handleAlarm, handleMessage, handleWindowFocus, handleIdleState, showBreakReminder,
    performanceCheck, generateDailySummary, updateSettings, saveSettings, optimizeMemoryUsage,
    updateSessionActivity, saveSessionData, syncWithBackend, getUserId, applyFocusMode,
    startActivityMonitoring, updateBadge, loadSettings, setupAlarms.

(** ** Lemmas *)

Section Lemmas.
Context `{Calendar}.

Lemma endCurrentSession_none (ext : Extensions) (s : Tracker) :
  currentSession s = None -> endCurrentSession ext s = (s, Done tt).
Proof. intros Hs. unfold endCurrentSession. js_run. by rewrite Hs. Qed.

(** the [TypeError] of the missing [getCustomCategory] comes before
    [this.currentSession] is assigned *)
Lemma startNewSession_source (tab : Tab) (u : string) (s : Tracker) :
  currentSession (startNewSession source_methods tab u s).1 = currentSession s.
Proof. destruct s. unfold startNewSession, generateSessionId. by js_exec. Qed.

(** every listener but the tab ones leaves an absent session absent *)
Lemma dispatch_keeps_none (ext : Extensions) (s : Tracker) (t : Z) (ev : Event) :
  currentSession s = None ->
  (forall id, ev <> EvTabActivated id) ->
  (forall id c tab, ev <> EvTabUpdated id c tab) ->
  currentSession (dispatch ext t ev s).1 = None.
Proof.
  destruct s as [cs st sto eff w]; simpl; intros -> Ha Hu.
  destruct ev; [by edestruct Ha | by edestruct Hu | ..]; unfold_handlers; by js_exec.
Qed.

Lemma dispatch_source_keeps_none (s : Tracker) (t : Z) (ev : Event) :
  currentSession s = None -> currentSession (dispatch source_methods t ev s).1 = None.
Proof.
  destruct s as [cs st sto eff w]; simpl; intros ->.
  destruct ev; unfold_handlers; by js_exec.
Qed.

Ltac no_post := repeat constructor; intros ? [=].

Lemma endCurrentSession_synced (ext : Extensions) (s : Tracker) (old : Session) :
  network_up (world s) = true -> currentSession s = Some old ->
  let t := clock (world s) in
  let r := endCurrentSession ext s in
  r.2 = Done tt /\ currentSession r.1 = None /\ settings r.1 = settings s /\
  store r.1 !! sessionKey (startTime old) = Some (VSession (ended_copy old t)) /\
  clock (world r.1) = t /\ tabs (world r.1) = tabs (world s) /\
  (exists uid, effects r.1 = effects s ++ [PostActivity (payload_of uid (ended_copy old t))]).
Proof.
  destruct s as [cs st sto eff [clk tbs net rnd]]; simpl. intros -> ->.
  unfold endCurrentSession, saveSessionData, syncWithBackend, getUserId.
  js_exec; do 3 (split; [reflexivity|]);
    (split; [change (startTime old) with (startTime (ended_copy old clk));
             rewrite ?lookup_insert_ne by auto with tracker; apply storeSessionData_lookup|]);
    do 2 (split; [reflexivity|]); by eexists.
Qed.

Lemma startNewSession_starts (ext : Extensions) (f : string -> option Category)
    (tab : Tab) (u : string) (s : Tracker) :
  getCustomCategory ext = Some f ->
  let t := clock (world s) in
  let r := startNewSession ext tab u s in
  r.2 = Done tt /\ store r.1 = store s /\
  (exists sid title, currentSession r.1 =
     Some (sessionData sid (tab_id tab) u (extractDomain u) title t (classify_spec f u))) /\
  (exists es, effects r.1 = effects s ++ es /\ Forall (fun e => forall p, e <> PostActivity p) es).
Proof.
  destruct s as [cs st sto eff [clk tbs net rnd]], ext; simpl. intros ->.
  unfold startNewSession, generateSessionId, applyFocusMode, startActivityMonitoring, updateBadge.
  js_run. rewrite categorizeWebsite_refines.
  js_exec; (split; [reflexivity|]); (split; [reflexivity|]);
    (split; [by do 2 eexists|]); eexists; (split; [by rewrite <- !app_assoc|no_post]).
Qed.

Lemma truthy_time_Some (o : option Z) (z : Z) : truthy_time o = Some z -> o = Some z.
Proof. destruct o as [t|]; cbn; [|done]. by case_match. Qed.

Lemma session_wf_ended_copy (now t : Z) (x : Session) :
  session_wf now x -> session_wf now (ended_copy x t).
Proof. done. Qed.

Lemma session_wf_later (now now' : Z) (x : Session) :
  (now <= now')%Z -> session_wf now x -> session_wf now' x.
Proof.
  unfold session_wf. intros Hle (? & ? & ? & ? & ? & ? & ? & ? & Hi & Hb).
  repeat split; try lia.
  - destruct (idleStartTime x); simpl in *; [lia|done].
  - destruct (lastBlurTime x); simpl in *; [lia|done].
Qed.

(** [endCurrentSession] keeps the clock, and leaves no session or the
    ended copy of the current one *)
Lemma endCurrentSession_cases (ext : Extensions) (s : Tracker) :
  let r := endCurrentSession ext s in
  clock (world r.1) = clock (world s) /\
  (currentSession r.1 = None \/
   exists x, currentSession s = Some x /\
             currentSession r.1 = Some (ended_copy x (clock (world s)))).
Proof.
  destruct s as [cs st sto eff [clk tbs net rnd]].
  unfold endCurrentSession, saveSessionData, syncWithBackend, getUserId.
  js_exec; split; try done; solve [left; done | right; eexists; split; done].
Qed.

(** [startNewSession] keeps the clock, and leaves the session as it was
    or a fresh one started now *)
Lemma startNewSession_cases (ext : Extensions) (tab : Tab) (u : string) (s : Tracker) :
  let r := startNewSession ext tab u s in
  clock (world r.1) = clock (world s) /\
  (currentSession r.1 = currentSession s \/
   exists sid title cat, currentSession r.1 =
     Some (sessionData sid (tab_id tab) u (extractDomain u) title (clock (world s)) cat)).
Proof.
  destruct s as [cs st sto eff [clk tbs net rnd]].
  unfold startNewSession, generateSessionId, applyFocusMode, startActivityMonitoring, updateBadge.
  js_exec; split; try done; solve [left; done | right; do 3 eexists; done].
Qed.

Lemma handleTabChange_wf (ext : Extensions) (id : Z) (s : Tracker) :
  tracker_wf s -> tracker_wf (handleTabChange ext id s).1.
Proof.
  unfold tracker_wf, handleTabChange. intros Hwf. js_unfold.
  destruct (endCurrentSession_cases ext s) as [Hc1 Hs1].
  destruct (endCurrentSession ext s) as [s1 o1]. cbn in Hc1, Hs1.
  assert (Hwf1 : from_option (session_wf (clock (world s1))) True (currentSession s1)).
  { rewrite Hc1. destruct Hs1 as [-> | (x & Hx & ->)]; [done|]. rewrite Hx in Hwf.
    by apply session_wf_ended_copy. }
  destruct o1; [|done]. unfold tabs_get.
  destruct (tabs (world s1) !! id) as [tab|]; cbn; [|done].
  destruct (tab_url tab) as [u|]; cbn; [|done].
  destruct (negb (String.eqb u "") && negb (isSystemUrl u)); cbn; [|done].
  destruct (startNewSession_cases ext tab u s1) as [Hc2 Hs2].
  destruct (startNewSession ext tab u s1) as [s2 o2]. cbn in Hc2, Hs2.
  assert (Hwf2 : from_option (session_wf (clock (world s2))) True (currentSession s2)).
  { rewrite Hc2. destruct Hs2 as [-> | (sid & title & cat & ->)]; [done|].
    cbn. unfold session_wf. cbn. repeat split; lia. }
  by destruct o2.
Qed.

(** ** The stored settings *)

Lemma merge_patch_of_settings (s x : Settings) : merge_settings s (patch_of_settings x) = x.
Proof. by destruct x. Qed.

Lemma sessionKey_not_settings (z : Z) : sessionKey z <> "settings".
Proof. unfold sessionKey. intros Hk%(f_equal (String.get 2)). vm_compute in Hk. congruence. Qed.
Lemma dailyKey_not_settings (d : string) : dailyKey d <> "settings".
Proof. unfold dailyKey. intros Hk%(f_equal (String.get 0)). vm_compute in Hk. congruence. Qed.
Lemma userId_not_settings : "userId" <> "settings".
Proof. done. Qed.
Lemma lastSession_not_settings : "lastSession" <> "settings".
Proof. done. Qed.


Lemma stored_settings_insert_ne (k : string) (v : Value) (st : Store) :
  k <> "settings" -> stored_settings (<[k := v]> st) = stored_settings st.
Proof. intros Hk. unfold stored_settings. by rewrite lookup_insert_ne. Qed.

Lemma stored_settings_save (x : Settings) (st : Store) :
  stored_settings (<["settings" := VSettings (patch_of_settings x)]> st) = x.
Proof. unfold stored_settings. rewrite lookup_insert_eq. apply merge_patch_of_settings. Qed.

Lemma stored_settings_storeSessionData (now : Z) (x : Session) (st : Store) :
  stored_settings (storeSessionData now x st) = stored_settings st.
Proof.
  unfold storeSessionData, stored_settings.
  rewrite updateDailyAggregates_other by (apply not_eq_sym; auto with tracker).
  by rewrite !lookup_insert_ne by (apply not_eq_sym; auto with tracker).
Qed.

Lemma stored_settings_cleanup (now : Z) (st : Store) :
  stored_settings (cleanupOldData now st) = stored_settings st.
Proof. unfold stored_settings. by rewrite cleanupOldData_lookup. Qed.

Lemma keeps_mret {A} (x : A) : keeps_stored (mret x).
Proof. by intros s. Qed.
Lemma keeps_throw {A} (e : exn) : keeps_stored (A := A) (js_throw e).
Proof. by intros s. Qed.

Lemma keeps_bind {A B} (m : T A) (f : A -> T B) :
  keeps_stored m -> (forall x, keeps_stored (f x)) -> keeps_stored (m ≫= f).
Proof.
  intros Hm Hf s Hs. unfold mbind, js_mbind. specialize (Hm s Hs).
  destruct (m s) as [s1 [x|e]]; cbn in *; [by apply Hf|done].
Qed.

Lemma keeps_catch {A} (m : T A) (h : exn -> T A) :
  keeps_stored m -> (forall e, keeps_stored (h e)) -> keeps_stored (js_catch m h).
Proof.
  intros Hm Hh s Hs. unfold js_catch. specialize (Hm s Hs).
  destruct (m s) as [s1 [x|e]]; cbn in *; [done|by apply Hh].
Qed.

(** a step that changes neither the settings nor the store *)
Lemma keeps_pure {A} (m : T A) :
  (forall s, settings (m s).1 = settings s /\ store (m s).1 = store s) -> keeps_stored m.
Proof. intros Hm s Hs. unfold stored_ok. by destruct (Hm s) as [-> ->]. Qed.

Lemma keeps_get_session : keeps_stored get_session.
Proof. by apply keeps_pure. Qed.
Lemma keeps_put_session (o : option Session) : keeps_stored (put_session o).
Proof. by apply keeps_pure. Qed.
Lemma keeps_get_settings : keeps_stored get_settings.
Proof. by apply keeps_pure. Qed.
Lemma keeps_store_get (k : string) : keeps_stored (store_get k).
Proof. by apply keeps_pure. Qed.
Lemma keeps_emit (e : Effect) : keeps_stored (emit e).
Proof. by apply keeps_pure. Qed.
Lemma keeps_date_now : keeps_stored date_now.
Proof. by apply keeps_pure. Qed.
Lemma keeps_random36 : keeps_stored random36.
Proof. apply keeps_pure. intros s. unfold random36. by case_match. Qed.
Lemma keeps_tabs_get (id : Z) : keeps_stored (tabs_get id).
Proof. apply keeps_pure. intros s. unfold tabs_get. by case_match. Qed.
Lemma keeps_fetch_post (p : SyncPayload) : keeps_stored (fetch_post p).
Proof. apply keeps_pure. intros s. unfold fetch_post. by case_match. Qed.
Lemma keeps_set_world (f : World -> World) : keeps_stored (set_world f).
Proof. by apply keeps_pure. Qed.
Lemma keeps_lift_outcome {A} (o : outcome A) : keeps_stored (lift_outcome o).
Proof. by apply keeps_pure. Qed.
Lemma keeps_call_missing {A} (name : string) : keeps_stored (A := A) (call_missing name).
Proof. apply keeps_throw. Qed.

Lemma keeps_call_method (b : bool) (name : string) (m : T unit) :
  keeps_stored m -> keeps_stored (call_method b name m).
Proof. intros Hm. destruct b; [done|apply keeps_call_missing]. Qed.

Lemma keeps_store_update (f : Store -> Store) :
  (forall st, stored_settings (f st) = stored_settings st) -> keeps_stored (store_update f).
Proof. intros Hf s Hs. unfold stored_ok. cbn. by rewrite Hf. Qed.

(** [this.settings = ...] followed at once by [saveSettings()] *)
Lemma keeps_save (x : Settings) : keeps_stored (put_settings x;; saveSettings).
Proof. intros s _. unfold stored_ok, saveSettings, put_settings, get_settings, store_update, mbind, js_mbind.
  cbn [fst snd settings store with_settings with_store]. by rewrite stored_settings_save. Qed.

Lemma keeps_save_then {A} (x : Settings) (k : T A) :
  keeps_stored k -> keeps_stored (put_settings x;; saveSettings;; k).
Proof.
  intros Hk s _. apply Hk. unfold stored_ok, saveSettings, put_settings, get_settings, store_update, mbind, js_mbind.
  cbn [fst snd settings store with_settings with_store]. by rewrite stored_settings_save.
Qed.

End Lemmas.

#[export] Hint Resolve sessionKey_not_settings dailyKey_not_settings userId_not_settings
  lastSession_not_settings : tracker.
Create HintDb keeps.
#[export] Hint Resolve keeps_mret keeps_throw keeps_get_session keeps_put_session
  keeps_get_settings keeps_store_get keeps_emit keeps_date_now keeps_random36 keeps_tabs_get
  keeps_fetch_post keeps_set_world keeps_lift_outcome keeps_call_missing : keeps.

Ltac keeps_tac :=
  repeat first
    [ progress cbv zeta
    | apply keeps_save_then
    | apply keeps_save
    | apply keeps_bind; intros
    | apply keeps_catch; intros
    | apply keeps_call_method
    | apply keeps_store_update; intros;
      rewrite ?stored_settings_storeSessionData, ?stored_settings_cleanup;
      rewrite ?stored_settings_insert_ne by auto with tracker; try done
    | solve [auto with keeps]
    | case_match ].

Section KeepsStored.
Context `{Calendar}.

Lemma handleMessage_keeps_stored (ext : Extensions) (req : Request) (senderTab : option Z) :
  keeps_stored (handleMessage ext req senderTab).
Proof. unfold handleMessage, updateSettings, updateSessionActivity. keeps_tac. Qed.

(** every listener keeps the background's settings equal to the ones
    stored: the two handlers that change them save them at once, and no
    other write touches the key ["settings"] *)
Lemma dispatch_keeps_stored (ext : Extensions) (t : Z) (ev : Event) :
  keeps_stored (dispatch ext t ev).
Proof.
  unfold dispatch, set_clock. keeps_tac.
  all: unfold handleTabChange, endCurrentSession, startNewSession, generateSessionId,
    handleAlarm, handleMessage, handleWindowFocus, handleIdleState, showBreakReminder,
    performanceCheck, generateDailySummary, updateSettings, optimizeMemoryUsage,
    updateSessionActivity, saveSessionData, syncWithBackend, getUserId, applyFocusMode,
    startActivityMonitoring, updateBadge, set_tab, set_network; keeps_tac.
Qed.

Lemma boot_stored (w : World) (st : Store) : stored_ok (boot w st).
Proof.
  unfold boot, init, loadSettings, setupAlarms, stored_ok, stored_settings.
  js_run. destruct (st !! "settings") as [[]|] eqn:E; cbn; by rewrite ?E.
Qed.

(** in every reachable state the background's settings are the stored
    ones *)
Lemma reachable_stored (ext : Extensions) (w : World) (st : Store) (s : Tracker) :
  rtc (step ext) (boot w st) s -> stored_ok s.
Proof.
  intros Hr. pose proof (boot_stored w st) as H0.
  induction Hr as [|x y z Hxy _ IH]; [done|].
  apply IH. destruct Hxy. by apply dispatch_keeps_stored.
Qed.

End KeepsStored.

(** ** Theorems *)

Section Theorems.
Context `{Calendar}.

Lemma boot_no_session (w : World) (st : Store) :
  currentSession (boot w st) = None.
Proof. unfold boot. unfold_handlers. by js_exec. Qed.

(** C1: with the methods the repository defines, no session is ever
    tracked: every [startNewSession] throws the [TypeError] of the
    missing [getCustomCategory] before it assigns [this.currentSession],
    and [handleTabChange] swallows it. *)
Theorem source_never_tracks (w : World) (st : Store) (s : Tracker) :
  rtc (step source_methods) (boot w st) s -> currentSession s = None.
Proof.
  intros Hr. pose proof (boot_no_session w st) as H0.
  induction Hr as [|x y z Hxy _ IH]; [done|].
  apply IH. destruct Hxy. by apply dispatch_source_keeps_none.
Qed.

(** C2: when the backend cannot be reached, [syncWithBackend]'s
    [catch] calls the missing [queueForRetry]; the [TypeError] escapes
    [endCurrentSession] before [this.currentSession = null], and
    [handleTabChange] awaits that call outside its [try]: the ended
    session stays current, is already saved and counted, and no new
    session starts. *)
Theorem stuck_session_on_sync_failure (ext : Extensions) (s : Tracker) (old : Session) (id : Z) :
  queueForRetry ext = false -> network_up (world s) = false ->
  currentSession s = Some old ->
  let r := handleTabChange ext id s in
  r.2 = Thrown (TypeError "this.queueForRetry is not a function") /\
  currentSession r.1 = Some (ended_copy old (clock (world s))) /\
  store r.1 !! sessionKey (startTime old) =
    Some (VSession (ended_copy old (clock (world s)))).
Proof.
  destruct s as [cs st sto eff [clk tbs net rnd]], ext; simpl. intros -> -> ->.
  unfold handleTabChange, endCurrentSession, saveSessionData, syncWithBackend, getUserId.
  js_exec; (split; [reflexivity|]); (split; [reflexivity|]);
    change (startTime old) with (startTime (ended_copy old clk));
    rewrite ?lookup_insert_ne by auto with tracker; apply storeSessionData_lookup.
Qed.


(** C4: a tab change first ends the current session, then starts the
    next: the ended session is saved under its start time and posted to
    the backend before anything of the new session is emitted, and the
    new session is the one [startNewSession] builds for the tab, with the
    category of the abstract classifier.  (Given a [getCustomCategory],
    the backend reachable and a tab with an ordinary URL.) *)
Theorem tab_change_ends_then_starts (ext : Extensions) (f : string -> option Category)
    (s : Tracker) (old : Session) (id : Z) (tab : Tab) (u : string) :
  getCustomCategory ext = Some f -> network_up (world s) = true ->
  currentSession s = Some old ->
  tabs (world s) !! id = Some tab -> tab_url tab = Some u ->
  u <> "" -> isSystemUrl u = false ->
  let t := clock (world s) in
  let r := handleTabChange ext id s in
  r.2 = Done tt /\
  store r.1 !! sessionKey (startTime old) = Some (VSession (ended_copy old t)) /\
  (exists uid es, effects r.1 = effects s ++ PostActivity (payload_of uid (ended_copy old t)) :: es /\
                  Forall (fun e => forall p, e <> PostActivity p) es) /\
  (exists sid title, currentSession r.1 =
     Some (sessionData sid (tab_id tab) u (extractDomain u) title t (classify_spec f u))).
Proof.
  intros Hf Hn Hs Htab Hu Hne Hsys t r.
  destruct (endCurrentSession_synced ext s old Hn Hs)
    as (Hr & _ & _ & Hst & Hclk & Htabs & [uid Heff]).
  subst r. unfold handleTabChange. js_unfold.
  destruct (endCurrentSession ext s) as [s1 o1] eqn:E. simpl in *. subst o1.
  unfold tabs_get. rewrite Htabs, Htab, Hu, Hsys.
  apply String.eqb_neq in Hne. rewrite Hne. simpl.
  destruct (startNewSession_starts ext f tab u s1 Hf) as (Hr2 & Hst2 & Hcur & es & Hes & Hpost).
  destruct (startNewSession ext tab u s1) as [s2 o2] eqn:E2. simpl in *. subst o2. cbn [fst snd].
  split; [done|]. split; [by rewrite Hst2|]. split.
  - exists uid, es. split; [|done]. rewrite Hes, Heff, <- app_assoc. done.
  - subst t. by rewrite Hclk in Hcur.
Qed.

Ltac wf_close :=
  try done; unfold session_wf, event_ok, activity_ok in *; cbn in *;
  repeat match goal with
         | H : _ /\ _ |- _ => destruct H
         | H : truthy_time ?o = Some _ |- _ => apply truthy_time_Some in H; rewrite H in *
         end;
  repeat split; cbn in *; try assumption; try lia.

(** C5: the well-formedness of the live session is an invariant of
    every listener, under a clock that does not go back and activity
    reports with non-negative counts: the focus score stays in
    [[0, 100]], the counters and the active and idle times are not
    negative, and the recorded start, idle and blur times are in the
    past.  In particular the accumulators an ended session is scored on
    are never negative. *)
Theorem dispatch_preserves_wf (ext : Extensions) (s : Tracker) (t : Z) (ev : Event) :
  tracker_wf s -> (clock (world s) <= t)%Z -> event_ok ev ->
  tracker_wf (dispatch ext t ev s).1.
Proof.
  destruct s as [cs st sto eff [clk tbs net rnd]]. intros Hwf Hle Hev.
  assert (Hwf' : from_option (session_wf t) True cs)
    by (destruct cs; cbn in *; eauto using session_wf_later).
  clear Hwf. destruct ev; unfold dispatch.
  1,2: js_unfold; unfold set_clock, set_tab, set_world; cbn;
       try destruct (_ && _); cbn; try (apply handleTabChange_wf; exact Hwf'); exact Hwf'.
  all: unfold_handlers; unfold tracker_wf; js_exec; wf_close.
Qed.

Lemma reachable_wf (ext : Extensions) (w : World) (st : Store) (s : Tracker) :
  rtc (step ext) (boot w st) s -> tracker_wf s.
Proof.
  intros Hr. assert (H0 : tracker_wf (boot w st)) by (unfold tracker_wf; by rewrite boot_no_session).
  induction Hr as [|x y z Hxy _ IH]; [done|].
  apply IH. destruct Hxy as [x t ev Hle Hev]. by apply dispatch_preserves_wf.
Qed.

(** C6: in every state the tracker reaches, the session it would end
    now gets a [NaN] final focus score exactly when neither an activity
    report nor an idle or blur interval was recorded for it, as happens
    when both tracking settings are off or the content script cannot be
    injected. *)
Theorem ended_focus_nan_iff (ext : Extensions) (w : World) (st : Store) (s : Tracker)
    (x : Session) (t : Z) :
  rtc (step ext) (boot w st) s -> currentSession s = Some x ->
  finalFocusScore (ended_copy x t) = Some NaN <->
  timeSpentActive x = 0%Z /\ timeSpentIdle x = 0%Z.
Proof.
  intros Hr Hx. pose proof (reachable_wf ext w st s Hr) as Hwf.
  unfold tracker_wf in Hwf. rewrite Hx in Hwf. cbn in Hwf.
  destruct Hwf as (_ & _ & _ & _ & _ & Ha & Hi & _).
  unfold ended_copy. cbn [finalFocusScore set_ended].
  rewrite <- (finalFocusScore_nan_iff (set_ended x (Some t) (Some (t - startTime x)%Z)
               (finalFocusScore x) (productivityScore x)) (t - startTime x)%Z Ha Hi eq_refl).
  split; [by intros [=]|by intros ->].
Qed.
End Theorems.


Lemma source_never_tracks_witness :
  rtc (step source_methods) demo_boot (dispatch source_methods 1000000 (EvTabActivated 7) demo_boot).1 /\
  currentSession (dispatch source_methods 1000000 (EvTabActivated 7) demo_boot).1 = None.
Proof.
  assert (Hr : rtc (step source_methods) demo_boot
                 (dispatch source_methods 1000000 (EvTabActivated 7) demo_boot).1)
    by (apply rtc_once; constructor; [vm_compute; congruence | exact I]).
  split; [exact Hr|]. exact (source_never_tracks demo_world ∅ _ Hr).
Defined.


Lemma stuck_session_on_sync_failure_witness :
  exists old,
    queueForRetry demo_ext = false /\ network_up (world demo_offline) = false /\
    currentSession demo_offline = Some old /\
    (let r := handleTabChange demo_ext 8 demo_offline in
     r.2 = Thrown (TypeError "this.queueForRetry is not a function") /\
     currentSession r.1 = Some (ended_copy old (clock (world demo_offline))) /\
     store r.1 !! sessionKey (startTime old) =
       Some (VSession (ended_copy old (clock (world demo_offline))))).
Proof.
  eexists. split; [reflexivity|]. split; [reflexivity|].
  assert (Hc : currentSession demo_offline = Some _) by (vm_compute; reflexivity).
  split; [exact Hc|]. exact (stuck_session_on_sync_failure demo_ext demo_offline _ 8 eq_refl eq_refl Hc).
Defined.


Lemma tab_change_ends_then_starts_witness :
  exists old,
    currentSession demo_tracking = Some old /\
    (let t := clock (world demo_tracking) in
     let r := handleTabChange demo_ext 8 demo_tracking in
     r.2 = Done tt /\
     store r.1 !! sessionKey (startTime old) = Some (VSession (ended_copy old t)) /\
     (exists uid es, effects r.1 = effects demo_tracking ++
                                  PostActivity (payload_of uid (ended_copy old t)) :: es /\
                     Forall (fun e => forall p, e <> PostActivity p) es) /\
     (exists sid title, currentSession r.1 =
        Some (sessionData sid 8 "https://youtube.com/watch?v=1"
                (extractDomain "https://youtube.com/watch?v=1") title t
                (classify_spec no_overrides "https://youtube.com/watch?v=1")))).
Proof.
  eexists.
  assert (Hc : currentSession demo_tracking = Some _) by (vm_compute; reflexivity).
  split; [exact Hc|].
  exact (tab_change_ends_then_starts demo_ext no_overrides demo_tracking _ 8 demo_youtube
           "https://youtube.com/watch?v=1" eq_refl eq_refl Hc eq_refl eq_refl
           ltac:(discriminate) eq_refl).
Defined.

Lemma dispatch_preserves_wf_witness :
  tracker_wf demo_tracking /\ (clock (world demo_tracking) <= 1030000)%Z /\
  event_ok (EvMessage (RqActivityUpdate demo_activity) (Some 7%Z)) /\
  tracker_wf (dispatch demo_ext 1030000 (EvMessage (RqActivityUpdate demo_activity) (Some 7%Z))
                demo_tracking).1.
Proof.
  assert (Hw : tracker_wf demo_tracking) by (vm_compute; repeat split; intros; discriminate).
  assert (Hc : (clock (world demo_tracking) <= 1030000)%Z) by (vm_compute; intros; discriminate).
  assert (He : event_ok (EvMessage (RqActivityUpdate demo_activity) (Some 7%Z)))
    by (vm_compute; repeat split; intros; discriminate).
  split; [exact Hw|]. split; [exact Hc|]. split; [exact He|].
  exact (dispatch_preserves_wf demo_ext demo_tracking 1030000 _ Hw Hc He).
Defined.

Lemma ended_focus_nan_iff_witness :
  exists x,
    rtc (step demo_ext) demo_boot demo_tracking /\ currentSession demo_tracking = Some x /\
    (finalFocusScore (ended_copy x 1600000) = Some NaN <->
     timeSpentActive x = 0%Z /\ timeSpentIdle x = 0%Z).
Proof.
  assert (Hr : rtc (step demo_ext) demo_boot demo_tracking)
    by (apply rtc_once; constructor; [vm_compute; congruence | exact I]).
  eexists.
  assert (Hc : currentSession demo_tracking = Some _) by (vm_compute; reflexivity).
  split; [exact Hr|]. split; [exact Hc|].
  exact (ended_focus_nan_iff demo_ext demo_world ∅ demo_tracking _ 1600000 Hr Hc).
Defined.

Lemma dailyKey_not_userId (d : string) : dailyKey d <> "userId".
Proof. unfold dailyKey. intros H%(f_equal (String.get 0)). vm_compute in H. congruence. Qed.
Lemma dailyKey_not_last (d : string) : dailyKey d <> "lastSession".
Proof. unfold dailyKey. intros H%(f_equal (String.get 0)). vm_compute in H. congruence. Qed.

Lemma daily_sessions_insert_ne (day k : string) (v : Value) (st : Store) :
  k <> dailyKey day -> daily_sessions day (<[k := v]> st) = daily_sessions day st.
Proof. intros Hk. unfold daily_sessions. by rewrite lookup_insert_ne. Qed.

Lemma storeSessionData_daily `{Calendar} (now : Z) (x : Session) (st : Store) :
  daily_sessions (toDateString now) (storeSessionData now x st) =
  (daily_sessions (toDateString now) st + 1)%Z.
Proof.
  unfold storeSessionData, updateDailyAggregates, daily_sessions. rewrite lookup_insert_eq.
  rewrite !lookup_insert_ne by (apply not_eq_sym; auto using dailyKey_not_last with tracker).
  by destruct (st !! dailyKey _) as [[]|].
Qed.

(** a tab change on the stuck session of C2 ends it again and counts it
    once more in the day's aggregate *)
Lemma stuck_tab_change `{Calendar} (ext : Extensions) (s : Tracker) (old : Session) (id : Z) :
  queueForRetry ext = false -> network_up (world s) = false -> currentSession s = Some old ->
  let r := handleTabChange ext id s in
  currentSession r.1 = Some (ended_copy old (clock (world s))) /\ network_up (world r.1) = false /\
  daily_sessions (toDateString (clock (world s))) (store r.1) =
    (daily_sessions (toDateString (clock (world s))) (store s) + 1)%Z.
Proof.
  destruct s as [cs st sto eff [clk tbs net rnd]], ext; simpl. intros -> -> ->.
  unfold handleTabChange, endCurrentSession, saveSessionData, syncWithBackend, getUserId.
  js_exec; (split; [reflexivity|]); (split; [reflexivity|]);
    rewrite ?daily_sessions_insert_ne by (apply not_eq_sym, dailyKey_not_userId);
    apply storeSessionData_daily.
Qed.

Lemma stuck_dispatch `{Calendar} (ext : Extensions) (s : Tracker) (old : Session) (t id : Z) :
  queueForRetry ext = false -> network_up (world s) = false -> currentSession s = Some old ->
  let r := dispatch ext t (EvTabActivated id) s in
  currentSession r.1 = Some (ended_copy old t) /\ network_up (world r.1) = false /\
  daily_sessions (toDateString t) (store r.1) = (daily_sessions (toDateString t) (store s) + 1)%Z.
Proof.
  intros Hq Hn Hc. unfold dispatch, set_clock, set_world, mbind, js_mbind.
  pose (w := {| clock := t; tabs := tabs (world s); network_up := network_up (world s);
                randoms := randoms (world s) |}).
  destruct (stuck_tab_change ext (with_world s w) old id Hq Hn Hc) as (A & B & C).
  cbn in *. auto.
Qed.

(** C3: the consequence of C2 on the daily aggregate: once a sync has
    failed, the session stays current through every later tab change,
    and each tab change of the day stores it and counts it in the day's
    aggregate once more: one visit is counted once per tab change. *)
Theorem offline_double_count `{Calendar} (ext : Extensions) (s : Tracker) (old : Session)
    (evs : list (Z * Z)) (day : string) :
  queueForRetry ext = false -> network_up (world s) = false -> currentSession s = Some old ->
  Forall (fun e => toDateString e.1 = day) evs ->
  let s' := run ext (map (fun e => (e.1, EvTabActivated e.2)) evs) s in
  daily_sessions day (store s') = (daily_sessions day (store s) + Z.of_nat (length evs))%Z /\
  exists x, currentSession s' = Some x /\ tabId x = tabId old /\ startTime x = startTime old.
Proof.
  intros Hq. revert s old. induction evs as [|[t id] evs IH]; intros s old Hn Hc Hd; cbn.
  - split; [lia|]. by exists old.
  - apply Forall_cons in Hd as [Ht Hd']. cbn in Ht.
    destruct (stuck_dispatch ext s old t id Hq Hn Hc) as (Hc1 & Hn1 & Hs1).
    destruct (IH _ _ Hn1 Hc1 Hd') as [Hs Hx]. split; [rewrite Hs, <- Ht, Hs1; lia|].
    destruct Hx as (x & Hx & Htab & Hst). by exists x.
Qed.

(** the witness of C3: GitHub is opened, the backend goes away, and two
    tab changes follow on the same day; the day's aggregate then counts
    the single visit twice *)
Lemma offline_double_count_witness :
  let old := default (sessionData "" 0 "" "" "" 0 neutral) (currentSession demo_offline) in
  let evs := [(1300000%Z, 8%Z); (1500000%Z, 7%Z)] in
  let s' := run demo_ext (map (fun e => (e.1, EvTabActivated e.2)) evs) demo_offline in
  daily_sessions (toDateString 1500000%Z) (store demo_offline) = 0%Z /\
  (daily_sessions (toDateString 1500000%Z) (store s') =
     (daily_sessions (toDateString 1500000%Z) (store demo_offline) + Z.of_nat (length evs))%Z /\
   exists x, currentSession s' = Some x /\ tabId x = tabId old /\ startTime x = startTime old).
Proof.
  split; [vm_compute; reflexivity|].
  apply offline_double_count; [reflexivity | vm_compute; reflexivity | vm_compute; reflexivity |].
  repeat constructor.
Defined.
