(* ===== verification/Content.v ===== *)
(** * The content script of [src/content.js] and the activity it reports

    The page-side counters of [content.js], the DOM listeners that bump
    them and [updateActivity], which sends a copy of all the counters to
    the background as an [activityUpdate] message; then what the
    background's [updateSessionActivity] makes of a run of such messages. *)

From stdpp Require Import base decidable list strings.
From Stdlib Require Import ZArith Lia.
From S2P Require Import Prelude Classifier Scoring Storage Tracker.

(** ** The page-side state *)

(** the object [activityData] of [content.js] *)
Record ContentState : Type := {
  c_keystrokes : Z;
  c_mouseMovements : Z;
  c_scrolls : Z;
  c_clicks : Z;
  c_activeTime : Z;
  c_lastActivity : Z
}.

(** the object literal, evaluated when the script is injected at [now] *)
Definition initial_activity (now : Z) : ContentState :=
  {| c_keystrokes := 0; c_mouseMovements := 0; c_scrolls := 0; c_clicks := 0;
     c_activeTime := 0; c_lastActivity := now |}.

(** the four DOM events the script listens to *)
Inductive DomEvent : Type := keydown | mousemove | scroll | click.

#[export] Instance DomEvent_eq_dec : EqDecision DomEvent.
Proof. solve_decision. Defined.

(** [{ ...activityData }]: the fields the background reads *)
Definition snapshot (a : ContentState) : ActivityData :=
  {| d_keystrokes := Some (c_keystrokes a); d_mouseMovements := Some (c_mouseMovements a);
     d_scrolls := Some (c_scrolls a); d_clicks := Some (c_clicks a);
     d_activeTime := Some (c_activeTime a) |}.

(** [updateActivity()] at [now]: the new state and the message sent, if any.
    [%] on the non-negative counters is [Z.rem]. *)
Definition updateActivity (now : Z) (a : ContentState) : ContentState * option ActivityData :=
  let a := {| c_keystrokes := c_keystrokes a; c_mouseMovements := c_mouseMovements a;
              c_scrolls := c_scrolls a; c_clicks := c_clicks a;
              c_activeTime := c_activeTime a + (now - c_lastActivity a);
              c_lastActivity := now |} in
  if (Z.rem (c_keystrokes a) 10 =? 0)%Z || (Z.rem (c_mouseMovements a) 50 =? 0)%Z
  then (a, Some (snapshot a)) else (a, None).

(** the [++] of each listener *)
Definition bump (ev : DomEvent) (a : ContentState) : ContentState :=
  let inc e := if decide (ev = e) then 1%Z else 0%Z in
  {| c_keystrokes := c_keystrokes a + inc keydown;
     c_mouseMovements := c_mouseMovements a + inc mousemove;
     c_scrolls := c_scrolls a + inc scroll; c_clicks := c_clicks a + inc click;
     c_activeTime := c_activeTime a; c_lastActivity := c_lastActivity a |}.

(** one listener: the counter, then [updateActivity()] *)
Definition on_dom_event (ev : DomEvent) (now : Z) (a : ContentState) :
    ContentState * option ActivityData :=
  updateActivity now (bump ev a).

(** a page's timed DOM events, and the messages sent, with their times *)
Fixpoint run_content (evs : list (Z * DomEvent)) (a : ContentState) :
    ContentState * list (Z * ActivityData) :=
  match evs with
  | [] => (a, [])
  | (t, ev) :: evs' =>
      let r := on_dom_event ev t a in
      let rest := run_content evs' r.1 in
      (rest.1, option_list (option_map (pair t) r.2) ++ rest.2)
  end.

(** how many of the events are [e] *)
Definition count_ev (e : DomEvent) (evs : list (Z * DomEvent)) : Z :=
  Z.of_nat (length (List.filter (fun p => bool_decide (p.2 = e)) evs)).

(** the time of the last event, [t0] when there is none *)
Definition last_time (t0 : Z) (evs : list (Z * DomEvent)) : Z :=
  default t0 (last (map fst evs)).

(** ** Delivering the messages to the background *)

(** the messages of tab [id], delivered at the given times *)
Definition activity_events (id : Z) (msgs : list (Z * ActivityData)) : list (Z * Event) :=
  map (fun p => (p.1, EvMessage (RqActivityUpdate p.2) (Some id))) msgs.

Definition sum_field (f : ActivityData -> option Z) (msgs : list (Z * ActivityData)) : Z :=
  sumZ (map (fun p => or0 (f p.2)) msgs).

(** ** A page for the examples

    Twenty key presses, one every 100 ms, on the page of tab 7 that
    [demo_tracking] of [Tracker] tracks, injected when that session
    started. *)

Definition demo_keys : list (Z * DomEvent) :=
  map (fun i => (1000000 + 100 * Z.of_nat (S i), keydown)%Z) (seq 0 20).

Definition demo_page : ContentState * list (Z * ActivityData) :=
  run_content demo_keys (initial_activity 1000000).

(** ** The page-side counters *)

Lemma count_ev_cons (e ev : DomEvent) (t : Z) (evs : list (Z * DomEvent)) :
  count_ev e ((t, ev) :: evs) = ((if decide (ev = e) then 1 else 0) + count_ev e evs)%Z.
Proof. unfold count_ev. cbn. case_bool_decide; case_decide; try done; cbn [length]; lia. Qed.

Lemma count_ev_nonneg (e : DomEvent) (evs : list (Z * DomEvent)) : (0 <= count_ev e evs)%Z.
Proof. unfold count_ev. lia. Qed.

Lemma last_time_cons (t0 t : Z) (ev : DomEvent) (evs : list (Z * DomEvent)) :
  last_time t0 ((t, ev) :: evs) = last_time t evs.
Proof.
  unfold last_time. cbn [map fst]. destruct (map fst evs) as [|z l]; [done|].
  change (last (t :: z :: l)) with (last (z :: l)).
  destruct (last (z :: l)) eqn:E; [done|]. by apply last_None in E.
Qed.

Lemma run_content_state (evs : list (Z * DomEvent)) (a : ContentState) :
  let a' := (run_content evs a).1 in
  c_keystrokes a' = (c_keystrokes a + count_ev keydown evs)%Z /\
  c_mouseMovements a' = (c_mouseMovements a + count_ev mousemove evs)%Z /\
  c_scrolls a' = (c_scrolls a + count_ev scroll evs)%Z /\
  c_clicks a' = (c_clicks a + count_ev click evs)%Z /\
  c_activeTime a' = (c_activeTime a + (last_time (c_lastActivity a) evs - c_lastActivity a))%Z /\
  c_lastActivity a' = last_time (c_lastActivity a) evs.
Proof.
  revert a. induction evs as [|[t ev] evs IH]; intros a.
  - cbn. unfold count_ev, last_time. cbn. lia.
  - cbn zeta. cbn [run_content fst]. destruct (IH (on_dom_event ev t a).1) as (H1 & H2 & H3 & H4 & H5 & H6).
    rewrite !count_ev_cons, last_time_cons.
    unfold on_dom_event, updateActivity in *. case_match; cbn in *; destruct ev; cbn in *; lia.
Qed.

Lemma run_content_sends_all (evs : list (Z * DomEvent)) (a : ContentState) :
  c_mouseMovements a = 0%Z -> count_ev mousemove evs = 0%Z ->
  length (run_content evs a).2 = length evs.
Proof.
  revert a. induction evs as [|[t ev] evs IH]; intros a Hm Hc; [done|].
  rewrite count_ev_cons in Hc. pose proof (count_ev_nonneg mousemove evs).
  cbn [run_content snd length]. unfold on_dom_event, updateActivity.
  destruct (decide (ev = mousemove)) as [|Hne]; [lia|].
  assert (Hb : c_mouseMovements (bump ev a) = 0%Z)
    by (unfold bump; cbn [c_mouseMovements]; rewrite decide_False by done; lia).
  rewrite Hb, orb_true_r. cbn. rewrite IH; [done| |lia]. by destruct ev.
Qed.

(** ** The background's side *)

Section Background.
Context `{Calendar} (ext : Extensions).

Lemma activity_message_step (t : Z) (s : Tracker) (x : Session) (d : ActivityData) :
  currentSession s = Some x ->
  exists x', currentSession (dispatch ext t (EvMessage (RqActivityUpdate d) (Some (tabId x))) s).1
               = Some x' /\ tabId x' = tabId x /\
    keystrokes x' = (keystrokes x + or0 (d_keystrokes d))%Z /\
    mouseMovements x' = (mouseMovements x + or0 (d_mouseMovements d))%Z /\
    scrolls x' = (scrolls x + or0 (d_scrolls d))%Z /\ clicks x' = (clicks x + or0 (d_clicks d))%Z /\
    timeSpentActive x' = (timeSpentActive x + or0 (d_activeTime d))%Z.
Proof.
  destruct s as [cs st sto eff w]. cbn. intros ->.
  unfold dispatch, handleMessage, updateSessionActivity. js_run.
  rewrite Z.eqb_refl. js_run. by eexists.
Qed.

(** C22: the background adds every field of every [activityUpdate]
    message of the session's tab to the session's counters, as if each
    message carried the activity since the previous one. *)
Theorem activity_reports_accumulate (s : Tracker) (x : Session) (msgs : list (Z * ActivityData)) :
  currentSession s = Some x ->
  exists x', currentSession (run ext (activity_events (tabId x) msgs) s) = Some x' /\
    keystrokes x' = (keystrokes x + sum_field d_keystrokes msgs)%Z /\
    mouseMovements x' = (mouseMovements x + sum_field d_mouseMovements msgs)%Z /\
    scrolls x' = (scrolls x + sum_field d_scrolls msgs)%Z /\
    clicks x' = (clicks x + sum_field d_clicks msgs)%Z /\
    timeSpentActive x' = (timeSpentActive x + sum_field d_activeTime msgs)%Z.
Proof.
  revert s x. induction msgs as [|[t d] msgs IH]; intros s x Hx.
  - exists x. unfold sum_field, sumZ. cbn. rewrite Hx. repeat split; lia.
  - destruct (activity_message_step t s x d Hx) as (x1 & Hx1 & Hid & Hk & Hm & Hs & Hc & Ha).
    destruct (IH _ x1 Hx1) as (x2 & Hx2 & Hk2 & Hm2 & Hs2 & Hc2 & Ha2).
    exists x2. cbn [activity_events map run fst snd]. rewrite Hid in Hx2. unfold activity_events in Hx2.
    split; [exact Hx2|]. unfold sum_field in *. cbn [map snd]. rewrite !sumZ_cons. lia.
Qed.

End Background.

(** C20: the page's counters count its events, and its [activeTime] is
    the time from injection to the last event, every gap included: an
    hour without input between two events counts as an hour of activity,
    although the background also adds idle and blur periods to
    [timeSpentIdle], which the specification keeps apart from
    [timeSpentActive]. *)
Theorem content_counts (t0 : Z) (evs : list (Z * DomEvent)) :
  let a := (run_content evs (initial_activity t0)).1 in
  c_keystrokes a = count_ev keydown evs /\ c_mouseMovements a = count_ev mousemove evs /\
  c_scrolls a = count_ev scroll evs /\ c_clicks a = count_ev click evs /\
  c_activeTime a = (last_time t0 evs - t0)%Z.
Proof.
  cbv zeta. destruct (run_content_state evs (initial_activity t0)) as (H1 & H2 & H3 & H4 & H5 & _).
  cbn in *. lia.
Qed.

(** C21: until the first mouse movement, every event of the page sends
    an [activityUpdate] message, since [0 % 50 === 0]; the comment of
    [updateActivity] says the data is sent every 10 seconds. *)
Theorem sends_until_first_mousemove (t0 : Z) (evs : list (Z * DomEvent)) :
  count_ev mousemove evs = 0%Z ->
  length (run_content evs (initial_activity t0)).2 = length evs.
Proof. intros Hc. by apply run_content_sends_all. Qed.

Lemma sends_until_first_mousemove_witness :
  count_ev mousemove demo_keys = 0%Z /\
  length (run_content demo_keys (initial_activity 1000000)).2 = length demo_keys.
Proof.
  assert (Hc : count_ev mousemove demo_keys = 0%Z) by (vm_compute; reflexivity).
  split; [exact Hc|]. exact (sends_until_first_mousemove 1000000 demo_keys Hc).
Defined.

(** the two halves together: twenty key presses on the tracked page
    send twenty messages carrying the running totals 1, 2, ..., 20, and
    the background adds them up: the session records 210 key presses and
    21000 ms of activity for 20 presses over 2000 ms. *)
Example cumulative_reports_inflate :
  c_keystrokes demo_page.1 = 20%Z /\ length demo_page.2 = 20%nat /\
  option_map keystrokes (currentSession (run demo_ext (activity_events 7 demo_page.2) demo_tracking))
    = Some 210%Z /\
  option_map timeSpentActive
    (currentSession (run demo_ext (activity_events 7 demo_page.2) demo_tracking)) = Some 21000%Z.
Proof. vm_compute. repeat split. Qed.

Lemma activity_reports_accumulate_witness :
  exists x, currentSession demo_tracking = Some x /\
  exists x', currentSession (run demo_ext (activity_events (tabId x) demo_page.2) demo_tracking)
               = Some x' /\
    keystrokes x' = (keystrokes x + sum_field d_keystrokes demo_page.2)%Z /\
    mouseMovements x' = (mouseMovements x + sum_field d_mouseMovements demo_page.2)%Z /\
    scrolls x' = (scrolls x + sum_field d_scrolls demo_page.2)%Z /\
    clicks x' = (clicks x + sum_field d_clicks demo_page.2)%Z /\
    timeSpentActive x' = (timeSpentActive x + sum_field d_activeTime demo_page.2)%Z.
Proof.
  assert (Hc : currentSession demo_tracking = Some _) by (vm_compute; reflexivity).
  eexists; split; [exact Hc|].
  exact (activity_reports_accumulate demo_ext demo_tracking _ demo_page.2 Hc).
Defined.
