(* ===== verification/Backend.v ===== *)
(** * The backend: [src/Activity.js], [src/activityRoutes.js],
      [src/analyticsRoutes.js] and [src/server.js]

    The Mongoose model [Activity] and the validation [save()] runs, the
    Express routers with their first-match dispatch, and the handlers of
    both routers over a collection of activities held as a list in
    insertion order.  The JSON body the extension posts is built from the
    [SyncPayload] of [Tracker], so the two ends of the sync can be
    related.  Query-string values are strings, coerced where the code
    coerces them ([js_Number], [parseInt]).  The schema's constraints are
    the predicate [conforms], which every request preserves on the whole
    collection. *)

From stdpp Require Import base decidable list strings sorting.
From Stdlib Require Import QArith Qround ZArith Lia Lqa Ascii.
From S2P Require Import Prelude Classifier Scoring Storage Tracker.

Local Open Scope js_scope.

(** ** JSON values of number fields

    [JSON.stringify] omits an [undefined] field and writes [NaN] and the
    infinities as [null]. *)

Inductive jnum : Type :=
  | JAbsent
  | JNull
  | JNum (q : Q).

Definition json_of_num (o : option num) : jnum :=
  match o with
  | None => JAbsent
  | Some (Fin q) => JNum q
  | Some _ => JNull
  end.

Definition json_of_Z (o : option Z) : jnum :=
  match o with None => JAbsent | Some z => JNum (inject_Z z) end.

(** ** The [Activity] model of [Activity.js] *)

(** a stored document; [focusScore] is [None] when it was stored as [null] *)
Record Activity : Type := {
  act_userId : string;
  act_domain : string;
  act_url : option string;
  act_title : option string;
  act_timeSpent : Q;
  act_category : Category;
  act_isActive : bool;
  act_focusScore : option Q;
  act_sessionId : option string;
  act_createdAt : Z
}.

(** the fields of a request body the schema reads; a field the schema
    does not declare, such as [productivityScore], is dropped *)
Record ActivityBody : Type := {
  b_userId : option string;
  b_domain : option string;
  b_url : option string;
  b_title : option string;
  b_timeSpent : jnum;
  b_category : option string;
  b_focusScore : jnum;
  b_sessionId : option string
}.

(** the string of the enumeration [['highly_productive', ...]] *)
Definition category_of_string (s : string) : option Category :=
  List.find (fun c => String.eqb (category_name c) s)
    [highly_productive; productive; unproductive; neutral; break].

(** [required: true] on a string: absent, [null] and [''] fail *)
Definition required_string (o : option string) : option string :=
  match o with
  | Some s => if String.eqb s "" then None else Some s
  | None => None
  end.

(** [new Activity(body)] then [save()] at time [now] ([timestamps: true]
    sets [createdAt]); [None] is the [ValidationError] *)
Definition createActivity (b : ActivityBody) (now : Z) : option Activity :=
  u ← required_string (b_userId b);
  d ← required_string (b_domain b);
  t ← (match b_timeSpent b with JNum q => Some q | _ => None end);
  c ← (match b_category b with None => Some neutral | Some s => category_of_string s end);
  f ← (match b_focusScore b with
       | JAbsent => Some (Some 0)
       | JNull => Some None
       | JNum q => if Qle_bool 0 q && Qle_bool q 100 then Some (Some q) else None
       end);
  Some {| act_userId := u; act_domain := d; act_url := b_url b; act_title := b_title b;
          act_timeSpent := t; act_category := c; act_isActive := true; act_focusScore := f;
          act_sessionId := b_sessionId b; act_createdAt := now |}.

(** the body [syncWithBackend] posts: [JSON.stringify(payload)] *)
Definition body_of_payload (p : SyncPayload) : ActivityBody :=
  {| b_userId := Some (pl_userId p); b_domain := Some (pl_domain p); b_url := Some (pl_url p);
     b_title := Some (pl_title p); b_timeSpent := json_of_Z (pl_timeSpent p);
     b_category := Some (category_name (pl_category p));
     b_focusScore := json_of_num (pl_focusScore p); b_sessionId := Some (pl_sessionId p) |}.

(** ** Express routing *)

Inductive Method : Type := GET | POST.

#[export] Instance Method_eq_dec : EqDecision Method.
Proof. solve_decision. Defined.

(** a path segment of a route: a literal, or a [:param] that matches one
    non-empty segment *)
Inductive Seg : Type :=
  | Lit (s : string)
  | Param (name : string).

Record Route : Type := {
  r_method : Method;
  r_path : list Seg
}.

(** Express's defaults: a literal matches regardless of case, and a
    trailing ['/'] is allowed *)
Definition seg_eq (l p : string) : bool := String.eqb (toLowerCase l) (toLowerCase p).

Fixpoint match_segs (pat : list Seg) (path : list string) : option (list (string * string)) :=
  match pat, path with
  | [], [] | [], [""] => Some []
  | Lit l :: pat', p :: path' => if seg_eq l p then match_segs pat' path' else None
  | Param n :: pat', p :: path' =>
      if String.eqb p "" then None
      else ps ← match_segs pat' path'; Some ((n, p) :: ps)
  | _, _ => None
  end.

(** the first route, in declaration order, that matches: its index and
    the parameters *)
Fixpoint first_route_from (i : nat) (rs : list Route) (m : Method) (path : list string) :
    option (nat * list (string * string)) :=
  match rs with
  | [] => None
  | r :: rs' =>
      match (if decide (r_method r = m) then match_segs (r_path r) path else None) with
      | Some ps => Some (i, ps)
      | None => first_route_from (S i) rs' m path
      end
  end.

Definition first_route (rs : list Route) (m : Method) (path : list string) :=
  first_route_from 0 rs m path.

(** the routes of [activityRoutes.js], in the order they are declared *)
Definition activity_routes : list Route :=
  [ {| r_method := POST; r_path := [Lit "advanced"] |};
    {| r_method := GET; r_path := [Param "userId"] |};
    {| r_method := GET; r_path := [Lit "recent"; Param "userId"] |};
    {| r_method := GET; r_path := [Lit "user"] |};
    {| r_method := POST; r_path := [Lit "log"] |} ].

(** the routes of [analyticsRoutes.js] *)
Definition analytics_routes : list Route :=
  [ {| r_method := GET; r_path := [Lit "productivity"; Param "userId"] |};
    {| r_method := GET; r_path := [Lit "score"; Param "userId"] |} ].

(** ** Requests and responses *)

Inductive Body : Type :=
  | BActivity (b : ActivityBody)
  | BLog (domain : option string) (duration : jnum)
  | BEmpty
  (** a JSON body [bodyParser.json()] refuses: [JSON.parse] fails, or
      its top level is not an object or an array *)
  | BMalformed.

(** a request: the path split on ['/'] and the query string *)
Record HttpRequest : Type := {
  h_method : Method;
  h_path : list string;
  h_query : list (string * string);
  h_body : Body
}.

Record Metrics : Type := {
  m_totalTime : Q;
  m_productiveTime : Q;
  m_unproductiveTime : Q;
  m_sessionsCount : Z;
  m_productivityScore : num
}.

Record Grade : Type := { grade : string; description : string; color : string }.

Record Insight : Type := { i_type : string; i_message : string }.

Inductive RespBody : Type :=
  | RActivity (a : Activity)
  | RActivities (l : list Activity)
  | RUserInfo (userId : string)
  | RMetrics (m : Metrics)
  | RScore (score : num) (g : Grade) (insights : list Insight)
  | RApiStatus
  | RError
  | RNotFound
  | RBadRequest.

Definition HttpResponse : Type := Z * RespBody.

Definition query (req : HttpRequest) (k : string) : option string :=
  snd <$> List.find (fun kv => String.eqb kv.1 k) (h_query req).

Fixpoint trim_end (s : string) : string :=
  match s with
  | EmptyString => EmptyString
  | String c s' =>
      let r := trim_end s' in
      if String.eqb r "" && is_space c then EmptyString else String c r
  end.

(** the value of a string of decimal digits, [None] at any other character *)
Fixpoint digits_acc (s : string) (acc : Z) : option Z :=
  match s with
  | EmptyString => Some acc
  | String c s' => d ← digit_value c; digits_acc s' (acc * 10 + d)%Z
  end.

Definition unsigned_value (s : string) : num :=
  if String.eqb s "" then NaN
  else match digits_acc s 0 with Some z => num_of_Z z | None => NaN end.

(** [Number(s)] on the strings of an optional sign and decimal digits
    between blanks ([''] is 0); other numeric syntaxes (fractions,
    exponents, hexadecimal, ['Infinity']) are not modelled and read as
    [NaN] *)
Definition js_Number (s : string) : num :=
  let t := trim_end (trim_start s) in
  match t with
  | EmptyString => num_of_Z 0
  | String c r =>
      if Ascii.eqb c "-"%char then num_neg (unsigned_value r)
      else if Ascii.eqb c "+"%char then unsigned_value r
      else unsigned_value t
  end.

(** [new Date()] moved back [days] days, as a time; [None] for the
    Invalid Date of a [NaN] day count, on which the query fails *)
Definition days_before (now : Z) (days : num) : option Z :=
  match days with
  | Fin q => Some (now - Qfloor (q * 86400000))%Z
  | _ => None
  end.

Definition productive_cat (c : Category) : bool :=
  match c with productive | highly_productive => true | _ => false end.

Definition sum_time (l : list Activity) : Q := sumQ (map act_timeSpent l).

(** ** The handlers of [activityRoutes.js] *)

Definition ok (db : list Activity) (b : RespBody) : list Activity * HttpResponse := (db, (200%Z, b)).
Definition fail (db : list Activity) : list Activity * HttpResponse := (db, (500%Z, RError)).

(** [POST /advanced]: [new Activity(req.body)], [save()] *)
Definition postAdvanced (now : Z) (body : Body) (db : list Activity) : list Activity * HttpResponse :=
  match body with
  | BActivity b =>
      match createActivity b now with
      | Some a => (db ++ [a], (200%Z, RActivity a))
      | None => fail db
      end
  | _ => fail db
  end.

(** [GET /:userId?category=&days=]: [days] defaults to 7 and is coerced
    by the subtraction; an empty [category] is no filter *)
Definition getUserActivities (now : Z) (userId : string) (req : HttpRequest) (db : list Activity) :
    list Activity * HttpResponse :=
  let days := match query req "days" with Some d => js_Number d | None => num_of_Z 7 end in
  match days_before now days with
  | None => fail db
  | Some startDate =>
      let keep a :=
        String.eqb (act_userId a) userId &&
        match query req "category" with
        | Some c => if String.eqb c "" then true else String.eqb (category_name (act_category a)) c
        | None => true
        end &&
        (startDate <=? act_createdAt a)%Z in
      ok db (RActivities (List.filter keep db))
  end.

(** [sort({ createdAt: -1 })]: newest first; documents created in the same
    millisecond keep their insertion order *)
Definition newer (a b : Activity) : Prop := (act_createdAt b <= act_createdAt a)%Z.

#[export] Instance newer_dec : RelDecision newer := fun a b => decide (_ <= _)%Z.

Definition newest_first (l : list Activity) : list Activity := merge_sort newer l.

(** [parseInt(req.query.limit) || 20]: [NaN] and 0 give 20 *)
Definition recent_limit (req : HttpRequest) : Z :=
  match query req "limit" with
  | Some l => match parseInt l with Fin q => if Qeq_bool q 0 then 20%Z else Qnum q | _ => 20%Z end
  | None => 20%Z
  end.

(** [GET /recent/:userId?limit=]: the user's activities, newest first,
    cut to the limit; a negative [limit(n)] returns [|n|] documents *)
Definition getRecent (userId : string) (req : HttpRequest) (db : list Activity) :
    list Activity * HttpResponse :=
  ok db (RActivities (take (Z.to_nat (Z.abs (recent_limit req)))
           (newest_first (List.filter (fun a => String.eqb (act_userId a) userId) db)))).

(** [POST /log]: [{ domain, duration }], [timeSpent: duration * 1000]; an
    absent duration gives [NaN], which the [Number] cast refuses, and
    [null * 1000] is 0 *)
Definition postLog (now : Z) (body : Body) (db : list Activity) : list Activity * HttpResponse :=
  match body with
  | BLog domain duration =>
      let timeSpent := match duration with
                       | JAbsent => JNull
                       | JNull => JNum 0
                       | JNum q => JNum (q * 1000)
                       end in
      postAdvanced now
        (BActivity {| b_userId := Some "default_user"; b_domain := domain; b_url := None;
                      b_title := None; b_timeSpent := timeSpent; b_category := Some "neutral";
                      b_focusScore := JAbsent; b_sessionId := None |}) db
  | _ => fail db
  end.

(** the router: the first matching route handles the request *)
Definition activityRouter (now : Z) (req : HttpRequest) (path : list string) (db : list Activity) :
    option (list Activity * HttpResponse) :=
  match first_route activity_routes (h_method req) path with
  | Some (0%nat, _) => Some (postAdvanced now (h_body req) db)
  | Some (1%nat, ps) => Some (getUserActivities now (default "" (snd <$> head ps)) req db)
  | Some (2%nat, ps) => Some (getRecent (default "" (snd <$> head ps)) req db)
  | Some (3%nat, _) => Some (ok db (RUserInfo "default_user"))
  | Some (4%nat, _) => Some (postLog now (h_body req) db)
  | _ => None
  end.

(** ** The handlers of [analyticsRoutes.js] *)

(** the activities of [userId] created since [start] *)
Definition window (userId : string) (start : Z) (db : list Activity) : list Activity :=
  List.filter (fun a => String.eqb (act_userId a) userId && (start <=? act_createdAt a)%Z) db.

(** [totalTime > 0 ? Math.round((productiveTime / totalTime) * 100) : 0] *)
Definition score_of (productiveTime totalTime : Q) : num :=
  if num_ltb (num_of_Z 0) (Fin totalTime) then js_round (Fin (productiveTime / totalTime * 100)) else num_of_Z 0.

Definition metrics_of (l : list Activity) : Metrics :=
  let totalTime := sum_time l in
  let productiveTime := sum_time (List.filter (fun a => productive_cat (act_category a)) l) in
  {| m_totalTime := totalTime; m_productiveTime := productiveTime;
     m_unproductiveTime :=
       sum_time (List.filter (fun a => bool_decide (act_category a = unproductive)) l);
     m_sessionsCount := Z.of_nat (length l);
     m_productivityScore := score_of productiveTime totalTime |}.

(** [GET /productivity/:userId?period=]: [parseInt(period.replace('d', ''))]
    days, ['1d'] by default *)
Definition getProductivity (now : Z) (userId : string) (req : HttpRequest) (db : list Activity) :
    list Activity * HttpResponse :=
  let period := default "1d" (query req "period") in
  let days := parseInt (replace_first "d" "" period) in
  match days_before now days with
  | None => fail db
  | Some startDate => ok db (RMetrics (metrics_of (window userId startDate db)))
  end.

Definition getPerformanceGrade (score : num) : Grade :=
  if num_geb score (num_of_Z 90) then {| grade := "A+"; description := "Exceptional Performance"; color := "#00C851" |}
  else if num_geb score (num_of_Z 80) then {| grade := "A"; description := "Excellent Performance"; color := "#2E7D32" |}
  else if num_geb score (num_of_Z 70) then {| grade := "B"; description := "Good Performance"; color := "#FFA000" |}
  else if num_geb score (num_of_Z 60) then {| grade := "C"; description := "Average Performance"; color := "#FF6F00" |}
  else if num_geb score (num_of_Z 50) then {| grade := "D"; description := "Below Average"; color := "#E65100" |}
  else {| grade := "F"; description := "Needs Improvement"; color := "#D32F2F" |}.

Definition generateSimpleInsights (activities : list Activity) (score : num) : list Insight :=
  match activities with
  | [] => [{| i_type := "info"; i_message := "Start browsing to generate insights!" |}]
  | _ =>
      (if num_ltb (num_of_Z 80) score
       then [{| i_type := "success"; i_message := "Excellent productivity today!" |}]
       else if num_ltb score (num_of_Z 40)
       then [{| i_type := "warning";
                i_message := "Try visiting more productive sites to improve your score" |}]
       else []) ++
      match last activities with
      | Some r => [{| i_type := "info";
                      i_message := "Recent activity: " +:+ act_domain r +:+ " (" +:+
                                   category_name (act_category r) +:+ ")" |}]
      | None => []
      end
  end.

(** [GET /score/:userId]: the last 24 hours *)
Definition getScore (now : Z) (userId : string) (db : list Activity) : list Activity * HttpResponse :=
  let activities := window userId (now - 24 * 60 * 60 * 1000)%Z db in
  let m := metrics_of activities in
  let score := m_productivityScore m in
  ok db (RScore score (getPerformanceGrade score) (generateSimpleInsights activities score)).

Definition analyticsRouter (now : Z) (req : HttpRequest) (path : list string) (db : list Activity) :
    option (list Activity * HttpResponse) :=
  match first_route analytics_routes (h_method req) path with
  | Some (0%nat, ps) => Some (getProductivity now (default "" (snd <$> head ps)) req db)
  | Some (1%nat, ps) => Some (getScore now (default "" (snd <$> head ps)) db)
  | _ => None
  end.

(** ** The application of [server.js] *)

(** [app.use(bodyParser.json())], whose parse error Express answers with
    a 400 before any route, then [app.use('/api/activity', ...)],
    [app.use('/api/analytics', ...)], [app.get('/')], and Express's 404
    for what no route handles *)
Definition server (now : Z) (req : HttpRequest) (db : list Activity) : list Activity * HttpResponse :=
  let handled :=
    match h_path req with
    | a :: b :: rest =>
        if seg_eq "api" a && seg_eq "activity" b then activityRouter now req rest db
        else if seg_eq "api" a && seg_eq "analytics" b then analyticsRouter now req rest db
        else None
    | [] | [""] => if decide (h_method req = GET) then Some (ok db RApiStatus) else None
    | _ => None
    end in
  match h_body req with
  | BMalformed => (db, (400%Z, RBadRequest))
  | _ => default (db, (404%Z, RNotFound)) handled
  end.

(** a sequence of requests served in order at the given times *)
Fixpoint serve_all (reqs : list (Z * HttpRequest)) (db : list Activity) :
    list Activity * list HttpResponse :=
  match reqs with
  | [] => (db, [])
  | (t, r) :: reqs' =>
      let '(db1, resp) := server t r db in
      let '(db2, resps) := serve_all reqs' db1 in
      (db2, resp :: resps)
  end.

(** the payloads the extension posted *)
Definition posted (s : Tracker) : list SyncPayload :=
  omap (fun e => match e with PostActivity p => Some p | _ => None end) (effects s).

(** the document the legacy ingest is meant to store: the default user,
    [neutral], the duration in seconds turned into milliseconds *)
Definition legacy_activity (now : Z) (d : string) (q : Q) : Activity :=
  {| act_userId := "default_user"; act_domain := d; act_url := None; act_title := None;
     act_timeSpent := q * 1000; act_category := neutral; act_isActive := true;
     act_focusScore := Some 0; act_sessionId := None; act_createdAt := now |}.

(** what [save()] checks of a document: [userId] and [domain] present
    and not empty ([required: true]), [focusScore] within [min: 0] and
    [max: 100]; the category is one of the enum by its type *)
Definition conforms (a : Activity) : bool :=
  negb (String.eqb (act_userId a) "") && negb (String.eqb (act_domain a) "") &&
  match act_focusScore a with Some f => Qle_bool 0 f && Qle_bool f 100 | None => true end.

(** ** Fixtures for the examples *)

Definition demo_file_tab : Tab :=
  {| tab_id := 9; tab_url := Some "file:///home/user/notes.html"; tab_title := Some "notes";
     tab_active := true |}.

Definition demo_file_world : World :=
  {| clock := 1000000; tabs := <[9%Z := demo_file_tab]> (tabs demo_world);
     network_up := true; randoms := randoms demo_world |}.

(** ten minutes on a local file, then GitHub *)
Definition demo_file_run : Tracker :=
  run demo_ext [(1000000%Z, EvTabActivated 9); (1600000%Z, EvTabActivated 7)]
    (boot demo_file_world ∅).

(** the payload the extension posted for the local file *)
Definition demo_file_payload : SyncPayload :=
  hd (payload_of "" (sessionData "" 0 "" "" "" 0 neutral)) (posted demo_file_run).

Definition post_req (path : list string) (b : Body) : HttpRequest :=
  {| h_method := POST; h_path := path; h_query := []; h_body := b |}.

Definition get_req (path : list string) : HttpRequest :=
  {| h_method := GET; h_path := path; h_query := []; h_body := BEmpty |}.

Definition demo_productive_body : ActivityBody :=
  {| b_userId := Some "default_user"; b_domain := Some "github.com"; b_url := None; b_title := None;
     b_timeSpent := JNum 2000; b_category := Some "productive"; b_focusScore := JAbsent;
     b_sessionId := None |}.

(** ** Routing *)

(** C24: the route [GET /user] of [activityRoutes.js] is unreachable: it
    is declared after [GET /:userId], which matches every path it
    matches. *)
Theorem user_route_unreachable (path : list string) (ps : list (string * string)) :
  first_route activity_routes GET path <> Some (3%nat, ps).
Proof.
  destruct path as [|s [|s' rest]]; cbn -[String.eqb]; repeat case_match; simplify_eq/=; try done.
  all: repeat match goal with H : String.eqb _ _ = true |- _ => apply String.eqb_eq in H end;
       by subst.
Qed.

(** [GET /api/activity/user], the user-information endpoint, answers
    with the activities of a user called ['user'] instead of
    [{ userId: 'default_user' }]. *)
Example user_endpoint_shadowed :
  server 3000 (get_req ["api"; "activity"; "user"]) [] = ([], (200%Z, RActivities [])).
Proof. vm_compute. reflexivity. Qed.

(** ** What the backend stores of a synced session *)

Lemma category_of_string_name (c : Category) : category_of_string (category_name c) = Some c.
Proof. by destruct c. Qed.

Lemma required_string_Some (s : string) : s <> "" -> required_string (Some s) = Some s.
Proof. intros Hs. cbn. destruct (String.eqb_spec s ""); congruence. Qed.

(** C26: the body [syncWithBackend] posts for a session with a user id, a
    duration and a final focus score that is [NaN] or an integer in
    [[0, 100]] is refused by [save()] exactly when the session's domain is
    empty, as [extractDomain] makes it for [file:], [data:] and other
    URLs without a host; a stored document records a [NaN] score as
    [null]. *)
Theorem synced_payload_saved (p : SyncPayload) (now : Z) :
  pl_userId p <> "" -> is_Some (pl_timeSpent p) ->
  (pl_focusScore p = Some NaN \/
   exists z, pl_focusScore p = Some (num_of_Z z) /\ (0 <= z <= 100)%Z) ->
  (createActivity (body_of_payload p) now = None <-> pl_domain p = "") /\
  (forall a, createActivity (body_of_payload p) now = Some a ->
     act_category a = pl_category p /\ act_createdAt a = now /\
     (act_focusScore a = None <-> pl_focusScore p = Some NaN)).
Proof.
  intros Hu [t Ht] Hf. unfold createActivity, body_of_payload. cbn [b_userId b_domain b_timeSpent
    b_category b_focusScore]. rewrite (required_string_Some (pl_userId p) Hu).
  rewrite Ht, category_of_string_name. cbn [mbind option_bind json_of_Z].
  assert (Hj : exists v, match json_of_num (pl_focusScore p) with
                         | JAbsent => Some (Some 0) | JNull => Some None
                         | JNum q => if Qle_bool 0 q && Qle_bool q 100 then Some (Some q) else None
                         end = Some v /\ (v = None <-> pl_focusScore p = Some NaN)).
  { destruct Hf as [-> | (z & -> & Hz)]; [by eexists|]. unfold num_of_Z. cbn [json_of_num].
    rewrite (proj2 (Qle_bool_iff _ _)), (proj2 (Qle_bool_iff _ _)); cbn.
    - eexists; split; [done|]. split; discriminate.
    - change 100 with (inject_Z 100). rewrite <- Zle_Qle. lia.
    - change 0 with (inject_Z 0). rewrite <- Zle_Qle. lia. }
  destruct Hj as (v & -> & Hv).
  cbn [required_string]. destruct (String.eqb (pl_domain p) "") eqn:E; cbn.
  - apply String.eqb_eq in E. split; [by split|]. discriminate.
  - apply String.eqb_neq in E. split; [split; congruence|]. by intros a [= <-].
Qed.

Lemma synced_payload_saved_witness :
  pl_userId demo_file_payload <> "" /\ is_Some (pl_timeSpent demo_file_payload) /\
  (pl_focusScore demo_file_payload = Some NaN \/
   exists z, pl_focusScore demo_file_payload = Some (num_of_Z z) /\ (0 <= z <= 100)%Z) /\
  (createActivity (body_of_payload demo_file_payload) 1600000 = None <->
     pl_domain demo_file_payload = "") /\
  (forall a, createActivity (body_of_payload demo_file_payload) 1600000 = Some a ->
     act_category a = pl_category demo_file_payload /\ act_createdAt a = 1600000%Z /\
     (act_focusScore a = None <-> pl_focusScore demo_file_payload = Some NaN)).
Proof.
  assert (Hu : pl_userId demo_file_payload <> "") by (vm_compute; discriminate).
  assert (Ht : is_Some (pl_timeSpent demo_file_payload)) by (vm_compute; by eexists).
  assert (Hf : pl_focusScore demo_file_payload = Some NaN \/
               exists z, pl_focusScore demo_file_payload = Some (num_of_Z z) /\ (0 <= z <= 100)%Z)
    by (left; vm_compute; reflexivity).
  split; [exact Hu|]. split; [exact Ht|]. split; [exact Hf|].
  exact (synced_payload_saved demo_file_payload 1600000 Hu Ht Hf).
Defined.

(** the two ends together: ten minutes on a local file are posted
    with an empty domain and a [null] focus score; the backend refuses
    the body with a 500, which [fetch] does not turn into an error, so
    the extension neither retries nor keeps the session: the visit is
    lost to the backend. *)
Example file_session_lost :
  map pl_domain (posted demo_file_run) = [""] /\
  pl_focusScore demo_file_payload = Some NaN /\
  server 1600000 (post_req ["api"; "activity"; "advanced"] (BActivity (body_of_payload demo_file_payload))) []
    = ([], (500%Z, RError)) /\
  option_map tabId (currentSession demo_file_run) = Some 7%Z.
Proof. vm_compute. repeat split. Qed.

(** ** Analytics *)

Lemma productive_time_bounds (l : list Activity) :
  Forall (fun a => 0 <= act_timeSpent a) l ->
  0 <= sum_time (List.filter (fun a => productive_cat (act_category a)) l) <= sum_time l.
Proof.
  intros Hl. unfold sum_time. split.
  - apply sumQ_nonneg, List.Forall_map, List.Forall_forall. intros a Ha.
    apply List.filter_In in Ha as [Ha _]. exact (proj1 (List.Forall_forall _ _) Hl a Ha).
  - by apply sumQ_filter_le.
Qed.

Lemma score_of_range (p t : Q) : 0 <= p <= t -> int_between 0 100 (score_of p t).
Proof.
  intros Hpt. unfold score_of. destruct (num_ltb _ _) eqn:E; [|by exists 0%Z].
  unfold num_ltb, num_of_Z in E. destruct (Qcompare (inject_Z 0) t) eqn:Ec; try discriminate.
  apply Qlt_alt in Ec. change (inject_Z 0) with 0 in Ec. apply js_round_between. split.
  - change (inject_Z 0) with 0. apply Qmult_le_0_compat; [apply Qle_shift_div_l; lra | lra].
  - change (inject_Z 100) with 100. rewrite <- (Qmult_1_l 100) at 2.
    apply Qmult_le_compat_r; [apply Qle_shift_div_r; lra | lra].
Qed.

(** C28: when no stored activity has a negative [timeSpent], the
    productivity score of [GET /productivity] and [GET /score] is an
    integer in [[0, 100]], and 0 when no time was spent. *)
Theorem productivity_score_range (l : list Activity) :
  Forall (fun a => 0 <= act_timeSpent a) l -> int_between 0 100 (m_productivityScore (metrics_of l)).
Proof. intros Hl. apply score_of_range, productive_time_bounds, Hl. Qed.

(** the witness of C28: a productive activity of 2000 ms and a legacy
    log of 3 s, scored 40 *)
Lemma productivity_score_range_witness :
  let db := (serve_all [(1000%Z, post_req ["api"; "activity"; "advanced"] (BActivity demo_productive_body));
                        (2000%Z, post_req ["api"; "activity"; "log"] (BLog (Some "example.com") (JNum 3)))] []).1 in
  length db = 2%nat /\ m_productivityScore (metrics_of db) = num_of_Z 40%Z /\
  Forall (fun a => 0 <= act_timeSpent a) db /\ int_between 0 100 (m_productivityScore (metrics_of db)).
Proof.
  cbv zeta.
  assert (H0 : Forall (fun a => 0 <= act_timeSpent a)
    (serve_all [(1000%Z, post_req ["api"; "activity"; "advanced"] (BActivity demo_productive_body));
                (2000%Z, post_req ["api"; "activity"; "log"] (BLog (Some "example.com") (JNum 3)))] []).1)
    by (vm_compute; repeat constructor; discriminate).
  split; [vm_compute; reflexivity|]. split; [vm_compute; reflexivity|].
  split; [exact H0|]. exact (productivity_score_range _ H0).
Defined.

(** the legacy endpoint accepts a negative duration, and one such
    post drives the productivity score out of [[0, 100]]: 2000 ms of
    productive time and a [/log] of duration -1 give a score of 200. *)
Example negative_log_score :
  match (serve_all [(1000%Z, post_req ["api"; "activity"; "advanced"] (BActivity demo_productive_body));
                    (2000%Z, post_req ["api"; "activity"; "log"] (BLog (Some "example.com") (JNum (-1))));
                    (3000%Z, get_req ["api"; "analytics"; "productivity"; "default_user"])] []).2 with
  | [(200, _); (200, _); (200, RMetrics m)] => m_productivityScore m = num_of_Z 200
  | _ => False
  end%Z.
Proof. vm_compute. reflexivity. Qed.

(** C30: [POST /api/activity/log] with a non-empty domain and a numeric
    duration stores, as the specification's legacy ingest says, an
    activity of the default user, in category [neutral], whose time is
    the duration times 1000, and answers with it. *)
Theorem log_legacy (now : Z) (db : list Activity) (d : string) (q : Q) :
  d <> "" ->
  server now (post_req ["api"; "activity"; "log"] (BLog (Some d) (JNum q))) db =
    (db ++ [legacy_activity now d q], (200%Z, RActivity (legacy_activity now d q))).
Proof. intros Hd. destruct d as [|c d]; [done|]. reflexivity. Qed.

Lemma log_legacy_witness :
  "example.com" <> "" /\
  server 5000 (post_req ["api"; "activity"; "log"] (BLog (Some "example.com") (JNum 3))) [] =
    ([] ++ [legacy_activity 5000 "example.com" 3],
     (200%Z, RActivity (legacy_activity 5000 "example.com" 3))).
Proof.
  assert (Hd : "example.com" <> "") by discriminate.
  split; [exact Hd|]. exact (log_legacy 5000 [] "example.com" 3 Hd).
Defined.

(** ** Recent activities *)

#[export] Instance newer_trans : Transitive newer.
Proof. unfold newer. intros ???; lia. Qed.

#[export] Instance newer_total : Total newer.
Proof. unfold newer. intros ??; lia. Qed.

Lemma Sorted_take {A} (R : relation A) `{!Transitive R} (n : nat) (l : list A) :
  Sorted R l -> Sorted R (take n l).
Proof.
  intros Hl. apply Sorted_StronglySorted in Hl; [|done].
  rewrite <- (take_drop n l) in Hl. apply StronglySorted_app_1_l in Hl.
  by apply StronglySorted_Sorted.
Qed.

(** C31: [GET /recent/:userId] answers with activities of that user only,
    newest first, each at most once, and as many as the limit allows:
    [|limit|] of them, or all when there are fewer. *)
Theorem recent_newest_first (userId : string) (req : HttpRequest) (db : list Activity) :
  exists l, getRecent userId req db = (db, (200%Z, RActivities l)) /\
    Sorted newer l /\ (l ⊆+ List.filter (fun a => String.eqb (act_userId a) userId) db) /\
    length l = Nat.min (Z.to_nat (Z.abs (recent_limit req)))
                 (length (List.filter (fun a => String.eqb (act_userId a) userId) db)).
Proof.
  eexists. split; [reflexivity|]. unfold newest_first.
  split; [apply Sorted_take, Sorted_merge_sort; apply _|].
  split.
  - etrans; [apply submseteq_take|]. by rewrite merge_sort_Permutation.
  - by rewrite length_take, merge_sort_Permutation.
Qed.

(** ** The schema as a type of the collection *)

Lemma createActivity_conforms (b : ActivityBody) (now : Z) (a : Activity) :
  createActivity b now = Some a -> conforms a = true.
Proof.
  unfold createActivity. intros Hc.
  apply bind_Some in Hc as (u & Hu & Hc). apply bind_Some in Hc as (d & Hd & Hc).
  apply bind_Some in Hc as (t & _ & Hc). apply bind_Some in Hc as (c & _ & Hc).
  apply bind_Some in Hc as (f & Hf & [= <-]).
  unfold conforms. cbn [act_userId act_domain act_focusScore].
  destruct (b_userId b); [|done]. destruct (b_domain b); [|done]. cbn in Hu, Hd.
  destruct (String.eqb _ "") eqn:E1 in Hu; [done|]. destruct (String.eqb _ "") eqn:E2 in Hd; [done|].
  simplify_eq. rewrite E1, E2. cbn.
  destruct (b_focusScore b) as [| |q]; cbn in Hf; simplify_eq; [done|done|].
  destruct (Qle_bool 0 q && Qle_bool q 100) eqn:E; simplify_eq. by rewrite E.
Qed.
Lemma activityRouter_db (now : Z) (req : HttpRequest) (path : list string) (db : list Activity) r :
  activityRouter now req path db = Some r -> r.1 = db \/ exists b, r.1 = (postAdvanced now b db).1.
Proof.
  unfold activityRouter. intros Hr. repeat case_match; simplify_eq/=; eauto.
  - unfold getUserActivities. case_match; auto.
  - unfold postLog. case_match; eauto.
Qed.
Lemma analyticsRouter_db (now : Z) (req : HttpRequest) (path : list string) (db : list Activity) r :
  analyticsRouter now req path db = Some r -> r.1 = db.
Proof.
  unfold analyticsRouter. intros Hr. repeat case_match; simplify_eq/=; try done.
  unfold getProductivity. by case_match.
Qed.
Lemma server_db (now : Z) (req : HttpRequest) (db : list Activity) :
  (server now req db).1 = db \/ exists b, (server now req db).1 = (postAdvanced now b db).1.
Proof.
  unfold server. repeat case_match; cbn; try by left.
  all: lazymatch goal with
       | |- context [activityRouter ?n ?r ?p ?d] => destruct (activityRouter n r p d) eqn:E
       | |- context [analyticsRouter ?n ?r ?p ?d] => destruct (analyticsRouter n r p d) eqn:E
       end; cbn; eauto using activityRouter_db, analyticsRouter_db.
Qed.

Lemma postAdvanced_conforms (now : Z) (body : Body) (db : list Activity) :
  Forall (fun a => conforms a = true) db ->
  Forall (fun a => conforms a = true) (postAdvanced now body db).1.
Proof.
  intros Hdb. unfold postAdvanced. destruct body as [b| | |]; [|done..].
  destruct (createActivity b now) as [a|] eqn:Ha; [|done]. cbn.
  apply Forall_app. split; [done|]. constructor; [|done]. by eapply createActivity_conforms.
Qed.

Lemma server_conforms (now : Z) (req : HttpRequest) (db : list Activity) :
  Forall (fun a => conforms a = true) db ->
  Forall (fun a => conforms a = true) (server now req db).1.
Proof.
  intros Hdb. destruct (server_db now req db) as [-> | [b ->]]; [done|].
  by apply postAdvanced_conforms.
Qed.

(** C19: the collection is typed by the schema: if every stored document
    has a non-empty [userId] and [domain] and a [focusScore] that is null
    or within [0, 100], so has every document after any sequence of
    requests, whatever their paths and bodies, because every write goes
    through [save()]'s validation. *)
Theorem collection_conforms (reqs : list (Z * HttpRequest)) (db : list Activity) :
  Forall (fun a => conforms a = true) db ->
  Forall (fun a => conforms a = true) (serve_all reqs db).1.
Proof.
  revert db. induction reqs as [|[t r] reqs IH]; intros db Hdb; cbn; [done|].
  pose proof (server_conforms t r db Hdb) as H1.
  destruct (server t r db) as [db1 resp]. specialize (IH db1 H1).
  by destruct (serve_all reqs db1).
Qed.

Lemma collection_conforms_witness :
  Forall (fun a => conforms a = true)
    (serve_all [(5%Z, post_req ["api"; "activity"; "advanced"] (BActivity demo_productive_body));
                (6%Z, post_req ["api"; "activity"; "log"] (BLog (Some "docs.rs") (JNum 30)))] []).1.
Proof. apply collection_conforms. constructor. Defined.
