(* ===== verification/Options.v ===== *)
(** * The options page of [src/options.js]

    [OptionsManager]: its copy of the settings, the toggles it shows, and
    the save and reset buttons, which write [chrome.storage.local] and send
    [updateSettings] to the background.  The page and the background share
    the store, so the page's operations act on the page's state and on the
    [Tracker] of the background together.  The status line records the
    pending timeouts that hide it, and [options_run] runs clicks at
    increasing times, the timeouts due first. *)

From stdpp Require Import base decidable list strings gmap.
From Stdlib Require Import ZArith Lia.
From S2P Require Import Prelude Classifier Scoring Storage Tracker.

(** ** The page's state *)

(** the seven switches of the page, one per boolean setting *)
Inductive Flag : Type :=
  | FfocusMode | FblockDistractions | FdeepWorkMode | FbreakReminders
  | FpomodoroTimer | FtrackMouseMovement | FtrackKeystrokes.

#[export] Instance Flag_eq_dec : EqDecision Flag.
Proof. solve_decision. Defined.

Definition all_flags : list Flag :=
  [FfocusMode; FblockDistractions; FdeepWorkMode; FbreakReminders; FpomodoroTimer;
   FtrackMouseMovement; FtrackKeystrokes].

(** [this.settings[key]] *)
Definition flag_get (f : Flag) (p : SettingsPatch) : option bool :=
  match f with
  | FfocusMode => p_focusMode p
  | FblockDistractions => p_blockDistractions p
  | FdeepWorkMode => p_deepWorkMode p
  | FbreakReminders => p_breakReminders p
  | FpomodoroTimer => p_pomodoroTimer p
  | FtrackMouseMovement => p_trackMouseMovement p
  | FtrackKeystrokes => p_trackKeystrokes p
  end.

(** [this.settings[key] = v] *)
Definition flag_set (f : Flag) (v : bool) (p : SettingsPatch) : SettingsPatch :=
  {| p_focusMode := if decide (f = FfocusMode) then Some v else p_focusMode p;
     p_breakReminders := if decide (f = FbreakReminders) then Some v else p_breakReminders p;
     p_deepWorkMode := if decide (f = FdeepWorkMode) then Some v else p_deepWorkMode p;
     p_pomodoroTimer := if decide (f = FpomodoroTimer) then Some v else p_pomodoroTimer p;
     p_blockDistractions :=
       if decide (f = FblockDistractions) then Some v else p_blockDistractions p;
     p_trackMouseMovement :=
       if decide (f = FtrackMouseMovement) then Some v else p_trackMouseMovement p;
     p_trackKeystrokes := if decide (f = FtrackKeystrokes) then Some v else p_trackKeystrokes p;
     p_idleThreshold := p_idleThreshold p; p_breakInterval := p_breakInterval p;
     p_pomodoroLength := p_pomodoroLength p |}.

(** the object literal of the constructor and of [resetSettings] *)
Definition options_defaults : SettingsPatch :=
  {| p_focusMode := Some false; p_blockDistractions := Some false; p_deepWorkMode := Some false;
     p_breakReminders := Some true; p_pomodoroTimer := Some false;
     p_trackMouseMovement := Some true; p_trackKeystrokes := Some true;
     p_idleThreshold := None; p_breakInterval := None; p_pomodoroLength := None |}.

(** [{ ...a, ...b }] on two partial objects *)
Definition patch_merge (a b : SettingsPatch) : SettingsPatch :=
  {| p_focusMode := from_option Some (p_focusMode a) (p_focusMode b);
     p_breakReminders := from_option Some (p_breakReminders a) (p_breakReminders b);
     p_deepWorkMode := from_option Some (p_deepWorkMode a) (p_deepWorkMode b);
     p_pomodoroTimer := from_option Some (p_pomodoroTimer a) (p_pomodoroTimer b);
     p_blockDistractions := from_option Some (p_blockDistractions a) (p_blockDistractions b);
     p_trackMouseMovement := from_option Some (p_trackMouseMovement a) (p_trackMouseMovement b);
     p_trackKeystrokes := from_option Some (p_trackKeystrokes a) (p_trackKeystrokes b);
     p_idleThreshold := from_option Some (p_idleThreshold a) (p_idleThreshold b);
     p_breakInterval := from_option Some (p_breakInterval a) (p_breakInterval b);
     p_pomodoroLength := from_option Some (p_pomodoroLength a) (p_pomodoroLength b) |}.

Record OptionsState : Type := {
  o_settings : SettingsPatch;
  (** the [active] class of each switch *)
  o_active : Flag -> bool;
  (** the status line while it is displayed: its message and whether it
      is an error *)
  o_status : option (string * bool);
  (** when the pending [setTimeout]s of [showStatus] hide it *)
  o_hide : list Z
}.

Definition with_o_settings (o : OptionsState) (p : SettingsPatch) : OptionsState :=
  {| o_settings := p; o_active := o_active o; o_status := o_status o; o_hide := o_hide o |}.

(** ** The operations *)

(** [updateToggle(key)]: the switch shows the setting, [undefined] as off *)
Definition updateToggle (f : Flag) (o : OptionsState) : OptionsState :=
  {| o_settings := o_settings o;
     o_active := fun g => if decide (g = f) then default false (flag_get f (o_settings o))
                          else o_active o g;
     o_status := o_status o; o_hide := o_hide o |}.

Definition updateUI (o : OptionsState) : OptionsState := foldl (fun o f => updateToggle f o) o all_flags.

(** [toggleSetting(key)]: [!undefined] is [true] *)
Definition toggleSetting (f : Flag) (o : OptionsState) : OptionsState :=
  updateToggle f (with_o_settings o (flag_set f (negb (default false (flag_get f (o_settings o))))
                                       (o_settings o))).

(** [loadSettings()]: the stored object over the defaults *)
Definition options_loadSettings (st : Store) (o : OptionsState) : OptionsState :=
  match st !! "settings" with
  | Some (VSettings p) => with_o_settings o (patch_merge (o_settings o) p)
  | _ => o
  end.

(** the constructor and [init()], on the store of the background *)
Definition options_init (st : Store) : OptionsState :=
  updateUI (options_loadSettings st
              {| o_settings := options_defaults; o_active := fun _ => false; o_status := None;
                 o_hide := [] |}).

(** [showStatus(message, isError)] at time [t]: the line is displayed,
    and hidden 3 seconds later *)
Definition showStatus (t : Z) (message : string) (isError : bool) (o : OptionsState) : OptionsState :=
  {| o_settings := o_settings o; o_active := o_active o; o_status := Some (message, isError);
     o_hide := o_hide o ++ [(t + 3000)%Z] |}.

(** the timeouts due by [now] run: each sets [display] to ['none'] *)
Definition fire_due (now : Z) (o : OptionsState) : OptionsState :=
  {| o_settings := o_settings o; o_active := o_active o;
     o_status := if existsb (fun d => (d <=? now)%Z) (o_hide o) then None else o_status o;
     o_hide := List.filter (fun d => (now <? d)%Z) (o_hide o) |}.

Section Save.
Context `{Calendar} (ext : Extensions).

(** [saveSettings()] at time [t]: the store is written, then
    [updateSettings] is sent, not awaited; its handler runs before the
    page's next event *)
Definition options_saveSettings (t : Z) (o : OptionsState) (s : Tracker) : OptionsState * Tracker :=
  let s1 := with_store s (<["settings" := VSettings (o_settings o)]> (store s)) in
  let s2 := (dispatch ext t (EvMessage (RqUpdateSettings (o_settings o)) None) s1).1 in
  (showStatus t "Settings saved successfully!" false o, s2).

(** [resetSettings()] *)
Definition resetSettings (t : Z) (o : OptionsState) (s : Tracker) : OptionsState * Tracker :=
  options_saveSettings t (updateUI (with_o_settings o options_defaults)) s.

(** the switches the listeners of [setupEventListeners()] are on, and
    the save and reset buttons *)
Inductive OptionsClick : Type :=
  | ClickSwitch (f : Flag)
  | ClickSave
  | ClickReset.

Definition options_click (t : Z) (c : OptionsClick) (o : OptionsState) (s : Tracker) : OptionsState * Tracker :=
  match c with
  | ClickSwitch f => (toggleSetting f o, s)
  | ClickSave => options_saveSettings t o s
  | ClickReset => resetSettings t o s
  end.

(** clicks at increasing times; the timeouts due run before each click *)
Fixpoint options_run (clicks : list (Z * OptionsClick)) (o : OptionsState) (s : Tracker) :
    OptionsState * Tracker :=
  match clicks with
  | [] => (o, s)
  | (t, c) :: cs => let '(o', s') := options_click t c (fire_due t o) s in options_run cs o' s'
  end.

End Save.

(** every switch shows its setting *)
Definition ui_consistent (o : OptionsState) : Prop :=
  forall f, o_active o f = default false (flag_get f (o_settings o)).

(** ** Lemmas *)

Lemma flag_get_set (f g : Flag) (v : bool) (p : SettingsPatch) :
  flag_get g (flag_set f v p) = if decide (g = f) then Some v else flag_get g p.
Proof. destruct f, g; reflexivity. Qed.

Lemma updateToggle_active (f g : Flag) (o : OptionsState) :
  o_active (updateToggle f o) g =
  if decide (g = f) then default false (flag_get f (o_settings o)) else o_active o g.
Proof. reflexivity. Qed.

Lemma updateUI_consistent (o : OptionsState) : ui_consistent (updateUI o).
Proof.
  intros g. unfold updateUI, all_flags. cbn [foldl].
  rewrite !updateToggle_active. cbn. destruct g; reflexivity.
Qed.

Section SaveLemmas.
Context `{Calendar} (ext : Extensions).

Lemma options_saveSettings_effect (t : Z) (o : OptionsState) (s : Tracker) :
  let r := options_saveSettings ext t o s in
  o_settings r.1 = o_settings o /\ o_active r.1 = o_active o /\
  settings r.2 = merge_settings (settings s) (o_settings o) /\
  store r.2 !! "settings" = Some (VSettings (patch_of_settings (settings r.2))) /\
  currentSession r.2 = currentSession s.
Proof.
  destruct s as [cs st sto eff w]. unfold options_saveSettings, dispatch, handleMessage,
    updateSettings, saveSettings. js_run. repeat split. by rewrite lookup_insert_eq.
Qed.

End SaveLemmas.

Lemma merge_settings_flag (s : Settings) (p : SettingsPatch) (f : Flag) (b : bool) :
  flag_get f p = Some b -> flag_get f (patch_of_settings (merge_settings s p)) = Some b.
Proof. destruct f; cbn; intros ->; reflexivity. Qed.

(** ** Theorems *)

(** the options page's default object and the background constructor's
    settings agree on every switch the page shows *)
Lemma options_defaults_agree (f : Flag) :
  flag_get f options_defaults = flag_get f (patch_of_settings default_settings).
Proof. by destruct f. Qed.

Lemma updateUI_settings (o : OptionsState) : o_settings (updateUI o) = o_settings o.
Proof. done. Qed.

(** the page's [loadSettings] and the background's read the same stored
    object over defaults that agree *)
Lemma options_loadSettings_agree (st : Store) (f : Flag) :
  flag_get f (o_settings (options_init st)) = flag_get f (patch_of_settings (stored_settings st)).
Proof.
  unfold options_init, stored_settings. rewrite updateUI_settings. unfold options_loadSettings.
  destruct (st !! "settings") as [[| | p |]|]; cbn; try apply options_defaults_agree.
  destruct f; cbn; unfold keep, from_option; by case_match.
Qed.

(** C32: an options page opened in any state the background reaches
    shows the background's settings: each switch holds the background's
    value and is drawn accordingly, because every change of the
    background's settings is saved at once to the store the page reads,
    and the page's defaults agree with the background's. *)
Theorem options_open_agree `{Calendar} (ext : Extensions) (w : World) (st : Store) (s : Tracker)
    (f : Flag) :
  rtc (step ext) (boot w st) s ->
  flag_get f (o_settings (options_init (store s))) = flag_get f (patch_of_settings (settings s)) /\
  o_active (options_init (store s)) f = default false (flag_get f (patch_of_settings (settings s))).
Proof.
  intros Hr. pose proof (reachable_stored ext w st s Hr) as Hs. unfold stored_ok in Hs.
  assert (E : flag_get f (o_settings (options_init (store s))) =
              flag_get f (patch_of_settings (settings s))) by (rewrite Hs; apply options_loadSettings_agree).
  split; [done|]. unfold options_init. rewrite (updateUI_consistent _ f). by rewrite <- E.
Qed.

(** C33: the page's switches always show its settings: [init()] makes
    them consistent, and a click on a switch keeps them so. *)
Theorem toggle_keeps_ui (st : Store) :
  ui_consistent (options_init st) /\
  forall f o, ui_consistent o -> ui_consistent (toggleSetting f o).
Proof.
  split; [apply updateUI_consistent|].
  intros f o Ho g. unfold toggleSetting. rewrite updateToggle_active.
  cbn [o_settings o_active updateToggle with_o_settings].
  case_decide as Hg; [by subst|]. rewrite flag_get_set, decide_False by done. apply Ho.
Qed.

Section SaveTheorems.
Context `{Calendar} (ext : Extensions).

(** C34: after [saveSettings()] and the [updateSettings] message it sends,
    the background holds every switch the page holds, the stored settings
    are the background's, and the current session is untouched. *)
Theorem options_save_agrees (t : Z) (o : OptionsState) (s : Tracker) :
  let r := options_saveSettings ext t o s in
  (forall f b, flag_get f (o_settings o) = Some b -> flag_get f (patch_of_settings (settings r.2)) = Some b) /\
  store r.2 !! "settings" = Some (VSettings (patch_of_settings (settings r.2))) /\
  currentSession r.2 = currentSession s.
Proof.
  destruct (options_saveSettings_effect ext t o s) as (_ & _ & Hs & Hst & Hc).
  split; [|by split]. intros f b Hf. rewrite Hs. by apply merge_settings_flag.
Qed.

(** C35: [resetSettings()] puts every switch of the background back to
    its default, leaves the three numeric thresholds, which the page's
    object does not hold, as they were, and the page shows the defaults. *)
Theorem reset_restores_defaults (t : Z) (o : OptionsState) (s : Tracker) :
  let r := resetSettings ext t o s in
  (forall f, flag_get f (patch_of_settings (settings r.2)) = flag_get f (patch_of_settings default_settings)) /\
  idleThreshold (settings r.2) = idleThreshold (settings s) /\
  breakInterval (settings r.2) = breakInterval (settings s) /\
  pomodoroLength (settings r.2) = pomodoroLength (settings s) /\
  ui_consistent r.1 /\ o_settings r.1 = options_defaults.
Proof.
  unfold resetSettings.
  destruct (options_saveSettings_effect ext t (updateUI (with_o_settings o options_defaults)) s)
    as (Ho & Ha & Hs & _ & _).
  assert (Hu : ui_consistent (updateUI (with_o_settings o options_defaults))) by apply updateUI_consistent.
  rewrite Hs. split; [by destruct f|]. do 3 (split; [done|]). split.
  - intros g. rewrite Ha, Ho. apply Hu.
  - rewrite Ho. done.
Qed.

End SaveTheorems.

(** the witness of C33: a click on the focus switch of a freshly opened
    page *)
(** the witness of C32: the page opened after a [toggleFocusMode]
    message shows focus mode on *)
Lemma options_open_agree_witness :
  let s := run demo_ext [(2000000%Z, EvMessage RqToggleFocusMode None)] demo_boot in
  o_active (options_init (store s)) FfocusMode = true /\
  (flag_get FfocusMode (o_settings (options_init (store s))) =
     flag_get FfocusMode (patch_of_settings (settings s)) /\
   o_active (options_init (store s)) FfocusMode =
     default false (flag_get FfocusMode (patch_of_settings (settings s)))).
Proof.
  split; [vm_compute; reflexivity|].
  apply (options_open_agree demo_ext demo_world ∅). apply rtc_once.
  apply (step_event demo_ext demo_boot 2000000 (EvMessage RqToggleFocusMode None));
    [vm_compute; discriminate | exact I].
Defined.

Lemma toggle_keeps_ui_witness : ui_consistent (toggleSetting FfocusMode (options_init ∅)).
Proof. destruct (toggle_keeps_ui ∅) as [Hi Ht]. apply Ht, Hi. Defined.

Section StatusLine.
Context `{Calendar} (ext : Extensions).

(** The status line of a second save made less than 3 seconds after a
    first one is hidden by the first save's timeout, 3 seconds after the
    first save: it shows for less than its 3 seconds. *)
Lemma status_hidden_early (t0 t1 : Z) (o : OptionsState) (s : Tracker) :
  o_hide o = [] -> (t0 <= t1 < t0 + 3000)%Z ->
  let r := options_run ext [(t0, ClickSave); (t1, ClickSave)] o s in
  o_status r.1 = Some ("Settings saved successfully!", false) /\
  o_status (fire_due (t0 + 3000) r.1) = None.
Proof.
  intros Hh Ht. cbn. rewrite Hh. cbn. split; [done|].
  destruct (Z.ltb_spec t1 (t0 + 3000)); [|lia]. cbn. by rewrite Z.leb_refl.
Qed.

End StatusLine.
