(* ===== verification/Popup.v ===== *)
(** * The popup of [src/popup.js]

    [EnterprisePopupManager]: its copy of the user id, the current session
    and the settings, and what it shows.  The popup asks the background
    with [chrome.runtime.sendMessage], which is modelled by running the
    background's listener ([dispatch] of [Tracker]) and reading the
    response it sends, and it asks the backend with [fetch], which is
    modelled by the [server] of [Backend].  The string literals are the
    bytes of [popup.js], whose emoji are stored mis-encoded (UTF-8 read as
    Mac Roman); the labels keep them as the page shows them.  The file
    ends with the theorems on the popup: offline at open, agreement of its
    settings with the background's, the failing Pomodoro, the countdown's
    termination, the refresh's liveness and [formatDuration].  The seven
    buttons are [popup_click], whose quick actions return the pages they
    open. *)

From stdpp Require Import base decidable list strings gmap.
From Stdlib Require Import QArith Qround ZArith Lia.
From S2P Require Import Prelude Classifier Scoring Storage Tracker Backend.

Local Open Scope js_scope.

(** ** Messages to the background *)

Definition responses (es : list Effect) : list Response :=
  omap (fun e => match e with Respond r => Some r | _ => None end) es.

Section Messages.
Context `{Calendar} (ext : Extensions).

(** [await chrome.runtime.sendMessage(req)] from an extension page at time
    [t]: the listener runs; the first [sendResponse] it makes resolves the
    promise, and a listener that throws before responding leaves the port
    to close, which rejects it ([None]) *)
Definition send_message (t : Z) (req : Request) (s : Tracker) : Tracker * option Response :=
  let s' := (dispatch ext t (EvMessage req None) s).1 in
  (s', head (responses (drop (length (effects s)) (effects s')))).

End Messages.

(** ** What the popup shows *)

Record SessionView : Type := {
  sv_domain : string;
  sv_duration : string;
  sv_focus : string;
  sv_activity : string;
  sv_active : bool;
  (** the width of the progress bar, in percent *)
  sv_progress : num;
  sv_color : string
}.

(** [sc_value] is the number shown, [None] for ['--'] *)
Record ScoreView : Type := {
  sc_value : option num;
  sc_grade : string;
  sc_title : string;
  sc_breakdown : string;
  sc_color : string;
  sc_deg : num
}.

(** the insights list: the offline notice, or items of an icon and a message *)
Inductive InsightsView : Type :=
  | IOffline
  | IItems (items : list (string * string)).

Record Button : Type := { b_active : bool; b_label : string }.

Record PopupView : Type := {
  v_session : SessionView;
  v_metrics : list string;
  v_score : ScoreView;
  v_insights : InsightsView;
  v_focusBtn : Button;
  v_breakBtn : Button;
  v_pomodoroBtn : Button;
  v_deepWorkBtn : Button;
  v_notifications : list (string * string);
  v_errors : list string
}.

Record Popup : Type := {
  pp_userId : string;
  pp_currentSession : option Session;
  (** [this.settings]: the object [getSettings] answered, then updated by
      the buttons *)
  pp_settings : SettingsPatch;
  pp_view : PopupView;
  (** the seconds left of each running Pomodoro countdown: every click
      that starts one sets up its own [setInterval] *)
  pp_countdowns : list Z
}.

(** ** Updating the popup *)

Definition with_view (p : Popup) (v : PopupView) : Popup :=
  {| pp_userId := pp_userId p; pp_currentSession := pp_currentSession p;
     pp_settings := pp_settings p; pp_view := v; pp_countdowns := pp_countdowns p |}.

Definition set_session_view (v : PopupView) (sv : SessionView) : PopupView :=
  {| v_session := sv; v_metrics := v_metrics v; v_score := v_score v; v_insights := v_insights v;
     v_focusBtn := v_focusBtn v; v_breakBtn := v_breakBtn v; v_pomodoroBtn := v_pomodoroBtn v;
     v_deepWorkBtn := v_deepWorkBtn v; v_notifications := v_notifications v;
     v_errors := v_errors v |}.

Definition set_metrics (v : PopupView) (m : list string) : PopupView :=
  {| v_session := v_session v; v_metrics := m; v_score := v_score v; v_insights := v_insights v;
     v_focusBtn := v_focusBtn v; v_breakBtn := v_breakBtn v; v_pomodoroBtn := v_pomodoroBtn v;
     v_deepWorkBtn := v_deepWorkBtn v; v_notifications := v_notifications v;
     v_errors := v_errors v |}.

Definition set_score (v : PopupView) (sc : ScoreView) : PopupView :=
  {| v_session := v_session v; v_metrics := v_metrics v; v_score := sc; v_insights := v_insights v;
     v_focusBtn := v_focusBtn v; v_breakBtn := v_breakBtn v; v_pomodoroBtn := v_pomodoroBtn v;
     v_deepWorkBtn := v_deepWorkBtn v; v_notifications := v_notifications v;
     v_errors := v_errors v |}.

Definition set_insights (v : PopupView) (i : InsightsView) : PopupView :=
  {| v_session := v_session v; v_metrics := v_metrics v; v_score := v_score v; v_insights := i;
     v_focusBtn := v_focusBtn v; v_breakBtn := v_breakBtn v; v_pomodoroBtn := v_pomodoroBtn v;
     v_deepWorkBtn := v_deepWorkBtn v; v_notifications := v_notifications v;
     v_errors := v_errors v |}.

(** the four control buttons *)
Inductive Control : Type := CFocus | CBreak | CPomodoro | CDeepWork.

Definition set_button (v : PopupView) (c : Control) (b : Button) : PopupView :=
  {| v_session := v_session v; v_metrics := v_metrics v; v_score := v_score v;
     v_insights := v_insights v;
     v_focusBtn := match c with CFocus => b | _ => v_focusBtn v end;
     v_breakBtn := match c with CBreak => b | _ => v_breakBtn v end;
     v_pomodoroBtn := match c with CPomodoro => b | _ => v_pomodoroBtn v end;
     v_deepWorkBtn := match c with CDeepWork => b | _ => v_deepWorkBtn v end;
     v_notifications := v_notifications v; v_errors := v_errors v |}.

(** [showNotification(title, message)] *)
Definition notify (v : PopupView) (title message : string) : PopupView :=
  {| v_session := v_session v; v_metrics := v_metrics v; v_score := v_score v;
     v_insights := v_insights v; v_focusBtn := v_focusBtn v; v_breakBtn := v_breakBtn v;
     v_pomodoroBtn := v_pomodoroBtn v; v_deepWorkBtn := v_deepWorkBtn v;
     v_notifications := v_notifications v ++ [(title, message)]; v_errors := v_errors v |}.

(** [showError(message)] *)
Definition show_error (v : PopupView) (message : string) : PopupView :=
  {| v_session := v_session v; v_metrics := v_metrics v; v_score := v_score v;
     v_insights := v_insights v; v_focusBtn := v_focusBtn v; v_breakBtn := v_breakBtn v;
     v_pomodoroBtn := v_pomodoroBtn v; v_deepWorkBtn := v_deepWorkBtn v;
     v_notifications := v_notifications v; v_errors := v_errors v ++ [message] |}.

(** ** The utility methods *)

(** [formatDuration(ms)]: two [Math.floor]s *)
Definition formatDuration (ms : Z) : string :=
  let minutes := (ms / 60000)%Z in
  let hours := (minutes / 60)%Z in
  if (0 <? hours)%Z then Z_to_dec hours +:+ "h " +:+ Z_to_dec (Z.rem minutes 60) +:+ "m"
  else Z_to_dec minutes +:+ "m".

Definition getScoreColor (score : num) : string :=
  if num_geb score (num_of_Z 90) then "#00C851"
  else if num_geb score (num_of_Z 80) then "#4CAF50"
  else if num_geb score (num_of_Z 70) then "#FF9800"
  else if num_geb score (num_of_Z 60) then "#FF5722"
  else "#F44336".

Definition getInsightIcon (type : string) : string :=
  if String.eqb type "warning" then "‚ö†Ô∏è"
  else if String.eqb type "success" then "‚úÖ"
  else if String.eqb type "info" then "‚ÑπÔ∏è"
  else if String.eqb type "recommendation" then "üí°"
  else if String.eqb type "alert" then "üö®"
  else if String.eqb type "tip" then "üí≠"
  else "üí°".

Definition category_color (c : Category) : string :=
  match c with
  | highly_productive => "#00C851" | productive => "#4CAF50" | neutral => "#FF9800"
  | unproductive => "#F44336" | break => "#2196F3"
  end.

(** [x || 100] on a score *)
Definition or100 (z : Z) : Z := if (z =? 0)%Z then 100%Z else z.

(** [String(n).padStart(2, '0')] *)
Definition pad2 (s : string) : string := if (String.length s <? 2)%nat then "0" +:+ s else s.

(** ** The displays *)

(** [updateSessionDisplay()] at time [now]; with no session the bar keeps
    its colour *)
Definition session_view (now : Z) (o : option Session) (prev : SessionView) : SessionView :=
  match o with
  | Some cs =>
      let duration := (now - startTime cs)%Z in
      let minutes := (duration / 60000)%Z in
      {| sv_domain := if String.eqb (domain cs) "" then "Unknown" else domain cs;
         sv_duration := formatDuration duration;
         sv_focus := Z_to_dec (or100 (focusScore cs)) +:+ "%";
         sv_activity := Z_to_dec (or100 (activityScore cs)) +:+ "%";
         sv_active := true;
         sv_progress := js_min (num_of_Z 100) (num_of_Z minutes / num_of_Z 25 * num_of_Z 100);
         sv_color := category_color (category cs) |}
  | None =>
      {| sv_domain := "No active session"; sv_duration := "0m"; sv_focus := "100%";
         sv_activity := "--"; sv_active := false; sv_progress := num_of_Z 0;
         sv_color := sv_color prev |}
  end.

Definition updateSessionDisplay (now : Z) (p : Popup) : Popup :=
  with_view p (set_session_view (pp_view p)
                 (session_view now (pp_currentSession p) (v_session (pp_view p)))).

(** [updateMetricsDisplay(dailyStats)]: the answer to [getDailyStats]
    carries no field the popup reads, so every value is its [|| 0] *)
Definition updateMetricsDisplay (dailyStats : option Response) (p : Popup) : Popup :=
  with_view p (set_metrics (pp_view p)
    match dailyStats with
    | None => ["0h 0m"; "0"; "0"; "0%"]
    | Some _ => [formatDuration 0; "0"; "0"; Z_to_dec 0 +:+ "%"]
    end).

(** [updateControlStates()]: a setting that is on marks its button; one
    that is off leaves the button as it is *)
Definition updateControlStates (p : Popup) : Popup :=
  let st := pp_settings p in
  let mark (b : option bool) (c : Control) (label : string) (v : PopupView) :=
    if default false b then set_button v c {| b_active := true; b_label := label |} else v in
  with_view p (mark (p_deepWorkMode st) CDeepWork "üß† Deep: ON"
                (mark (p_pomodoroTimer st) CPomodoro "üçÖ Active"
                  (mark (p_breakReminders st) CBreak "‚è∞ Breaks: ON"
                    (mark (p_focusMode st) CFocus "üéØ Focus: ON" (pp_view p))))).

(** [updateScoreDisplay(scoreData)] for the answer of [GET /score]: it has
    no [breakdown] *)
Definition score_view (score : num) (g : Grade) (prev : ScoreView) : ScoreView :=
  let score := if num_ltb (num_of_Z 0) score || num_ltb score (num_of_Z 0) then score
               else num_of_Z 0 in
  {| sc_value := Some score; sc_grade := grade g; sc_title := description g;
     sc_breakdown := "Start browsing to see detailed metrics";
     sc_color := getScoreColor score;
     sc_deg := score / num_of_Z 100 * num_of_Z 360 |}.

(** [updateInsights(scoreData)]: no [recommendations] either *)
Definition insights_view (insights : list Insight) : InsightsView :=
  match insights with
  | [] => IItems [("üöÄ", "Start browsing to generate AI-powered insights!")]
  | _ => IItems (map (fun i => (getInsightIcon (i_type i), i_message i)) (take 3 insights))
  end.

(** [showOfflineScore()] *)
Definition offline_score (prev : ScoreView) : ScoreView :=
  {| sc_value := None; sc_grade := "N/A"; sc_title := sc_title prev;
     sc_breakdown := "Backend offline - showing cached data"; sc_color := sc_color prev;
     sc_deg := sc_deg prev |}.

(** ** The popup's operations

    Each runs at a time [t], against the background [Tracker] and the
    backend's collection [db]; the popup's requests to the backend go
    over the same network as the extension's. *)

Section Operations.
Context `{Calendar} (ext : Extensions).

(** [loadProductivityScore()]: a [fetch] that fails or answers with a
    status other than 2xx shows the offline score *)
Definition loadProductivityScore (t : Z) (db : list Activity) (s : Tracker) (p : Popup) : Popup :=
  let v := pp_view p in
  let offline := with_view p (set_score v (offline_score (v_score v))) in
  if network_up (world s) then
    match server t (get_req ["api"; "analytics"; "score"; pp_userId p]) db with
    | (_, (200, RScore score g insights))%Z =>
        with_view p (set_insights (set_score v (score_view score g (v_score v))) (insights_view insights))
    | _ => offline
    end
  else offline.

Definition with_session_copy (p : Popup) (o : option Session) : Popup :=
  {| pp_userId := pp_userId p; pp_currentSession := o; pp_settings := pp_settings p;
     pp_view := pp_view p; pp_countdowns := pp_countdowns p |}.

(** [loadInitialData()]: a rejected message shows the offline mode and
    skips the rest *)
Definition loadInitialData (t : Z) (db : list Activity) (p : Popup) (s : Tracker) : Popup * Tracker :=
  let '(s1, r1) := send_message ext t RqGetCurrentSession s in
  match r1 with
  | None => (with_view p (set_insights (pp_view p) IOffline), s1)
  | Some r =>
      let p1 := with_session_copy p (match r with RSession o => o | _ => None end) in
      let '(s2, r2) := send_message ext t RqGetDailyStats s1 in
      match r2 with
      | None => (with_view p1 (set_insights (pp_view p1) IOffline), s2)
      | Some d =>
          let p2 := loadProductivityScore t db s2 p1 in
          (updateControlStates (updateMetricsDisplay (Some d) (updateSessionDisplay t p2)), s2)
      end
  end.

(** the page as [popup.html] loads it; [this.userId] is [null], which the
    template literals that use it print as ["null"] *)
Definition initial_popup (v : PopupView) : Popup :=
  {| pp_userId := "null"; pp_currentSession := None;
     pp_settings := {| p_focusMode := None; p_breakReminders := None; p_deepWorkMode := None;
                       p_pomodoroTimer := None; p_blockDistractions := None;
                       p_trackMouseMovement := None; p_trackKeystrokes := None;
                       p_idleThreshold := None; p_breakInterval := None; p_pomodoroLength := None |};
     pp_view := v; pp_countdowns := [] |}.

(** a page with empty fields and every button off, for the examples *)
Definition demo_view : PopupView :=
  let b := {| b_active := false; b_label := "" |} in
  {| v_session := {| sv_domain := ""; sv_duration := ""; sv_focus := ""; sv_activity := "";
                     sv_active := false; sv_progress := num_of_Z 0; sv_color := "" |};
     v_metrics := []; v_insights := IItems [];
     v_score := {| sc_value := None; sc_grade := ""; sc_title := ""; sc_breakdown := "";
                   sc_color := ""; sc_deg := num_of_Z 0 |};
     v_focusBtn := b; v_breakBtn := b; v_pomodoroBtn := b; v_deepWorkBtn := b;
     v_notifications := []; v_errors := [] |}.

(** the constructor and [init()]: [loadUserData()], then
    [loadInitialData()]; the interval of [startRealTimeUpdates()] is the
    separate operation [realTimeTick] *)
Definition popup_init (t : Z) (db : list Activity) (v : PopupView) (s : Tracker) : Popup * Tracker :=
  let userId := match store s !! "userId" with
                | Some (VUserId u) => if String.eqb u "" then "default_user" else u
                | _ => "default_user"
                end in
  let '(s1, r) := send_message ext t RqGetSettings s in
  match r with
  | None => (with_view (initial_popup v) (show_error v "Failed to initialize. Please refresh."), s1)
  | Some r =>
      let settings := match r with RSettings st => patch_of_settings st | _ => pp_settings (initial_popup v) end in
      let p := {| pp_userId := userId; pp_currentSession := None; pp_settings := settings;
                  pp_view := v; pp_countdowns := [] |} in
      loadInitialData t db p s1
  end.

(** one run of the [setInterval] of [startRealTimeUpdates()] *)
Definition realTimeTick (t : Z) (db : list Activity) (p : Popup) (s : Tracker) : Popup * Tracker :=
  let '(s1, r) := send_message ext t RqGetCurrentSession s in
  match r with
  | None => (p, s1)
  | Some r =>
      let p1 := updateSessionDisplay t (with_session_copy p (match r with RSession o => o | _ => None end)) in
      (if (Z.rem t 30000 <? 1000)%Z then loadProductivityScore t db s1 p1 else p1, s1)
  end.

(** the runs of that interval at the times [ts] *)
Fixpoint realTimeTicks (ts : list Z) (db : list Activity) (p : Popup) (s : Tracker) : Popup * Tracker :=
  match ts with
  | [] => (p, s)
  | t :: ts' => let '(p1, s1) := realTimeTick t db p s in realTimeTicks ts' db p1 s1
  end.

End Operations.

(** ** The buttons *)

Definition with_pp_settings (p : Popup) (st : SettingsPatch) : Popup :=
  {| pp_userId := pp_userId p; pp_currentSession := pp_currentSession p; pp_settings := st;
     pp_view := pp_view p; pp_countdowns := pp_countdowns p |}.

Definition with_countdowns (p : Popup) (cs : list Z) : Popup :=
  {| pp_userId := pp_userId p; pp_currentSession := pp_currentSession p;
     pp_settings := pp_settings p; pp_view := pp_view p; pp_countdowns := cs |}.

(** the patch [{ key: v }] *)
Definition single_patch (breakR deepW : option bool) : SettingsPatch :=
  {| p_focusMode := None; p_breakReminders := breakR; p_deepWorkMode := deepW;
     p_pomodoroTimer := None; p_blockDistractions := None; p_trackMouseMovement := None;
     p_trackKeystrokes := None; p_idleThreshold := None; p_breakInterval := None;
     p_pomodoroLength := None |}.

Definition set_p_focusMode (st : SettingsPatch) (b : bool) : SettingsPatch :=
  {| p_focusMode := Some b; p_breakReminders := p_breakReminders st;
     p_deepWorkMode := p_deepWorkMode st; p_pomodoroTimer := p_pomodoroTimer st;
     p_blockDistractions := p_blockDistractions st;
     p_trackMouseMovement := p_trackMouseMovement st; p_trackKeystrokes := p_trackKeystrokes st;
     p_idleThreshold := p_idleThreshold st; p_breakInterval := p_breakInterval st;
     p_pomodoroLength := p_pomodoroLength st |}.

Definition set_p_breakReminders (st : SettingsPatch) (b : bool) : SettingsPatch :=
  {| p_focusMode := p_focusMode st; p_breakReminders := Some b;
     p_deepWorkMode := p_deepWorkMode st; p_pomodoroTimer := p_pomodoroTimer st;
     p_blockDistractions := p_blockDistractions st;
     p_trackMouseMovement := p_trackMouseMovement st; p_trackKeystrokes := p_trackKeystrokes st;
     p_idleThreshold := p_idleThreshold st; p_breakInterval := p_breakInterval st;
     p_pomodoroLength := p_pomodoroLength st |}.

Definition set_p_deepWorkMode (st : SettingsPatch) (b : bool) : SettingsPatch :=
  {| p_focusMode := p_focusMode st; p_breakReminders := p_breakReminders st;
     p_deepWorkMode := Some b; p_pomodoroTimer := p_pomodoroTimer st;
     p_blockDistractions := p_blockDistractions st;
     p_trackMouseMovement := p_trackMouseMovement st; p_trackKeystrokes := p_trackKeystrokes st;
     p_idleThreshold := p_idleThreshold st; p_breakInterval := p_breakInterval st;
     p_pomodoroLength := p_pomodoroLength st |}.

(** a response is truthy unless it is [false] *)
Definition truthy_response (r : Response) : bool := match r with RBool b => b | _ => true end.

Section Buttons.
Context `{Calendar} (ext : Extensions).

Definition toggleFocusMode (t : Z) (p : Popup) (s : Tracker) : Popup * Tracker :=
  let '(s1, r) := send_message ext t RqToggleFocusMode s in
  match r with
  | None => (with_view p (show_error (pp_view p) "Failed to toggle focus mode"), s1)
  | Some r =>
      let isActive := truthy_response r in
      let v := pp_view p in
      let v := if isActive
               then notify (set_button v CFocus {| b_active := true; b_label := "üéØ Focus: ON" |})
                      "Focus mode activated" "Distracting sites will be blocked"
               else notify (set_button v CFocus {| b_active := false; b_label := "üéØ Focus Mode" |})
                      "Focus mode deactivated" "All sites are now accessible" in
      (with_pp_settings (with_view p v) (set_p_focusMode (pp_settings p) isActive), s1)
  end.

Definition toggleBreakReminders (t : Z) (p : Popup) (s : Tracker) : Popup * Tracker :=
  let isActive := negb (default false (p_breakReminders (pp_settings p))) in
  let '(s1, r) := send_message ext t (RqUpdateSettings (single_patch (Some isActive) None)) s in
  match r with
  | None => (with_view p (show_error (pp_view p) "Failed to toggle break reminders"), s1)
  | Some _ =>
      let v := set_button (pp_view p) CBreak
                 (if isActive then {| b_active := true; b_label := "‚è∞ Breaks: ON" |}
                  else {| b_active := false; b_label := "‚è∞ Breaks" |}) in
      (with_pp_settings (with_view p v) (set_p_breakReminders (pp_settings p) isActive), s1)
  end.

Definition toggleDeepWork (t : Z) (p : Popup) (s : Tracker) : Popup * Tracker :=
  let isActive := negb (default false (p_deepWorkMode (pp_settings p))) in
  let '(s1, r) := send_message ext t (RqUpdateSettings (single_patch None (Some isActive))) s in
  match r with
  | None => (with_view p (show_error (pp_view p) "Failed to toggle deep work mode"), s1)
  | Some _ =>
      let v := pp_view p in
      let v := if isActive
               then notify (set_button v CDeepWork {| b_active := true; b_label := "üß† Deep: ON" |})
                      "Deep work mode activated" "Notifications minimized for maximum focus"
               else set_button v CDeepWork {| b_active := false; b_label := "üß† Deep Work" |} in
      (with_pp_settings (with_view p v) (set_p_deepWorkMode (pp_settings p) isActive), s1)
  end.

(** [startPomodoro()]: the countdown starts from 25 minutes *)
Definition startPomodoro (t : Z) (p : Popup) (s : Tracker) : Popup * Tracker :=
  let '(s1, r) := send_message ext t RqStartPomodoro s in
  match r with
  | None => (with_view p (show_error (pp_view p) "Failed to start Pomodoro timer"), s1)
  | Some _ =>
      let v := notify (set_button (pp_view p) CPomodoro {| b_active := true; b_label := "üçÖ 25:00" |})
                 "Pomodoro started" "25 minutes of focused work time" in
      (with_countdowns (with_view p v) (pp_countdowns p ++ [25 * 60]%Z), s1)
  end.

End Buttons.

(** one second of the [i]-th countdown of [startPomodoroCountdown]: show
    [m:ss], count down, and stop after showing [0:00] *)
Definition countdownTick (i : nat) (p : Popup) : Popup :=
  match pp_countdowns p !! i with
  | None => p
  | Some seconds =>
      let label := "üçÖ " +:+ Z_to_dec (seconds / 60) +:+ ":" +:+ pad2 (Z_to_dec (Z.rem seconds 60)) in
      let v := set_button (pp_view p) CPomodoro {| b_active := b_active (v_pomodoroBtn (pp_view p));
                                                   b_label := label |} in
      let seconds := (seconds - 1)%Z in
      if (seconds <? 0)%Z then
        with_countdowns
          (with_view p (notify (set_button v CPomodoro {| b_active := false; b_label := "üçÖ Pomodoro" |})
                          "Pomodoro complete!" "Time for a 5-minute break"))
          (delete i (pp_countdowns p))
      else with_countdowns (with_view p v) (<[i := seconds]> (pp_countdowns p))
  end.

(** ** The other buttons and [formatScoreKey] *)

(** what a click opens: [chrome.tabs.create({ url })] or
    [chrome.runtime.openOptionsPage()] *)
Inductive PageAction : Type :=
  | OpenTab (url : string)
  | OpenOptionsPage.

Inductive PopupButton : Type :=
  | BtnFocusMode | BtnBreak | BtnPomodoro | BtnDeepWork | BtnDashboard | BtnSettings | BtnReports.

(** [openReports()] *)
Definition openReports (p : Popup) : PageAction :=
  OpenTab ("http://localhost:3001/reports?userId=" +:+ pp_userId p).

(** the click listeners of [setupEventListeners()] *)
Definition popup_click `{Calendar} (ext : Extensions) (t : Z) (b : PopupButton) (p : Popup) (s : Tracker) :
    Popup * Tracker * list PageAction :=
  let no_page (r : Popup * Tracker) := (r.1, r.2, []) in
  match b with
  | BtnFocusMode => no_page (toggleFocusMode ext t p s)
  | BtnBreak => no_page (toggleBreakReminders ext t p s)
  | BtnPomodoro => no_page (startPomodoro ext t p s)
  | BtnDeepWork => no_page (toggleDeepWork ext t p s)
  | BtnDashboard => (p, s, [OpenTab "http://localhost:3001"])
  | BtnSettings => (p, s, [OpenOptionsPage])
  | BtnReports => (p, s, [openReports p])
  end.

Definition ascii_upper (c : Ascii.ascii) : Ascii.ascii :=
  let n := Ascii.nat_of_ascii c in
  if (97 <=? n)%nat && (n <=? 122)%nat then Ascii.ascii_of_nat (n - 32) else c.

(** [.replace(/([A-Z])/g, ' $1')] *)
Fixpoint space_before_upper (s : string) : string :=
  match s with
  | EmptyString => EmptyString
  | String c s' =>
      let n := Ascii.nat_of_ascii c in
      if (65 <=? n)%nat && (n <=? 90)%nat then String (Ascii.ascii_of_nat 32) (String c (space_before_upper s'))
      else String c (space_before_upper s')
  end.

(** [.replace(/^./, str => str.toUpperCase())] *)
Definition upper_first (s : string) : string :=
  match s with
  | EmptyString => EmptyString
  | String c s' => String (ascii_upper c) s'
  end.

(** [formatScoreKey(key)], for the [breakdown] keys of a score answer *)
Definition formatScoreKey (key : string) : string :=
  replace_first "Score" "" (upper_first (space_before_upper key)).

(** the three toggles agree with the background's settings *)
Definition toggles_agree (p : Popup) (s : Tracker) : Prop :=
  p_focusMode (pp_settings p) = Some (focusMode (settings s)) /\
  p_breakReminders (pp_settings p) = Some (breakReminders (settings s)) /\
  p_deepWorkMode (pp_settings p) = Some (deepWorkMode (settings s)).

(** the daily metrics and the four control buttons of [v'] are those of
    [v] *)
Definition panels_kept (v v' : PopupView) : Prop :=
  v_metrics v' = v_metrics v /\ v_focusBtn v' = v_focusBtn v /\ v_breakBtn v' = v_breakBtn v /\
  v_pomodoroBtn v' = v_pomodoroBtn v /\ v_deepWorkBtn v' = v_deepWorkBtn v.

(** ** What the background answers *)

Section SendLemmas.
Context `{Calendar} (ext : Extensions).

Lemma responses_app (es new : list Effect) :
  responses (drop (length es) (es ++ new)) = responses new.
Proof. by rewrite drop_app_length. Qed.

Ltac send_run :=
  intros; destruct_and?; unfold send_message, dispatch, handleMessage; js_run;
  rewrite ?responses_app; cbn.

Lemma send_getSettings (t : Z) (s : Tracker) :
  exists s', send_message ext t RqGetSettings s = (s', Some (RSettings (settings s))) /\
    settings s' = settings s /\ store s' = store s /\ currentSession s' = currentSession s.
Proof. send_run. by eexists. Qed.

Lemma send_getCurrentSession (t : Z) (s : Tracker) :
  exists s', send_message ext t RqGetCurrentSession s = (s', Some (RSession (currentSession s))) /\
    settings s' = settings s /\ store s' = store s /\ network_up (world s') = network_up (world s).
Proof. send_run. by eexists. Qed.

Lemma send_getDailyStats_missing (t : Z) (s : Tracker) :
  getDailyStats ext = false ->
  exists s', send_message ext t RqGetDailyStats s = (s', None) /\
    settings s' = settings s /\ store s' = store s.
Proof. send_run. rewrite H0. js_run. rewrite drop_all. by eexists. Qed.

Lemma send_getDailyStats_settings (t : Z) (s : Tracker) :
  settings (send_message ext t RqGetDailyStats s).1 = settings s.
Proof. send_run. by destruct (getDailyStats ext). Qed.

Lemma send_startPomodoro_missing (t : Z) (s : Tracker) :
  startPomodoroTimer ext = false ->
  exists s', send_message ext t RqStartPomodoro s = (s', None) /\ settings s' = settings s.
Proof. send_run. rewrite H0. js_run. rewrite drop_all. by eexists. Qed.

Lemma send_toggleFocusMode (t : Z) (s : Tracker) :
  exists s', send_message ext t RqToggleFocusMode s =
               (s', Some (RBool (negb (focusMode (settings s))))) /\
    focusMode (settings s') = negb (focusMode (settings s)) /\
    breakReminders (settings s') = breakReminders (settings s) /\
    deepWorkMode (settings s') = deepWorkMode (settings s).
Proof. send_run. unfold saveSettings. js_run. rewrite responses_app. by eexists. Qed.

Lemma send_updateSettings (t : Z) (p : SettingsPatch) (s : Tracker) :
  exists s', send_message ext t (RqUpdateSettings p) s = (s', Some RSuccess) /\
    settings s' = merge_settings (settings s) p.
Proof. send_run. unfold updateSettings, saveSettings. js_run. rewrite responses_app. by eexists. Qed.

End SendLemmas.

Lemma loadProductivityScore_settings `{Calendar} (t : Z) (db : list Activity) (s : Tracker) (p : Popup) :
  pp_settings (loadProductivityScore t db s p) = pp_settings p /\
  pp_countdowns (loadProductivityScore t db s p) = pp_countdowns p.
Proof. unfold loadProductivityScore. by repeat case_match. Qed.

Lemma loadInitialData_settings `{Calendar} (ext : Extensions) (t : Z) (db : list Activity)
    (p : Popup) (s : Tracker) :
  pp_settings (loadInitialData ext t db p s).1 = pp_settings p /\
  settings (loadInitialData ext t db p s).2 = settings s.
Proof.
  unfold loadInitialData. destruct (send_getCurrentSession ext t s) as (s1 & -> & Hs1 & _).
  pose proof (send_getDailyStats_settings ext t s1) as Hs2.
  destruct (send_message ext t RqGetDailyStats s1) as [s2 [d|]]; cbn in *; [|by rewrite Hs2].
  split; [|congruence]. by rewrite (proj1 (loadProductivityScore_settings _ _ _ _)).
Qed.

(** ** Theorems *)

Lemma realTimeTick_panels `{Calendar} (ext : Extensions) (t : Z) (db : list Activity)
    (p : Popup) (s : Tracker) (v : PopupView) :
  panels_kept v (pp_view p) -> panels_kept v (pp_view (realTimeTick ext t db p s).1).
Proof.
  unfold realTimeTick. destruct (send_message ext t RqGetCurrentSession s) as [s1 [r|]]; [|done].
  cbn. unfold loadProductivityScore. repeat case_match; done.
Qed.

Lemma realTimeTicks_panels `{Calendar} (ext : Extensions) (ts : list Z) (db : list Activity)
    (p : Popup) (s : Tracker) (v : PopupView) :
  panels_kept v (pp_view p) -> panels_kept v (pp_view (realTimeTicks ext ts db p s).1).
Proof.
  revert p s. induction ts as [|t ts IH]; intros p s Hp; [done|]. cbn [realTimeTicks].
  pose proof (realTimeTick_panels ext t db p s v Hp) as H1.
  destruct (realTimeTick ext t db p s) as [p1 s1]. by apply IH.
Qed.

Section PopupTheorems.
Context `{Calendar} (ext : Extensions).

(** C36: without a [getDailyStats] method, as in the repository, opening
    the popup always ends [init()] in the offline mode: the
    [getDailyStats] message is never answered, so [loadInitialData]
    shows the offline notice and skips the displays of the session, the
    score, the daily metrics and the control states.  The real-time
    updates [init()] then starts show the session and reload the score,
    but never the rest: whatever the background and the backend hold and
    however many ticks run, the daily metrics and the four control
    buttons keep the page's initial contents. *)
Theorem popup_init_offline (t : Z) (ts : list Z) (db : list Activity) (v : PopupView) (s : Tracker) :
  getDailyStats ext = false ->
  let r := popup_init ext t db v s in
  let r' := realTimeTicks ext ts db r.1 r.2 in
  v_insights (pp_view r.1) = IOffline /\ v_session (pp_view r.1) = v_session v /\
  v_score (pp_view r.1) = v_score v /\ pp_currentSession r.1 = currentSession s /\
  panels_kept v (pp_view r'.1).
Proof.
  intros Hd. unfold popup_init. destruct (send_getSettings ext t s) as (s1 & -> & _ & _ & Hc1).
  unfold loadInitialData. destruct (send_getCurrentSession ext t s1) as (s2 & -> & _).
  destruct (send_getDailyStats_missing ext t s2 Hd) as (s3 & -> & _). cbn.
  rewrite Hc1. do 4 (split; [done|]). apply realTimeTicks_panels. done.
Qed.

(** C37: the popup's copy of the three settings its buttons toggle always
    agrees with the background: [init()] copies them, and each button
    changes both sides the same way. *)
Theorem popup_settings_agree (t : Z) (db : list Activity) (v : PopupView) (s : Tracker) :
  toggles_agree (popup_init ext t db v s).1 (popup_init ext t db v s).2 /\
  forall t' p s', toggles_agree p s' ->
    toggles_agree (toggleFocusMode ext t' p s').1 (toggleFocusMode ext t' p s').2 /\
    toggles_agree (toggleBreakReminders ext t' p s').1 (toggleBreakReminders ext t' p s').2 /\
    toggles_agree (toggleDeepWork ext t' p s').1 (toggleDeepWork ext t' p s').2.
Proof.
  split.
  - unfold popup_init. destruct (send_getSettings ext t s) as (s1 & -> & Hs1 & _).
    match goal with |- context [loadInitialData ext t db ?p s1] =>
      destruct (loadInitialData_settings ext t db p s1) as [Hp Hs] end.
    unfold toggles_agree. rewrite Hp, Hs, Hs1. by cbn.
  - intros t' p s' (Hf & Hb & Hw). split; [|split].
    + unfold toggleFocusMode. destruct (send_toggleFocusMode ext t' s') as (s1 & -> & H1 & H2 & H3).
      unfold toggles_agree. cbn. by rewrite H1, H2, H3.
    + unfold toggleBreakReminders. rewrite Hb. cbn [from_option].
      match goal with |- context [send_message ext t' (RqUpdateSettings ?q) s'] =>
        destruct (send_updateSettings ext t' q s') as (s1 & -> & H1) end.
      unfold toggles_agree. cbn. by rewrite H1.
    + unfold toggleDeepWork. rewrite Hw. cbn [from_option].
      match goal with |- context [send_message ext t' (RqUpdateSettings ?q) s'] =>
        destruct (send_updateSettings ext t' q s') as (s1 & -> & H1) end.
      unfold toggles_agree. cbn. by rewrite H1.
Qed.

(** C38: without a [startPomodoroTimer] method, as in the repository, the
    Pomodoro button always shows "Failed to start Pomodoro timer" and no
    countdown starts. *)
Theorem pomodoro_always_fails (t : Z) (p : Popup) (s : Tracker) :
  startPomodoroTimer ext = false ->
  let r := startPomodoro ext t p s in
  v_errors (pp_view r.1) = v_errors (pp_view p) ++ ["Failed to start Pomodoro timer"] /\
  pp_countdowns r.1 = pp_countdowns p.
Proof.
  intros Hp. unfold startPomodoro. by destruct (send_startPomodoro_missing ext t s Hp) as (s1 & -> & _).
Qed.

End PopupTheorems.

Lemma list_delete_insert {A} (l : list A) (i : nat) (x : A) : delete i (<[i := x]> l) = delete i l.
Proof. revert i. induction l as [|y l IH]; intros [|i]; cbn; f_equal; auto. Qed.

Lemma countdownTick_run (i : nat) (n : Z) (p : Popup) :
  pp_countdowns p !! i = Some n -> (0 <= n - 1)%Z ->
  pp_countdowns (countdownTick i p) = <[i := (n - 1)%Z]> (pp_countdowns p).
Proof.
  intros Hi Hn. unfold countdownTick. rewrite Hi.
  destruct (Z.ltb_spec (n - 1) 0); [lia|done].
Qed.

Lemma countdownTick_stop (i : nat) (p : Popup) :
  pp_countdowns p !! i = Some 0%Z ->
  pp_countdowns (countdownTick i p) = delete i (pp_countdowns p) /\
  b_label (v_pomodoroBtn (pp_view (countdownTick i p))) = "üçÖ Pomodoro".
Proof. intros Hi. unfold countdownTick. by rewrite Hi. Qed.

Lemma countdown_iter (i : nat) (n : Z) (p : Popup) (k : nat) :
  pp_countdowns p !! i = Some n -> (Z.of_nat k <= n)%Z ->
  pp_countdowns (Nat.iter k (countdownTick i) p) = <[i := (n - Z.of_nat k)%Z]> (pp_countdowns p).
Proof.
  intros Hi. induction k as [|k IH]; intros Hk.
  - rewrite Z.sub_0_r. by rewrite list_insert_id.
  - rewrite Nat.iter_succ. rewrite (countdownTick_run i (n - Z.of_nat k)); [|rewrite IH by lia|lia].
    + rewrite IH by lia. rewrite list_insert_insert_eq. f_equal. lia.
    + apply list_lookup_insert_eq. eapply lookup_lt_Some, Hi.
Qed.

(** C39: a Pomodoro countdown terminates: started with [n >= 0] seconds
    left, it shows one less second on each tick for [n] ticks, and the
    tick after that removes it and puts the button's idle label
    back. *)
Theorem countdown_terminates (i : nat) (n : Z) (p : Popup) :
  pp_countdowns p !! i = Some n -> (0 <= n)%Z ->
  (forall k, (k <= Z.to_nat n)%nat ->
     pp_countdowns (Nat.iter k (countdownTick i) p) = <[i := (n - Z.of_nat k)%Z]> (pp_countdowns p)) /\
  pp_countdowns (Nat.iter (S (Z.to_nat n)) (countdownTick i) p) = delete i (pp_countdowns p) /\
  b_label (v_pomodoroBtn (pp_view (Nat.iter (S (Z.to_nat n)) (countdownTick i) p))) = "üçÖ Pomodoro".
Proof.
  intros Hi Hn. split; [intros k Hk; apply countdown_iter; [done|lia]|].
  assert (Hl : pp_countdowns (Nat.iter (Z.to_nat n) (countdownTick i) p) !! i = Some 0%Z).
  { rewrite (countdown_iter i n) by (done || lia). rewrite list_lookup_insert_eq by (eapply lookup_lt_Some, Hi).
    f_equal. lia. }
  rewrite Nat.iter_succ. destruct (countdownTick_stop i _ Hl) as [-> ->]. split; [|done].
  rewrite (countdown_iter i n) by (done || lia). apply list_delete_insert.
Qed.

(** the witness: a fresh 25-minute countdown stops after 1501 ticks *)
Lemma countdown_terminates_witness :
  let p := with_countdowns (initial_popup demo_view) [(25 * 60)%Z] in
  pp_countdowns (Nat.iter (S (Z.to_nat (25 * 60))) (countdownTick 0) p) = [].
Proof.
  intros p. destruct (countdown_terminates 0 (25 * 60) p) as (_ & -> & _); [reflexivity|lia|].
  reflexivity.
Defined.

(** C40: [formatDuration] agrees with the direct decomposition of a
    duration into whole hours and the remaining minutes, on every input,
    negative ones included. *)
Theorem formatDuration_decomposes (ms : Z) :
  formatDuration ms =
    if (3600000 <=? ms)%Z then Z_to_dec (ms / 3600000) +:+ "h " +:+ Z_to_dec ((ms / 60000) mod 60) +:+ "m"
    else Z_to_dec (ms / 60000) +:+ "m".
Proof.
  unfold formatDuration. rewrite Z.div_div by lia. change (60000 * 60)%Z with 3600000%Z.
  destruct (Z.leb_spec 3600000 ms), (Z.ltb_spec 0 (ms / 3600000)).
  - rewrite Z.rem_mod_nonneg; [done| |lia]. apply Z.div_pos; lia.
  - pose proof (Z.div_str_pos ms 3600000). lia.
  - pose proof (Z.div_lt_upper_bound ms 3600000 1). lia.
  - done.
Qed.

Lemma reload_tick_exists (t0 : Z) :
  (0 <= t0)%Z ->
  exists k, (k < 30)%nat /\ (Z.rem (t0 + 1000 * Z.of_nat k) 30000 < 1000)%Z.
Proof.
  intros Ht. pose proof (Z.div_mod t0 30000 ltac:(lia)) as Ht0.
  pose proof (Z.mod_pos_bound t0 30000 ltac:(lia)) as Hr.
  pose proof (Z.div_mod (t0 mod 30000) 1000 ltac:(lia)) as Hr0.
  pose proof (Z.mod_pos_bound (t0 mod 30000) 1000 ltac:(lia)) as Hd.
  set (r := (t0 mod 30000)%Z) in *. set (q := (r / 1000)%Z) in *. set (d := (r mod 1000)%Z) in *.
  assert (Hq : (0 <= q <= 29)%Z) by lia.
  destruct (Z.eq_dec q 0) as [Hq0|Hq0].
  - exists 0%nat. split; [lia|]. rewrite Z.rem_mod_nonneg by lia.
    replace (t0 + 1000 * Z.of_nat 0)%Z with (d + (t0 / 30000) * 30000)%Z by lia.
    rewrite Z.mod_add, Z.mod_small; lia.
  - exists (Z.to_nat (30 - q)). split; [lia|]. rewrite Z.rem_mod_nonneg by lia.
    replace (t0 + 1000 * Z.of_nat (Z.to_nat (30 - q)))%Z with (d + (t0 / 30000 + 1) * 30000)%Z by lia.
    rewrite Z.mod_add, Z.mod_small; lia.
Qed.

Section LiveTheorems.
Context `{Calendar} (ext : Extensions).

(** C25: the popup keeps reloading the score: of any 30 consecutive runs
    of the one-second interval of [startRealTimeUpdates()], one falls in
    the first second of a 30-second period of the clock and reloads the
    score from the backend, after showing the background's current
    session. *)
Theorem score_reload_live (t0 : Z) (db : list Activity) (p : Popup) (s : Tracker) :
  (0 <= t0)%Z ->
  exists k, (k < 30)%nat /\
    let t := (t0 + 1000 * Z.of_nat k)%Z in
    (realTimeTick ext t db p s).1 =
      loadProductivityScore t db (send_message ext t RqGetCurrentSession s).1
        (updateSessionDisplay t (with_session_copy p (currentSession s))).
Proof.
  intros Ht. destruct (reload_tick_exists t0 Ht) as (k & Hk & Hr). exists k. split; [done|].
  cbn zeta. unfold realTimeTick. destruct (send_getCurrentSession ext (t0 + 1000 * Z.of_nat k) s)
    as (s1 & -> & _). cbn. by rewrite (proj2 (Z.ltb_lt _ _) Hr).
Qed.

End LiveTheorems.

(** the witness: a popup opened at 12.345 s on the tracker at startup
    reloads the score within 30 ticks *)
Lemma score_reload_live_witness :
  exists k, (k < 30)%nat /\
    let t := (12345 + 1000 * Z.of_nat k)%Z in
    (realTimeTick demo_ext t [] (initial_popup demo_view) demo_boot).1 =
      loadProductivityScore t [] (send_message demo_ext t RqGetCurrentSession demo_boot).1
        (updateSessionDisplay t (with_session_copy (initial_popup demo_view) (currentSession demo_boot))).
Proof. apply score_reload_live. lia. Defined.

(** the witnesses of C36 to C38, on the tracker at startup; for C36 the
    popup is opened on the tracker following GitHub, and the first tick
    shows the session *)
Lemma popup_init_offline_witness :
  let r := popup_init demo_ext 1000000 [] demo_view demo_tracking in
  let r' := realTimeTicks demo_ext [1001000%Z; 1002000%Z] [] r.1 r.2 in
  v_session (pp_view r'.1) <> v_session demo_view /\
  (v_insights (pp_view r.1) = IOffline /\ v_session (pp_view r.1) = v_session demo_view /\
   v_score (pp_view r.1) = v_score demo_view /\ pp_currentSession r.1 = currentSession demo_tracking /\
   panels_kept demo_view (pp_view r'.1)).
Proof. split; [vm_compute; discriminate|]. apply popup_init_offline. reflexivity. Defined.

Lemma popup_settings_agree_witness :
  let r := popup_init demo_ext 1000 [] demo_view demo_boot in
  toggles_agree (toggleFocusMode demo_ext 2000 r.1 r.2).1 (toggleFocusMode demo_ext 2000 r.1 r.2).2.
Proof.
  intros r. destruct (popup_settings_agree demo_ext 1000 [] demo_view demo_boot) as [Hi Ht].
  apply (Ht 2000%Z r.1 r.2 Hi).
Defined.

Lemma pomodoro_always_fails_witness :
  let r := startPomodoro demo_ext 1000 (initial_popup demo_view) demo_boot in
  v_errors (pp_view r.1) = v_errors demo_view ++ ["Failed to start Pomodoro timer"] /\
  pp_countdowns r.1 = [].
Proof. apply pomodoro_always_fails. reflexivity. Defined.

(** [formatScoreKey] on the keys a breakdown would carry; the backend's
    answer has none, so the popup never calls it *)
Example formatScoreKey_examples :
  formatScoreKey "focusScore" = "Focus " /\ formatScoreKey "timeManagementScore" = "Time Management ".
Proof. split; reflexivity. Qed.
