(* ===== verification/Async.v ===== *)
(** * Await points and interleaved listeners of [src/background.js]

    [Tracker] runs each listener to completion.  In the extension a
    listener is an [async] function: at each [await] on a Chrome API call
    ([chrome.storage.local.get] and [set], [chrome.tabs.get]) or on
    [fetch], it gives the event loop back, and the listener of the next
    event may run before it resumes.  An [await] on a promise that no such
    call is behind (the class's own [async] methods, [categorizeWebsite],
    [applyFocusMode]) only waits for microtasks, which run before the next
    event, so it is no point of interleaving.

    This file models the tab-change path ([handleTabChange],
    [endCurrentSession], [saveSessionData], [updateDailyAggregates],
    [syncWithBackend], [getUserId], [startNewSession]) and [handleMessage]
    ([updateSettings] and [toggleFocusMode] answer after the await of
    [saveSettings]) and the memory check's [cleanupOldData] with their
    await points, and the session object by reference: [endCurrentSession]
    mutates the object [this.currentSession] points to, and a listener
    that resumes reads the object as the others left it.  A computation
    of type [async A] runs to its next await point ([RAwait]) or to its end
    ([RDone]); [drain] runs it without interleaving, and [Config] with
    [astep] is the event loop, which may start a new listener or resume a
    pending one.  The other listeners have no await point before their
    last write and run at once ([alift_obj]). *)

From stdpp Require Import base list strings gmap.
From Stdlib Require Import ZArith Lia.
From S2P Require Import Prelude Classifier Scoring Storage Tracker.

(** ** The extension's memory, with session objects *)

(** [a_tr] holds the tracker's fields, its [currentSession] being the
    object [a_cur] refers to; [a_heap] holds the session objects created
    so far, by creation order *)
Record AState : Type := {
  a_tr : Tracker;
  a_heap : list Session;
  a_cur : option nat
}.

Definition with_tr (a : AState) (t : Tracker) : AState :=
  {| a_tr := t; a_heap := a_heap a; a_cur := a_cur a |}.

(** the object a reference points to *)
Definition deref_cur (heap : list Session) (cur : option nat) : option Session :=
  cur ≫= fun p => heap !! p.

(** the tracker's [currentSession] is the object [a_cur] refers to, and
    [a_cur] refers to an object *)
Definition consistent (a : AState) : Prop :=
  currentSession (a_tr a) = deref_cur (a_heap a) (a_cur a) /\
  (is_Some (a_cur a) -> is_Some (currentSession (a_tr a))).

(** the memory of a tracker whose current session, if any, is the only
    object *)
Definition astate_of (s : Tracker) : AState :=
  match currentSession s with
  | Some x => {| a_tr := s; a_heap := [x]; a_cur := Some 0%nat |}
  | None => {| a_tr := s; a_heap := []; a_cur := None |}
  end.

(** ** Computations that pause at await points *)

Inductive res (A : Type) : Type :=
  | RDone (a : AState) (o : outcome A)
  | RAwait (a : AState) (k : AState -> res A).
Arguments RDone {A} a o.
Arguments RAwait {A} a k.

Definition async (A : Type) : Type := AState -> res A.

Fixpoint res_bind {A B} (r : res A) (f : A -> async B) : res B :=
  match r with
  | RDone a (Done x) => f x a
  | RDone a (Thrown e) => RDone a (Thrown e)
  | RAwait a k => RAwait a (fun a' => res_bind (k a') f)
  end.

#[export] Instance async_mret : MRet async := fun A x a => RDone a (Done x).
#[export] Instance async_mbind : MBind async := fun A B f m a => res_bind (m a) f.

Fixpoint res_catch {A} (r : res A) (h : exn -> async A) : res A :=
  match r with
  | RDone a (Thrown e) => h e a
  | RDone a (Done x) => RDone a (Done x)
  | RAwait a k => RAwait a (fun a' => res_catch (k a') h)
  end.

(** [try { m } catch (e) { h(e) }] across the await points of [m] *)
Definition acatch {A} (m : async A) (h : exn -> async A) : async A := fun a => res_catch (m a) h.

(** a run without interleaving: every await resumes at once *)
Fixpoint drain {A} (r : res A) : AState * outcome A :=
  match r with
  | RDone a o => (a, o)
  | RAwait a k => drain (k a)
  end.

(** ** Primitive steps *)

(** a synchronous stretch of the tracker's code that does not touch
    [this.currentSession] *)
Definition alift {A} (m : T A) : async A := fun a =>
  let '(t, o) := m (a_tr a) in RDone (with_tr a t) o.

(** [await] on a Chrome API call or a [fetch]: the request is made now,
    and the listener resumes with its result after other events *)
Definition io {A} (m : T A) : async A := fun a =>
  let '(t, o) := m (a_tr a) in RAwait (with_tr a t) (fun a' => RDone a' o).

(** the tracker's [currentSession] set back to the object [a_cur] refers to *)
Definition sync_cur (heap : list Session) (cur : option nat) (t : Tracker) : Tracker :=
  with_session t (deref_cur heap cur).

(** [const session = this.currentSession], with the reference *)
Definition cur_obj : async (option (nat * Session)) := fun a =>
  RDone a (Done (match a_cur a with
                 | Some p => (fun x => (p, x)) <$> a_heap a !! p
                 | None => None
                 end)).

(** a read of the object [p] *)
Definition deref (p : nat) : async Session := fun a =>
  match a_heap a !! p with
  | Some x => RDone a (Done x)
  | None => RDone a (Thrown (TypeError "Cannot read properties of undefined"))
  end.

(** assignments to the fields of the object [p], visible through every
    reference to it *)
Definition mutate (p : nat) (f : Session -> Session) : async unit := fun a =>
  let heap := match a_heap a !! p with
              | Some x => <[p := f x]> (a_heap a)
              | None => a_heap a
              end in
  RDone {| a_tr := sync_cur heap (a_cur a) (a_tr a); a_heap := heap; a_cur := a_cur a |} (Done tt).

(** [this.currentSession = sessionData] for a new object literal *)
Definition alloc_cur (x : Session) : async unit := fun a =>
  let heap := a_heap a ++ [x] in
  let cur := Some (length (a_heap a)) in
  RDone {| a_tr := sync_cur heap cur (a_tr a); a_heap := heap; a_cur := cur |} (Done tt).

(** [this.currentSession = null] *)
Definition clear_cur : async unit := fun a =>
  RDone {| a_tr := with_session (a_tr a) None; a_heap := a_heap a; a_cur := None |} (Done tt).

(** a listener with no await point before its last write: it runs on the
    tracker at once, and its assignments to [this.currentSession]'s
    fields are assignments to the object *)
Definition writeback (a : AState) (t : Tracker) : AState :=
  match a_cur a, currentSession t with
  | Some p, Some x => {| a_tr := t; a_heap := <[p := x]> (a_heap a); a_cur := Some p |}
  | None, Some x => {| a_tr := t; a_heap := a_heap a ++ [x]; a_cur := Some (length (a_heap a)) |}
  | _, None => {| a_tr := t; a_heap := a_heap a; a_cur := None |}
  end.

Definition alift_obj {A} (m : T A) : async A := fun a =>
  let '(t, o) := m (a_tr a) in RDone (writeback a t) o.

(** [chrome.storage.local.get()]: every key *)
Definition store_get_all : T Store := fun s => (s, Done (store s)).

(** ** The tab-change path with its await points *)

Section Await.
Context `{Calendar} (ext : Extensions).

(** [updateDailyAggregates(session)]: the date is read first, the
    session's fields after the [get] *)
Definition updateDailyAggregates_a (p : nat) : async unit :=
  now ← alift date_now;
  let today := toDateString now in
  v ← io (store_get (dailyKey today));
  session ← deref p;
  let dailyData := match v with Some (VDaily d) => d | _ => empty_daily today end in
  io (store_update (insert (dailyKey today) (VDaily (add_to_daily dailyData session)))).

(** [saveSessionData(session)]: [set] of the record and of
    [lastSession], then the aggregate *)
Definition saveSessionData_a (p : nat) : async unit :=
  session ← deref p;
  io (store_update (fun st => <[sessionKey (startTime session) := VSession session]>
                                (<["lastSession" := VSession session]> st)));;
  updateDailyAggregates_a p.

(** [getUserId()] *)
Definition getUserId_a : async string :=
  v ← io (store_get "userId");
  let fresh : async string :=
    t ← alift date_now; r ← alift random36;
    let u' := "user_" +:+ Z_to_dec t +:+ "_" +:+ r in
    io (store_update (insert "userId" (VUserId u')));; mret u' in
  match v with
  | Some (VUserId u) => if String.eqb u "" then fresh else mret u
  | _ => fresh
  end.

(** [syncWithBackend(session)]: the payload is built from the object
    after [getUserId()] resumes *)
Definition syncWithBackend_a (p : nat) : async unit :=
  acatch (userId ← getUserId_a; session ← deref p; io (fetch_post (payload_of userId session)))
         (fun _ => session ← deref p;
                   alift (call_method (queueForRetry ext) "this.queueForRetry"
                            (emit (RetryQueued (sessionId session))))).

(** [endCurrentSession()] *)
Definition endCurrentSession_a : async unit :=
  o ← cur_obj;
  match o with
  | None => mret tt
  | Some (p, _) =>
      t ← alift date_now;
      mutate p (fun session => ended_copy session t);;
      saveSessionData_a p;;
      syncWithBackend_a p;;
      clear_cur
  end.

(** [startNewSession(tab)]: no await point until it returns *)
Definition startNewSession_a (tab : Tab) (u : string) : async unit :=
  sid ← alift generateSessionId;
  t ← alift date_now;
  cat ← alift (lift_outcome (categorizeWebsite (getCustomCategory ext) u));
  let title := match tab_title tab with Some x => if String.eqb x "" then "Unknown" else x
                                        | None => "Unknown" end in
  let sessionData := sessionData sid (tab_id tab) u (extractDomain u) title t cat in
  alloc_cur sessionData;;
  alift (st ← get_settings;
         (if focusMode st then applyFocusMode sessionData else mret tt);;
         startActivityMonitoring (tab_id tab);;
         updateBadge cat).

(** [handleTabChange(tabId)] *)
Definition handleTabChange_a (tabId : Z) : async unit :=
  endCurrentSession_a;;
  acatch (tab ← io (tabs_get tabId);
          match tab_url tab with
          | Some u =>
              if negb (String.eqb u "") && negb (isSystemUrl u)
              then startNewSession_a tab u else mret tt
          | None => mret tt
          end)
         (fun _ => mret tt).

(** [saveSettings()]: [chrome.storage.local.set({ settings: this.settings })]
    serialises the settings when it is called *)
Definition saveSettings_a : async unit := io saveSettings.

(** [updateSettings(newSettings)] *)
Definition updateSettings_a (p : SettingsPatch) : async unit :=
  st ← alift get_settings; alift (put_settings (merge_settings st p));; saveSettings_a.

(** [handleMessage(request, sender, sendResponse)]: [updateSettings] and
    [toggleFocusMode] answer after the await of [saveSettings], the
    latter with [this.settings.focusMode] as it is when it resumes; the
    other requests have no await point on a Chrome API before they
    answer *)
Definition handleMessage_a (request : Request) (senderTab : option Z) : async unit :=
  match request with
  | RqUpdateSettings p => updateSettings_a p;; alift (emit (Respond RSuccess))
  | RqToggleFocusMode =>
      st ← alift get_settings;
      let st' := merge_settings st {| p_focusMode := Some (negb (focusMode st));
                   p_breakReminders := None; p_deepWorkMode := None; p_pomodoroTimer := None;
                   p_blockDistractions := None; p_trackMouseMovement := None;
                   p_trackKeystrokes := None; p_idleThreshold := None;
                   p_breakInterval := None; p_pomodoroLength := None |} in
      alift (put_settings st');; saveSettings_a;;
      st'' ← alift get_settings; alift (emit (Respond (RBool (focusMode st''))))
  | _ => alift_obj (handleMessage ext request senderTab)
  end.

(** [cleanupOldData()]: the keys to remove are computed from the object
    the [get] resolves with, and removed after it *)
Definition cleanupOldData_a : async unit :=
  now ← alift date_now;
  let cutoffDate := (now - 30 * 24 * 60 * 60 * 1000)%Z in
  allData ← io store_get_all;
  let keysToRemove := filter (fun key => should_remove cutoffDate key = true)
                        (fst <$> map_to_list allData) in
  if (0 <? length keysToRemove)%nat
  then io (store_update (fun st => foldr delete st keysToRemove))
  else mret tt.

(** the listeners: the two tab listeners start [handleTabChange], the
    message listener [handleMessage], and the memory check
    [optimizeMemoryUsage], which starts [cleanupOldData]; the others run
    at once *)
Definition dispatch_a (t : Z) (ev : Event) : async unit :=
  match ev with
  | EvTabActivated id => alift (set_clock t);; handleTabChange_a id
  | EvTabUpdated id complete tab =>
      alift (set_clock t);;
      alift (set_tab id tab);;
      if complete && tab_active tab then handleTabChange_a id else mret tt
  | EvMessage req senderTab => alift (set_clock t);; handleMessage_a req senderTab
  | EvMemoryCheck used =>
      alift (set_clock t);;
      if (50 * 1024 * 1024 <? used)%Z then cleanupOldData_a else mret tt
  | _ => alift_obj (dispatch ext t ev)
  end.

End Await.

(** ** The event loop *)

(** the memory and the listeners waiting at an await point *)
Record Config : Type := {
  c_st : AState;
  c_tasks : list (AState -> res unit)
}.

(** where a listener's run stops: at its end, or at an await, where it
    joins the pending listeners *)
Definition settle (tasks : list (AState -> res unit)) (r : res unit) : Config :=
  match r with
  | RDone a _ => {| c_st := a; c_tasks := tasks |}
  | RAwait a k => {| c_st := a; c_tasks := tasks ++ [k] |}
  end.

Section Loop.
Context `{Calendar} (ext : Extensions).

(** an event starts its listener, or a pending listener resumes *)
Inductive astep : Config -> Config -> Prop :=
  | astep_start (c : Config) (t : Z) (ev : Event) :
      (clock (world (a_tr (c_st c))) <= t)%Z -> event_ok ev ->
      astep c (settle (c_tasks c) (dispatch_a ext t ev (c_st c)))
  | astep_resume (c : Config) (i : nat) (k : AState -> res unit) :
      c_tasks c !! i = Some k ->
      astep c (settle (delete i (c_tasks c)) (k (c_st c))).

(** a schedule: events, and the resumption of the [i]-th pending listener *)
Inductive Act : Type :=
  | AStart (t : Z) (ev : Event)
  | AResume (i : nat).

Definition act (c : Config) (x : Act) : Config :=
  match x with
  | AStart t ev => settle (c_tasks c) (dispatch_a ext t ev (c_st c))
  | AResume i =>
      match c_tasks c !! i with
      | Some k => settle (delete i (c_tasks c)) (k (c_st c))
      | None => c
      end
  end.

Definition exec (xs : list Act) (c : Config) : Config := foldl act c xs.

(** a run of timed events, each listener run to its end before the next
    event *)
Fixpoint run_a (evs : list (Z * Event)) (a : AState) : AState :=
  match evs with
  | [] => a
  | (t, ev) :: evs' => run_a evs' (drain (dispatch_a ext t ev a)).1
  end.

End Loop.

(** ** Relating the two models *)

(** [am] run without interleaving is [m] on the tracker's fields *)
Definition lifts {A} (am : async A) (m : T A) : Prop :=
  forall a, drain (am a) = (with_tr a (m (a_tr a)).1, (m (a_tr a)).2).

(** a run of the model with await points ends where a run of [Tracker]
    ends, with the same outcome, and its memory is consistent *)
Definition agree {A} (r : AState * outcome A) (t : Tracker * outcome A) : Prop :=
  a_tr r.1 = t.1 /\ r.2 = t.2 /\ consistent r.1.

(** a stretch of the tracker's code that leaves [this.currentSession] *)
Definition keeps_cur {A} (m : T A) : Prop := forall s, currentSession (m s).1 = currentSession s.

(** ** The stored settings under interleaving *)

(** the background's settings are the stored ones at every point where
    the computation gives the event loop back, whatever the other
    listeners do meanwhile, as long as they keep them so *)
Inductive res_stored {A} : res A -> Prop :=
  | rs_done (a : AState) (o : outcome A) : stored_ok (a_tr a) -> res_stored (RDone a o)
  | rs_await (a : AState) (k : AState -> res A) :
      stored_ok (a_tr a) -> (forall a', stored_ok (a_tr a') -> res_stored (k a')) ->
      res_stored (RAwait a k).

Definition akeeps {A} (m : async A) : Prop := forall a, stored_ok (a_tr a) -> res_stored (m a).

(** the memory and every pending listener *)
Definition cfg_stored (c : Config) : Prop :=
  stored_ok (a_tr (c_st c)) /\
  Forall (fun k => forall a, stored_ok (a_tr a) -> res_stored (k a)) (c_tasks c).

(** ** Lemmas: running without interleaving *)

Lemma drain_bind {A B} (r : res A) (f : A -> async B) :
  drain (res_bind r f) = match drain r with (a, Done x) => drain (f x a) | (a, Thrown e) => (a, Thrown e) end.
Proof. induction r as [a [x|e]|a k IH]; cbn; auto. Qed.

Lemma drain_catch {A} (r : res A) (h : exn -> async A) :
  drain (res_catch r h) = match drain r with (a, Thrown e) => drain (h e a) | d => d end.
Proof. induction r as [a [x|e]|a k IH]; cbn; auto. Qed.

Lemma drain_abind {A B} (m : async A) (f : A -> async B) (a : AState) :
  drain ((m ≫= f) a) = match drain (m a) with (a, Done x) => drain (f x a) | (a, Thrown e) => (a, Thrown e) end.
Proof. apply drain_bind. Qed.

Lemma drain_acatch {A} (m : async A) (h : exn -> async A) (a : AState) :
  drain (acatch m h a) = match drain (m a) with (a, Thrown e) => drain (h e a) | d => d end.
Proof. apply drain_catch. Qed.

Lemma drain_alift {A} (m : T A) (a : AState) : drain (alift m a) = (with_tr a (m (a_tr a)).1, (m (a_tr a)).2).
Proof. unfold alift. by destruct (m (a_tr a)). Qed.

Lemma drain_io {A} (m : T A) (a : AState) : drain (io m a) = (with_tr a (m (a_tr a)).1, (m (a_tr a)).2).
Proof. unfold io. by destruct (m (a_tr a)). Qed.

Lemma drain_mret {A} (x : A) (a : AState) : drain (mret (M := async) x a) = (a, Done x).
Proof. done. Qed.

Lemma lifts_alift {A} (m : T A) : lifts (alift m) m.
Proof. intros a. apply drain_alift. Qed.
Lemma lifts_io {A} (m : T A) : lifts (io m) m.
Proof. intros a. apply drain_io. Qed.
Lemma lifts_mret {A} (x : A) : lifts (mret (M := async) x) (mret x).
Proof. intros [t h c]. done. Qed.
Lemma lifts_bind {A B} (am : async A) (m : T A) (af : A -> async B) (f : A -> T B) :
  lifts am m -> (forall x, lifts (af x) (f x)) -> lifts (am ≫= af) (m ≫= f).
Proof.
  intros Hm Hf a. rewrite drain_abind, Hm. unfold mbind, js_mbind.
  destruct (m (a_tr a)) as [t [x|e]]; cbn; [apply Hf|done].
Qed.

Ltac asimp := cbn [a_tr a_heap a_cur with_tr fst snd] in *.

Ltac agree_close :=
  unfold agree, consistent, deref_cur; cbn; repeat split; try done;
  try (intros [? ?]; done).

Lemma delete_snoc {A} (l : list A) (x : A) : delete (length l) (l ++ [x]) = l.
Proof.
  induction l as [|y l IH]; [done|]. cbn [length app].
  change (delete (S (length l)) (y :: l ++ [x])) with (y :: delete (length l) (l ++ [x])).
  by rewrite IH.
Qed.

Lemma ended_copy_startTime (x : Session) (t : Z) : startTime (ended_copy x t) = startTime x.
Proof. done. Qed.

Section Serial.
Context `{Calendar} (ext : Extensions).

Lemma getUserId_lifts : lifts (getUserId_a) getUserId.
Proof.
  unfold getUserId_a, getUserId. apply lifts_bind; [apply lifts_io|]. intros v.
  destruct v as [[]|]; try case_match;
  repeat first [apply lifts_bind; [apply lifts_alift || apply lifts_io|]; intros | apply lifts_mret | apply lifts_io].
Qed.
Lemma saveSessionData_drain (p : nat) (x : Session) (a : AState) :
  a_heap a !! p = Some x ->
  drain (saveSessionData_a p a) = (with_tr a (saveSessionData x (a_tr a)).1, (saveSessionData x (a_tr a)).2).
Proof.
  destruct a as [t h c]. cbn. intros Hp.
  unfold saveSessionData_a, updateDailyAggregates_a, saveSessionData, storeSessionData, updateDailyAggregates.
  unfold mbind, async_mbind, deref; cbn. rewrite Hp. cbn. rewrite Hp. cbn.
  unfold mbind, js_mbind, date_now, store_update, store_get. cbn. reflexivity.
Qed.
Lemma getUserId_drain (a : AState) :
  drain (getUserId_a a) = (with_tr a (getUserId (a_tr a)).1, (getUserId (a_tr a)).2).
Proof. apply getUserId_lifts. Qed.

Lemma drain_deref {A} (p : nat) (x : Session) (f : Session -> async A) (a : AState) :
  a_heap a !! p = Some x -> drain ((deref p ≫= f) a) = drain (f x a).
Proof. intros Hp. rewrite drain_abind. unfold deref. by rewrite Hp. Qed.

Lemma syncWithBackend_drain (p : nat) (x : Session) (a : AState) :
  a_heap a !! p = Some x ->
  drain (syncWithBackend_a ext p a) = (with_tr a (syncWithBackend ext x (a_tr a)).1, (syncWithBackend ext x (a_tr a)).2).
Proof.
  intros Hp. unfold syncWithBackend_a, syncWithBackend, js_catch.
  rewrite drain_acatch, drain_abind, getUserId_drain.
  destruct (getUserId (a_tr a)) as [t [u|e]] eqn:E.
  - rewrite (js_bind_done _ _ _ _ _ E). cbn [a_tr a_heap a_cur with_tr fst snd].
    rewrite (drain_deref p x) by done. rewrite drain_io. cbn [a_tr a_heap a_cur with_tr fst snd].
    destruct (fetch_post (payload_of u x) t) as [t' [[]|e]] eqn:F; cbn [a_tr a_heap a_cur with_tr fst snd]; [done|].
    rewrite (drain_deref p x) by done. rewrite drain_alift. done.
  - rewrite (js_bind_thrown _ _ _ _ _ E). cbn [a_tr a_heap a_cur with_tr fst snd].
    rewrite (drain_deref p x) by done. rewrite drain_alift. done.
Qed.
Lemma saveSessionData_cur (x : Session) (s : Tracker) :
  currentSession (saveSessionData x s).1 = currentSession s.
Proof. destruct s. unfold saveSessionData. js_exec; done. Qed.

Lemma syncWithBackend_cur (x : Session) (s : Tracker) :
  currentSession (syncWithBackend ext x s).1 = currentSession s.
Proof. destruct s as [cs st sto eff [clk tbs net rnd]]. unfold syncWithBackend, getUserId. js_exec; done. Qed.

Lemma endCurrentSession_drain (a : AState) :
  consistent a -> agree (drain (endCurrentSession_a ext a)) (endCurrentSession ext (a_tr a)).
Proof.
  destruct a as [tr h c]. unfold consistent. intros [Hc Hv]. asimp.
  unfold endCurrentSession_a, endCurrentSession. rewrite drain_abind. unfold cur_obj. asimp.
  destruct c as [p|]; cbn in Hc.
  - destruct (h !! p) as [x|] eqn:Ex; cbn in Hc; [|exfalso; destruct Hv as [y Hy]; [by exists p|congruence]].
    cbn. set (t := clock (world tr)).
    assert (Hg : get_session tr = (tr, Done (Some x))) by (unfold get_session; by rewrite Hc).
    rewrite !(js_bind_done _ _ _ _ _ Hg). rewrite (js_bind_done date_now _ tr tr t) by done.
    rewrite drain_abind, drain_alift. asimp. cbn [date_now fst snd].
    rewrite drain_abind. unfold mutate at 1. asimp. rewrite Ex. cbn [drain].
    set (e := ended_copy x t). set (h' := <[p := e]> h).
    assert (Hp' : h' !! p = Some e) by (apply list_lookup_insert_eq; eapply lookup_lt_Some, Ex).
    assert (Hs : sync_cur h' (Some p) tr = with_session tr (Some e)) by (unfold sync_cur; cbn; by rewrite Hp').
    change (<[p:=ended_copy x (clock (world tr))]> h) with h'. rewrite Hs. rewrite (js_bind_done (put_session (Some e)) _ tr (with_session tr (Some e)) tt) by done.
    rewrite drain_abind, (saveSessionData_drain p e) by done. asimp.
    destruct (saveSessionData e (with_session tr (Some e))) as [t1 [[]|er]] eqn:S1; asimp.
    + rewrite (js_bind_done _ _ _ _ _ S1).
      rewrite drain_abind, (syncWithBackend_drain p e) by done. asimp.
      destruct (syncWithBackend ext e t1) as [t2 [[]|er]] eqn:S2; asimp.
      * rewrite (js_bind_done _ _ _ _ _ S2). agree_close.
      * rewrite (js_bind_thrown _ _ _ _ _ S2). agree_close.
        all: pose proof (syncWithBackend_cur e t1) as C2; rewrite S2 in C2;
             pose proof (saveSessionData_cur e (with_session tr (Some e))) as C1; rewrite S1 in C1;
             cbn in C1, C2; rewrite ?Hp', C2, C1; by eauto.
    + rewrite (js_bind_thrown _ _ _ _ _ S1). agree_close.
      all: pose proof (saveSessionData_cur e (with_session tr (Some e))) as C1; rewrite S1 in C1;
           cbn in C1; rewrite ?Hp', C1; by eauto.
  - cbn. unfold mbind, js_mbind, get_session. rewrite Hc. agree_close.
Qed.

(** the continuation starts where the first part of the tracker's run
    ends *)
Lemma agree_bind_eq {A B} (am : async A) (m : T A) (af : A -> async B) (f : A -> T B) (a : AState) :
  agree (drain (am a)) (m (a_tr a)) ->
  (forall x a', consistent a' -> a_tr a' = (m (a_tr a)).1 -> (m (a_tr a)).2 = Done x ->
     agree (drain (af x a')) (f x (a_tr a'))) ->
  agree (drain ((am ≫= af) a)) ((m ≫= f) (a_tr a)).
Proof.
  intros Hm Hf. rewrite drain_abind. unfold mbind, js_mbind.
  destruct (drain (am a)) as [a1 o1], (m (a_tr a)) as [t o] eqn:Em.
  destruct Hm as (E1 & E2 & C). cbn in E1, E2. subst. destruct o as [x|e]; [|done].
  apply Hf; by rewrite ?Em.
Qed.

Lemma agree_bind {A B} (am : async A) (m : T A) (af : A -> async B) (f : A -> T B) (a : AState) :
  agree (drain (am a)) (m (a_tr a)) ->
  (forall x a', consistent a' -> agree (drain (af x a')) (f x (a_tr a'))) ->
  agree (drain ((am ≫= af) a)) ((m ≫= f) (a_tr a)).
Proof. intros Hm Hf. apply agree_bind_eq; auto. Qed.

Lemma agree_catch {A} (am : async A) (m : T A) (ah : exn -> async A) (h : exn -> T A) (a : AState) :
  agree (drain (am a)) (m (a_tr a)) ->
  (forall e a', consistent a' -> agree (drain (ah e a')) (h e (a_tr a'))) ->
  agree (drain (acatch am ah a)) (js_catch m h (a_tr a)).
Proof.
  intros Hm Hh. rewrite drain_acatch. unfold js_catch.
  destruct (drain (am a)) as [a1 o1], (m (a_tr a)) as [t o].
  destruct Hm as (E1 & E2 & C). cbn in E1, E2. subst. destruct o as [x|e]; [done|].
  by apply Hh.
Qed.

Lemma agree_alift {A} (m : T A) (a : AState) :
  consistent a -> keeps_cur m -> agree (drain (alift m a)) (m (a_tr a)).
Proof.
  intros [Hc Hv] Hk. rewrite drain_alift. unfold agree, consistent. cbn.
  rewrite Hk. done.
Qed.

Lemma agree_io {A} (m : T A) (a : AState) :
  consistent a -> keeps_cur m -> agree (drain (io m a)) (m (a_tr a)).
Proof. intros Hc Hk. rewrite drain_io, <- drain_alift. by apply agree_alift. Qed.

Lemma agree_mret {A} (x : A) (a : AState) :
  consistent a -> agree (drain (mret (M := async) x a)) (mret (M := T) x (a_tr a)).
Proof. done. Qed.

Lemma agree_alloc (x : Session) (a : AState) :
  agree (drain (alloc_cur x a)) (put_session (Some x) (a_tr a)).
Proof.
  unfold alloc_cur, agree, consistent, sync_cur, deref_cur. cbn.
  rewrite lookup_app_r, Nat.sub_diag by done. cbn. split; [done|]. split; [done|]. by split.
Qed.

Lemma keeps_cur_generateSessionId : keeps_cur generateSessionId.
Proof. intros []. unfold generateSessionId. js_exec; done. Qed.
Lemma keeps_cur_date_now : keeps_cur date_now.
Proof. done. Qed.
Lemma keeps_cur_lift_outcome {A} (o : outcome A) : keeps_cur (lift_outcome o).
Proof. done. Qed.
Lemma keeps_cur_tabs_get (id : Z) : keeps_cur (tabs_get id).
Proof. intros s. unfold tabs_get. by case_match. Qed.

Lemma startNewSession_drain (tab : Tab) (u : string) (a : AState) :
  consistent a -> agree (drain (startNewSession_a ext tab u a)) (startNewSession ext tab u (a_tr a)).
Proof.
  intros Hc. unfold startNewSession_a, startNewSession.
  apply agree_bind; [by apply agree_alift, keeps_cur_generateSessionId|]. intros sid a1 H1.
  apply agree_bind; [by apply agree_alift, keeps_cur_date_now|]. intros t a2 H2.
  apply agree_bind; [by apply agree_alift, keeps_cur_lift_outcome|]. intros cat a3 H3.
  apply agree_bind; [apply agree_alloc|]. intros [] a4 H4.
  apply agree_alift; [done|]. intros []. unfold applyFocusMode, startActivityMonitoring, updateBadge.
  js_exec; done.
Qed.

Lemma handleTabChange_drain (id : Z) (a : AState) :
  consistent a -> agree (drain (handleTabChange_a ext id a)) (handleTabChange ext id (a_tr a)).
Proof.
  intros Hc. unfold handleTabChange_a, handleTabChange.
  apply agree_bind; [by apply endCurrentSession_drain|]. intros [] a1 H1.
  apply agree_catch; [|intros; by apply agree_mret].
  apply agree_bind; [by apply agree_io, keeps_cur_tabs_get|]. intros tab a2 H2.
  repeat case_match; auto using startNewSession_drain, agree_mret.
Qed.

Lemma agree_alift_obj {A} (m : T A) (a : AState) :
  consistent a -> agree (drain (alift_obj m a)) (m (a_tr a)).
Proof.
  destruct a as [tr h c]. intros [Hc Hv]. unfold alift_obj. cbn in *.
  destruct (m tr) as [t o]. cbn. unfold agree, consistent, writeback. cbn.
  destruct c as [p|], (currentSession t) as [x|] eqn:Ex; cbn; rewrite ?Ex.
  - destruct Hv as [y Hy]; [by eexists|]. cbn in Hc. rewrite Hy in Hc.
    rewrite list_lookup_insert_eq; [by eauto|]. eapply lookup_lt_Some. symmetry. apply Hc.
  - done.
  - rewrite lookup_app_r, Nat.sub_diag by done. by eauto.
  - done.
Qed.

Lemma keeps_cur_set_clock (t : Z) : keeps_cur (set_clock t).
Proof. done. Qed.
Lemma keeps_cur_set_tab (id : Z) (tab : Tab) : keeps_cur (set_tab id tab).
Proof. done. Qed.

Lemma keeps_cur_get_settings : keeps_cur get_settings.
Proof. done. Qed.
Lemma keeps_cur_put_settings (st : Settings) : keeps_cur (put_settings st).
Proof. done. Qed.
Lemma keeps_cur_saveSettings : keeps_cur saveSettings.
Proof. done. Qed.
Lemma keeps_cur_emit (e : Effect) : keeps_cur (emit e).
Proof. done. Qed.

Lemma with_tr_id (a : AState) : with_tr a (a_tr a) = a.
Proof. by destruct a. Qed.

Create HintDb async.
#[local] Hint Resolve keeps_cur_get_settings keeps_cur_put_settings keeps_cur_saveSettings
  keeps_cur_emit keeps_cur_set_clock keeps_cur_set_tab agree_alift agree_io : async.

Lemma updateSettings_drain (p : SettingsPatch) (a : AState) :
  consistent a -> agree (drain (updateSettings_a p a)) (updateSettings p (a_tr a)).
Proof.
  intros Hc. unfold updateSettings_a, updateSettings, saveSettings_a.
  apply agree_bind; [auto with async|]. intros st a1 H1.
  apply agree_bind; [auto with async|]. intros [] a2 H2. auto with async.
Qed.

(** serially, the settings read after the await are the ones written
    before it *)
Lemma handleMessage_drain (req : Request) (senderTab : option Z) (a : AState) :
  consistent a ->
  agree (drain (handleMessage_a ext req senderTab a)) (handleMessage ext req senderTab (a_tr a)).
Proof.
  intros Hc. destruct req; unfold handleMessage_a; try (by apply agree_alift_obj); unfold handleMessage.
  - apply agree_bind; [by apply updateSettings_drain|]. intros [] a1 H1. auto with async.
  - apply agree_bind; [auto with async|]. intros st a1 H1.
    apply agree_bind_eq; [auto with async|]. intros [] a2 H2 E2 _.
    apply agree_bind_eq; [unfold saveSettings_a; auto with async|]. intros [] a3 H3 E3 _.
    rewrite drain_abind, drain_alift. cbn [get_settings fst snd].
    assert (Hs : settings (a_tr a3) = settings (a_tr a2)) by (rewrite E3; done).
    rewrite Hs, E2. cbn [put_settings fst settings with_settings].
    rewrite with_tr_id. auto with async.
Qed.

(** the keys [cleanupOldData] computes, removed from the store it read,
    leave what [Storage.cleanupOldData] keeps *)
Lemma cleanup_keys (c : Z) (st : Store) :
  foldr delete st (filter (fun key => should_remove c key = true) (fst <$> map_to_list st)) =
  filter (fun kv => should_remove c kv.1 = false) st.
Proof.
  apply map_eq. intros k. rewrite map_lookup_filter.
  destruct (decide (k ∈ filter (fun key => should_remove c key = true)
                      (fst <$> map_to_list st))) as [Hin|Hin].
  - rewrite lookup_foldr_delete by done. apply list_elem_of_filter in Hin as [Hr _].
    destruct (st !! k); cbn; [|done]. rewrite option_guard_False; [done|]. cbn. by rewrite Hr.
  - rewrite lookup_foldr_delete_not_elem_of by done.
    destruct (st !! k) as [v|] eqn:Hk; cbn; [|done].
    destruct (should_remove c k) eqn:Hr.
    + exfalso. apply Hin, list_elem_of_filter. split; [done|].
      apply list_elem_of_fmap. exists (k, v). split; [done|]. by apply elem_of_map_to_list.
    + rewrite option_guard_True; [done|]. by cbn.
Qed.

Lemma with_store_id (s : Tracker) : with_store s (store s) = s.
Proof. by destruct s. Qed.

Lemma cleanupOldData_drain (a : AState) :
  consistent a -> agree (drain (cleanupOldData_a a)) (optimizeMemoryUsage (a_tr a)).
Proof.
  intros Hc. unfold cleanupOldData_a, optimizeMemoryUsage.
  apply agree_bind; [auto with async|]. intros now a1 H1.
  rewrite drain_abind, drain_io. cbn [store_get_all fst snd]. rewrite with_tr_id.
  assert (Hk : forall st, cleanupOldData now st =
    foldr delete st (filter (fun key => should_remove (now - 30 * 24 * 60 * 60 * 1000) key = true)
                       (fst <$> map_to_list st))) by (intros st; by rewrite cleanup_keys).
  remember (filter _ (fst <$> map_to_list (store (a_tr a1)))) as l eqn:El.
  assert (Hu : store_update (cleanupOldData now) (a_tr a1) =
               store_update (fun st => foldr delete st l) (a_tr a1))
    by (unfold store_update; by rewrite Hk, El).
  rewrite Hu. destruct l as [|k l]; cbn [length Nat.ltb Nat.leb].
  - unfold store_update. cbn [foldr]. rewrite with_store_id. by apply agree_mret.
  - apply agree_io; [done|]. intros s. done.
Qed.

Lemma dispatch_drain (t : Z) (ev : Event) (a : AState) :
  consistent a -> agree (drain (dispatch_a ext t ev a)) (dispatch ext t ev (a_tr a)).
Proof.
  intros Hc. destruct ev; unfold dispatch_a;
    try (by apply agree_alift_obj); unfold dispatch.
  - apply agree_bind; [by apply agree_alift|]. intros [] a1 H1. by apply handleTabChange_drain.
  - apply agree_bind; [by apply agree_alift|]. intros [] a1 H1.
    apply agree_bind; [by apply agree_alift|]. intros [] a2 H2.
    case_match; [by apply handleTabChange_drain|by apply agree_mret].
  - apply agree_bind; [by apply agree_alift|]. intros [] a1 H1. by apply handleMessage_drain.
  - apply agree_bind; [by apply agree_alift|]. intros [] a1 H1.
    case_match; [by apply cleanupOldData_drain|by apply agree_mret].
Qed.
(** run without interleaving, the listeners with their await points
    and the session object by reference compute what [Tracker]'s
    listeners, run to completion on values, compute: for every sequence
    of events, the tracker's fields agree and the memory stays
    consistent. *)
Theorem serial_runs_agree (evs : list (Z * Event)) (a : AState) :
  consistent a -> a_tr (run_a ext evs a) = run ext evs (a_tr a) /\ consistent (run_a ext evs a).
Proof.
  revert a. induction evs as [|[t ev] evs IH]; intros a Hc; [done|]. cbn.
  destruct (dispatch_drain t ev a Hc) as (E & _ & C). rewrite <- E. by apply IH.
Qed.

Lemma settle_drain (tasks : list (AState -> res unit)) (r : res unit) :
  rtc (astep ext) (settle tasks r) {| c_st := (drain r).1; c_tasks := tasks |}.
Proof.
  induction r as [a o|a k IH]; cbn; [done|].
  eapply rtc_l.
  - apply (astep_resume ext {| c_st := a; c_tasks := tasks ++ [k] |} (length tasks) k).
    cbn. by rewrite lookup_app_r, Nat.sub_diag.
  - cbn. rewrite delete_snoc. apply IH.
Qed.

(** [Tracker]'s step relation is the serial fragment of the event
    loop with await points: every run of [step] from a tracker is a
    schedule of [astep], from a consistent memory of that tracker with no
    pending listener, that ends with no pending listener in a memory of
    the tracker the run reaches. *)
Theorem step_simulated (s s' : Tracker) (a : AState) :
  rtc (step ext) s s' -> consistent a -> a_tr a = s ->
  exists a', rtc (astep ext) {| c_st := a; c_tasks := [] |} {| c_st := a'; c_tasks := [] |} /\
             a_tr a' = s' /\ consistent a'.
Proof.
  intros Hr. revert a. induction Hr as [s|s1 s2 s3 Hs _ IH]; intros a Hc Ha.
  - exists a. by subst.
  - destruct Hs as [s1 t ev Hle Hev]. subst s1.
    destruct (dispatch_drain t ev a Hc) as (E & _ & C).
    destruct (IH _ C E) as (a' & Hr' & E' & C').
    exists a'. split; [|done].
    eapply rtc_l; [by apply (astep_start ext {| c_st := a; c_tasks := [] |} t ev)|].
    eapply rtc_trans; [apply settle_drain|done].
Qed.
End Serial.

(** ** Lemmas: the stored settings *)

Section Stored.
Context `{Calendar} (ext : Extensions).

Lemma res_stored_bind {A B} (r : res A) (f : A -> async B) :
  res_stored r -> (forall x, akeeps (f x)) -> res_stored (res_bind r f).
Proof.
  intros Hr Hf. induction Hr as [a [x|e] Ha|a k Ha Hk IH]; cbn.
  - by apply Hf.
  - by constructor.
  - constructor; [done|]. intros a' Ha'. by apply IH.
Qed.

Lemma res_stored_catch {A} (r : res A) (h : exn -> async A) :
  res_stored r -> (forall e, akeeps (h e)) -> res_stored (res_catch r h).
Proof.
  intros Hr Hh. induction Hr as [a [x|e] Ha|a k Ha Hk IH]; cbn.
  - by constructor.
  - by apply Hh.
  - constructor; [done|]. intros a' Ha'. by apply IH.
Qed.

Lemma akeeps_bind {A B} (m : async A) (f : A -> async B) :
  akeeps m -> (forall x, akeeps (f x)) -> akeeps (m ≫= f).
Proof. intros Hm Hf a Ha. apply res_stored_bind; auto. Qed.

Lemma akeeps_catch {A} (m : async A) (h : exn -> async A) :
  akeeps m -> (forall e, akeeps (h e)) -> akeeps (acatch m h).
Proof. intros Hm Hh a Ha. apply res_stored_catch; auto. Qed.

Lemma akeeps_mret {A} (x : A) : akeeps (mret (M := async) x).
Proof. intros a Ha. by constructor. Qed.
Lemma akeeps_done {A} (x : A) : akeeps (fun a => RDone a (Done x)).
Proof. intros a Ha. by constructor. Qed.

Lemma akeeps_alift {A} (m : T A) : keeps_stored m -> akeeps (alift m).
Proof.
  intros Hm a Ha. unfold alift. specialize (Hm _ Ha). destruct (m (a_tr a)) as [t o].
  by constructor.
Qed.

Lemma akeeps_io {A} (m : T A) : keeps_stored m -> akeeps (io m).
Proof.
  intros Hm a Ha. unfold io. specialize (Hm _ Ha). destruct (m (a_tr a)) as [t o].
  constructor; [done|]. intros a' Ha'. by constructor.
Qed.

Lemma akeeps_alift_obj {A} (m : T A) : keeps_stored m -> akeeps (alift_obj m).
Proof.
  intros Hm a Ha. unfold alift_obj. specialize (Hm _ Ha). destruct (m (a_tr a)) as [t o].
  constructor. unfold writeback. by repeat case_match.
Qed.

(** the steps on session objects only touch [currentSession] *)
Lemma akeeps_cur_obj : akeeps cur_obj.
Proof. intros a Ha. by constructor. Qed.
Lemma akeeps_deref (p : nat) : akeeps (deref p).
Proof. intros a Ha. unfold deref. case_match; by constructor. Qed.
Lemma akeeps_mutate (p : nat) (f : Session -> Session) : akeeps (mutate p f).
Proof. intros a Ha. by constructor. Qed.
Lemma akeeps_alloc_cur (x : Session) : akeeps (alloc_cur x).
Proof. intros a Ha. by constructor. Qed.
Lemma akeeps_clear_cur : akeeps clear_cur.
Proof. intros a Ha. by constructor. Qed.

(** [this.settings = ...] and [saveSettings()] in one synchronous
    stretch *)
Lemma akeeps_save_then {A} (x : Settings) (k : async A) :
  akeeps k -> akeeps (alift (put_settings x);; saveSettings_a;; k).
Proof.
  intros Hk a Ha. unfold mbind, async_mbind, alift, saveSettings_a, io. cbn.
  constructor; [apply (keeps_save x (a_tr a) Ha)|]. intros a' Ha'. by apply Hk.
Qed.

Lemma akeeps_save (x : Settings) : akeeps (alift (put_settings x);; saveSettings_a).
Proof.
  intros a Ha. unfold mbind, async_mbind, alift, saveSettings_a, io. cbn.
  constructor; [apply (keeps_save x (a_tr a) Ha)|]. intros a' Ha'. by constructor.
Qed.

Lemma keeps_store_get_all : keeps_stored store_get_all.
Proof. by apply keeps_pure. Qed.

(** the keys [cleanupOldData] removes never include ["settings"] *)
Lemma stored_settings_cleanup_keys (c : Z) (l : list string) (st : Store) :
  stored_settings (foldr delete st (filter (fun key => should_remove c key = true) l)) =
  stored_settings st.
Proof.
  unfold stored_settings. rewrite lookup_foldr_delete_not_elem_of; [done|].
  intros [Hr _]%list_elem_of_filter. by unfold should_remove in Hr.
Qed.

End Stored.

#[export] Hint Resolve keeps_store_get_all : keeps.
Create HintDb akeeps.
#[export] Hint Resolve akeeps_mret akeeps_done akeeps_cur_obj akeeps_deref akeeps_mutate akeeps_alloc_cur
  akeeps_clear_cur : akeeps.

Ltac akeeps_tac :=
  repeat first
    [ progress cbv zeta
    | apply akeeps_save_then
    | apply akeeps_save
    | apply akeeps_bind; intros
    | apply akeeps_catch; intros
    | apply akeeps_alift_obj; first [apply dispatch_keeps_stored | apply handleMessage_keeps_stored]
    | apply akeeps_alift; unfold generateSessionId, applyFocusMode, startActivityMonitoring,
        updateBadge, set_clock, set_tab; keeps_tac
    | apply akeeps_io, keeps_store_update; intros; apply stored_settings_cleanup_keys
    | apply akeeps_io; unfold saveSettings; keeps_tac
    | solve [auto with akeeps]
    | case_match ].

Section StoredTheorems.
Context `{Calendar} (ext : Extensions).

Lemma dispatch_a_akeeps (t : Z) (ev : Event) : akeeps (dispatch_a ext t ev).
Proof.
  unfold dispatch_a, handleTabChange_a, endCurrentSession_a, startNewSession_a, saveSessionData_a,
    updateDailyAggregates_a, syncWithBackend_a, getUserId_a, handleMessage_a, updateSettings_a,
    cleanupOldData_a.
  akeeps_tac.
Qed.

Lemma settle_stored (tasks : list (AState -> res unit)) (r : res unit) :
  Forall (fun k => forall a, stored_ok (a_tr a) -> res_stored (k a)) tasks -> res_stored r ->
  cfg_stored (settle tasks r).
Proof.
  intros Ht Hr. destruct Hr as [a o Ha|a k Ha Hk]; cbn; split; try done.
  apply Forall_app. by split; [|constructor].
Qed.

Lemma astep_stored (c c' : Config) : astep ext c c' -> cfg_stored c -> cfg_stored c'.
Proof.
  intros Hs [Ha Ht]. destruct Hs as [c t ev Hle Hev|c i k Hi].
  - apply settle_stored; [done|]. by apply dispatch_a_akeeps.
  - apply settle_stored.
    + by apply Forall_delete.
    + rewrite Forall_lookup in Ht. by apply (Ht i k Hi).
Qed.

(** C16: whatever the schedule, with listeners interleaved at any of
    their await points, the background's settings and the settings
    object in [chrome.storage.local] agree at every moment the event loop
    runs: [updateSettings] and [toggleFocusMode] write the store in the
    same synchronous stretch in which they change [this.settings], and no
    other write touches the key, so a page or a restarted worker that
    reads the store reads what the background holds. *)
Theorem settings_saved_interleaved (a : AState) (c : Config) :
  stored_ok (a_tr a) -> rtc (astep ext) {| c_st := a; c_tasks := [] |} c ->
  settings (a_tr (c_st c)) = stored_settings (store (a_tr (c_st c))).
Proof.
  intros Ha Hr. assert (Hc : cfg_stored {| c_st := a; c_tasks := [] |}) by done.
  induction Hr as [c|c1 c2 c3 Hs _ IH]; [apply Hc|]. apply IH. by eapply astep_stored.
Qed.

End StoredTheorems.

(** ** Interleaved listeners *)

Section Interleaving.
Context `{Calendar} (ext : Extensions).

(** C18: a tab change that comes while the listener of an earlier one
    waits on [chrome.storage.local.set] in [saveSessionData] ends the same
    session object again: both listeners are pending, the object now has
    the second end time and scores, and the stored record of the session
    is the re-ended object.  Both listeners go on to aggregate and post
    it, and the second one's [this.currentSession = null] comes after the
    first one has started the next session. *)
Theorem second_listener_reends (a : AState) (p : nat) (x : Session) (i1 i2 t1 t2 : Z) :
  a_cur a = Some p -> a_heap a !! p = Some x ->
  let c := exec ext [AStart t1 (EvTabActivated i1); AStart t2 (EvTabActivated i2)]
                {| c_st := a; c_tasks := [] |} in
  let y := ended_copy (ended_copy x t1) t2 in
  length (c_tasks c) = 2%nat /\ a_heap (c_st c) !! p = Some y /\
  currentSession (a_tr (c_st c)) = Some y /\
  store (a_tr (c_st c)) !! sessionKey (startTime x) = Some (VSession y).
Proof.
  destruct a as [tr h c]. intros Hc Hx. cbn in Hc, Hx. subst c.
  unfold exec. cbn [foldl act c_st c_tasks].
  unfold dispatch_a, handleTabChange_a, endCurrentSession_a, saveSessionData_a.
  unfold mbind, async_mbind, alift, cur_obj, mutate, deref, io. cbn -[ended_copy sessionKey].
  assert (Hlt : (p < length h)%nat) by (eapply lookup_lt_Some; eauto).
  repeat (progress (rewrite ?Hx, ?list_lookup_insert_eq, ?list_insert_insert_eq
                      by (rewrite ?length_insert; lia); cbn -[ended_copy sessionKey])).
  do 3 (split; [done|]). rewrite !ended_copy_startTime. by rewrite lookup_insert_eq.
Qed.
(** C17: [updateDailyAggregates] reads the day's aggregate and writes
    it back across an await: when a second call reads it while the first
    waits on its [get], the second write overwrites the first and the
    first session is not counted, where the two calls run one after the
    other count both. *)
Theorem daily_update_lost (a : AState) (p1 p2 : nat) (x1 x2 : Session) :
  a_heap a !! p1 = Some x1 -> a_heap a !! p2 = Some x2 ->
  let day := toDateString (clock (world (a_tr a))) in
  let d0 := match store (a_tr a) !! dailyKey day with Some (VDaily d) => d | _ => empty_daily day end in
  match updateDailyAggregates_a p1 a with
  | RAwait a1 k1 =>
      match updateDailyAggregates_a p2 a1 with
      | RAwait a2 k2 =>
          store (a_tr (drain (k2 (drain (k1 a2)).1)).1) !! dailyKey day =
            Some (VDaily (add_to_daily d0 x2))
      | RDone _ _ => False
      end
  | RDone _ _ => False
  end /\
  store (a_tr (drain ((updateDailyAggregates_a p1;; updateDailyAggregates_a p2) a)).1) !! dailyKey day =
    Some (VDaily (add_to_daily (add_to_daily d0 x1) x2)).
Proof.
  destruct a as [tr h c]. cbn. intros H1 H2.
  unfold updateDailyAggregates_a, date_now, store_get, store_update, deref.
  unfold mbind, async_mbind, alift, io, with_tr. cbn.
  repeat (progress (rewrite ?H1, ?H2, ?lookup_insert_eq; cbn)). done.
Qed.

(** C27: [getUserId] reads [userId] and writes a new one across its
    awaits: when a second listener calls it while the first waits on the
    read, and no id is stored yet, each makes its own id from the next
    random string, the two resolve with different ids, and the store
    keeps the id of the listener that resumes last. *)
Theorem getUserId_race (a : AState) (r1 r2 : string) (rs : list string) :
  store (a_tr a) !! "userId" = None -> randoms (world (a_tr a)) = r1 :: r2 :: rs -> r1 <> r2 ->
  match getUserId_a a with
  | RAwait a1 k1 =>
      match getUserId_a a1 with
      | RAwait a2 k2 =>
          let '(a3, o1) := drain (k1 a2) in
          let '(a4, o2) := drain (k2 a3) in
          exists u1 u2, o1 = Done u1 /\ o2 = Done u2 /\ u1 <> u2 /\
                        store (a_tr a4) !! "userId" = Some (VUserId u2)
      | RDone _ _ => False
      end
  | RDone _ _ => False
  end.
Proof.
  destruct a as [tr h c]. cbn. intros Hs Hr Hne.
  unfold getUserId_a, store_get, date_now, random36, store_update.
  unfold mbind, async_mbind, alift, io, with_tr. cbn. rewrite !Hs. cbn [a_tr a_heap a_cur]. rewrite Hr. cbn.
  eexists _, _. split; [done|]. split; [done|]. split; [|by rewrite lookup_insert_eq].
  intros E. by apply (inj _), (inj _), (inj _) in E.
Qed.

(** C23: two clicks on the popup's focus-mode switch: each listener flips
    [this.settings.focusMode] and waits on [saveSettings]; when the
    second message comes before the first listener resumes, both answer
    with the value after the second flip, the value the mode had before
    the clicks, where the listeners run one after the other answer with
    the flipped value and then with the value before *)
Theorem toggles_answer_late (a : AState) (t1 t2 : Z) (tab1 tab2 : option Z) :
  let f := focusMode (settings (a_tr a)) in
  let c := exec ext [AStart t1 (EvMessage RqToggleFocusMode tab1);
                     AStart t2 (EvMessage RqToggleFocusMode tab2); AResume 0; AResume 0]
                {| c_st := a; c_tasks := [] |} in
  let a' := run_a ext [(t1, EvMessage RqToggleFocusMode tab1);
                       (t2, EvMessage RqToggleFocusMode tab2)] a in
  c_tasks c = [] /\
  effects (a_tr (c_st c)) = effects (a_tr a) ++ [Respond (RBool f); Respond (RBool f)] /\
  effects (a_tr a') = effects (a_tr a) ++ [Respond (RBool (negb f)); Respond (RBool f)] /\
  focusMode (settings (a_tr (c_st c))) = f /\ focusMode (settings (a_tr a')) = f.
Proof.
  destruct a as [tr h c]. unfold exec. cbn [foldl act c_st c_tasks run_a].
  unfold dispatch_a, handleMessage_a, saveSettings_a.
  unfold saveSettings, set_clock, set_world, get_settings, put_settings, store_update, emit.
  unfold mbind, async_mbind, js_mbind, alift, io. cbn.
  rewrite negb_involutive, <- !app_assoc. done.
Qed.
End Interleaving.

(** ** Witnesses and the concrete interleaving *)

(** an instance of [serial_runs_agree]: two tab changes from the tracker
    following GitHub *)
Lemma serial_runs_agree_witness :
  let evs := [(1600000%Z, EvTabActivated 8); (1700000%Z, EvTabActivated 7)] in
  a_tr (run_a demo_ext evs (astate_of demo_tracking)) = run demo_ext evs (a_tr (astate_of demo_tracking)) /\
  consistent (run_a demo_ext evs (astate_of demo_tracking)).
Proof.
  apply serial_runs_agree. split; [vm_compute; reflexivity|]. intros _. vm_compute. by eexists.
Defined.

(** an instance of [step_simulated]: the first tab change after startup *)
Lemma step_simulated_witness :
  exists a', rtc (astep demo_ext) {| c_st := astate_of demo_boot; c_tasks := [] |}
                                   {| c_st := a'; c_tasks := [] |} /\
             a_tr a' = demo_tracking /\ consistent a'.
Proof.
  apply (step_simulated demo_ext demo_boot demo_tracking).
  - apply rtc_once. apply (step_event demo_ext demo_boot 1000000 (EvTabActivated 7)); [|exact I].
    vm_compute. discriminate.
  - split; [vm_compute; reflexivity|]. vm_compute. intros [? ?]; discriminate.
  - vm_compute. reflexivity.
Defined.

(** the witness of C18: GitHub is tracked, then two tab changes half a
    second apart *)
Lemma second_listener_reends_witness :
  let a := astate_of demo_tracking in
  let x := hd (sessionData "" 0 "" "" "" 0 neutral) (a_heap a) in
  let c := exec demo_ext [AStart 1600000 (EvTabActivated 8); AStart 1600500 (EvTabActivated 7)]
                {| c_st := a; c_tasks := [] |} in
  let y := ended_copy (ended_copy x 1600000) 1600500 in
  length (c_tasks c) = 2%nat /\ a_heap (c_st c) !! 0%nat = Some y /\
  currentSession (a_tr (c_st c)) = Some y /\
  store (a_tr (c_st c)) !! sessionKey (startTime x) = Some (VSession y).
Proof. apply second_listener_reends; vm_compute; reflexivity. Defined.

(** the witness of C17: the session of the tracker following GitHub
    aggregated twice, the calls interleaved or one after the other *)
Lemma daily_update_lost_witness :
  let a := astate_of demo_tracking in
  let x := hd (sessionData "" 0 "" "" "" 0 neutral) (a_heap a) in
  let day := toDateString (clock (world (a_tr a))) in
  let d0 := match store (a_tr a) !! dailyKey day with Some (VDaily d) => d | _ => empty_daily day end in
  a_heap a !! 0%nat = Some x /\
  (match updateDailyAggregates_a 0 a with
   | RAwait a1 k1 =>
       match updateDailyAggregates_a 0 a1 with
       | RAwait a2 k2 =>
           store (a_tr (drain (k2 (drain (k1 a2)).1)).1) !! dailyKey day =
             Some (VDaily (add_to_daily d0 x))
       | RDone _ _ => False
       end
   | RDone _ _ => False
   end /\
   store (a_tr (drain ((updateDailyAggregates_a 0;; updateDailyAggregates_a 0) a)).1) !! dailyKey day =
     Some (VDaily (add_to_daily (add_to_daily d0 x) x))).
Proof.
  split; [vm_compute; reflexivity|].
  apply daily_update_lost; vm_compute; reflexivity.
Defined.

(** the witness of C27: the two tab changes of C18, from the tracker
    following GitHub, where no user id is stored yet *)
Lemma getUserId_race_witness :
  store (a_tr (astate_of demo_tracking)) !! "userId" = None /\
  match getUserId_a (astate_of demo_tracking) with
  | RAwait a1 k1 =>
      match getUserId_a a1 with
      | RAwait a2 k2 =>
          let '(a3, o1) := drain (k1 a2) in
          let '(a4, o2) := drain (k2 a3) in
          exists u1 u2, o1 = Done u1 /\ o2 = Done u2 /\ u1 <> u2 /\
                        store (a_tr a4) !! "userId" = Some (VUserId u2)
      | RDone _ _ => False
      end
  | RDone _ _ => False
  end.
Proof.
  split; [vm_compute; reflexivity|].
  apply (getUserId_race (astate_of demo_tracking) "p0q1" "z7w2" ["m4n5"; "r8t6"]);
    [vm_compute; reflexivity | vm_compute; reflexivity | discriminate].
Defined.

(** the witness of C16: two [toggleFocusMode] messages from startup,
    the second while the first waits on [saveSettings] *)
Lemma settings_saved_interleaved_witness :
  let c := exec demo_ext [AStart 2000000 (EvMessage RqToggleFocusMode None);
                          AStart 2000100 (EvMessage RqToggleFocusMode None)]
                {| c_st := astate_of demo_boot; c_tasks := [] |} in
  length (c_tasks c) = 2%nat /\
  settings (a_tr (c_st c)) = stored_settings (store (a_tr (c_st c))).
Proof.
  split; [vm_compute; reflexivity|].
  apply (settings_saved_interleaved demo_ext (astate_of demo_boot)); [vm_compute; reflexivity|].
  eapply rtc_l; [apply (astep_start demo_ext _ 2000000 (EvMessage RqToggleFocusMode None)); [vm_compute; discriminate|exact I]|].
  eapply rtc_l; [apply (astep_start demo_ext _ 2000100 (EvMessage RqToggleFocusMode None)); [vm_compute; discriminate|exact I]|].
  apply rtc_refl.
Defined.

(** What follows in the same run when the two listeners take turns at
    each await point: the GitHub session is posted twice, the daily
    aggregate counts it once with the second end time, and the YouTube
    session the first listener started is cleared by the second listener
    without being stored; the serial run stores and posts both sessions
    once. *)
Example interleaved_tab_changes :
  let c := exec demo_ext ([AStart 1600000 (EvTabActivated 8); AStart 1600500 (EvTabActivated 7)] ++
                          repeat (AResume 0) 20) {| c_st := astate_of demo_tracking; c_tasks := [] |} in
  let s := a_tr (c_st c) in
  length (c_tasks c) = 0%nat /\
  omap (fun e => match e with PostActivity p => Some (pl_sessionId p, pl_timeSpent p) | _ => None end)
    (effects s) = [("session_1000000_k3x9", Some 600500%Z); ("session_1000000_k3x9", Some 600500%Z)] /\
  omap (fun kv => match kv.2 with VSession x => Some (domain x) | _ => None end) (map_to_list (store s))
    = ["github.com"; "github.com"] /\
  (match store s !! dailyKey (toDateString 1600000) with
   | Some (VDaily d) => Some (sessions d, totalTime d) | _ => None end) = Some (1%Z, num_of_Z 600500) /\
  option_map domain (currentSession s) = Some "github.com".
Proof. vm_compute. repeat split. Qed.
