(* ===== verification/System.v ===== *)
(** * The extension and the backend together

    [syncWithBackend] in [src/background.js] posts each ended session to
    [POST /api/activity/advanced] of the server of [src/server.js].  This
    file sends the payloads [Tracker] and [Async] post to [Backend.server],
    each at the time the request reaches the server, and relates the
    collection and the analytics the backend serves afterwards to what the
    extension posted. *)

From stdpp Require Import base list strings.
From Stdlib Require Import ZArith QArith Lia Lqa.
From S2P Require Import Prelude Classifier Scoring Storage Tracker Backend Async.

Local Open Scope js_scope.

(** ** The request [syncWithBackend] makes *)

(** [fetch('http://localhost:3000/api/activity/advanced', { method:
    'POST', body: JSON.stringify(payload) })] *)
Definition sync_request (p : SyncPayload) : HttpRequest :=
  post_req ["api"; "activity"; "advanced"] (BActivity (body_of_payload p)).

(** the posts, each with the time the server handles it *)
Definition deliver (tps : list (Z * SyncPayload)) : list (Z * HttpRequest) :=
  map (fun tp => (tp.1, sync_request tp.2)) tps.

(** the documents [save()] accepts, and the answers of the server *)
Definition stored_of (tps : list (Z * SyncPayload)) : list Activity :=
  omap (fun tp => createActivity (body_of_payload tp.2) tp.1) tps.

Definition answers_of (tps : list (Z * SyncPayload)) : list HttpResponse :=
  map (fun tp => match createActivity (body_of_payload tp.2) tp.1 with
                 | Some a => (200%Z, RActivity a)
                 | None => (500%Z, RError)
                 end) tps.

(** ** Lemmas *)

Lemma server_sync (t : Z) (p : SyncPayload) (db : list Activity) :
  server t (sync_request p) db = postAdvanced t (BActivity (body_of_payload p)) db.
Proof. reflexivity. Qed.

Lemma serve_all_sync (tps : list (Z * SyncPayload)) (db : list Activity) :
  serve_all (deliver tps) db = (db ++ stored_of tps, answers_of tps).
Proof.
  revert db. induction tps as [|[t p] tps IH]; intros db; [cbn; by rewrite app_nil_r|].
  cbn [deliver map serve_all fst snd]. rewrite server_sync. unfold postAdvanced.
  fold (deliver tps). unfold stored_of, answers_of in *; cbn [list_omap map fst snd].
  destruct (createActivity _ t) as [a|] eqn:E; unfold fail; cbv beta iota; rewrite IH;
    cbn [omap list_omap fst snd]; rewrite E; by rewrite <- ?app_assoc.
Qed.

Lemma sum_time_app (l1 l2 : list Activity) : sum_time (l1 ++ l2) == sum_time l1 + sum_time l2.
Proof. unfold sum_time. rewrite map_app. apply sumQ_app. Qed.

(** ** The theorem *)

(** C29: the posts of the extension, served in order, append to the
    collection one document for each payload [save()] accepts, in the
    order they were posted, and are answered [200] with that document or
    [500]; the total time [GET /analytics/productivity] reports for any
    user over any window grows by the time of that user's new documents
    in the window, so a session posted twice is counted twice. *)
Theorem sync_delivered (tps : list (Z * SyncPayload)) (db : list Activity) :
  serve_all (deliver tps) db = (db ++ stored_of tps, answers_of tps) /\
  forall u start,
    m_totalTime (metrics_of (window u start (db ++ stored_of tps)))
    == m_totalTime (metrics_of (window u start db)) +
       m_totalTime (metrics_of (window u start (stored_of tps))).
Proof.
  split; [apply serve_all_sync|]. intros u start. cbn [metrics_of m_totalTime].
  unfold window. rewrite List.filter_app. apply sum_time_app.
Qed.

(** ** The interleaved tab changes, seen from the backend *)

(** the tracker after [Async.interleaved_tab_changes], and its posts,
    each handled when it is made *)
Definition interleaved_final : Tracker :=
  a_tr (c_st (exec demo_ext ([AStart 1600000 (EvTabActivated 8); AStart 1600500 (EvTabActivated 7)] ++
                             repeat (AResume 0) 20)
                   {| c_st := astate_of demo_tracking; c_tasks := [] |})).

Definition interleaved_posts : list SyncPayload := posted interleaved_final.

(** no user id is stored yet: both listeners read [userId] before either
    writes one, so each makes its own, and the GitHub session of 600.5 s
    is stored twice, under two users; the extension keeps the second id,
    and the productivity the backend reports for it counts the session
    once, the other document belonging to an id no client holds *)
Example interleaved_two_users :
  let db := (serve_all (deliver (zip [1600000%Z; 1600500%Z] interleaved_posts)) []).1 in
  store (a_tr (astate_of demo_tracking)) !! "userId" = None /\
  map (fun a => (act_domain a, act_userId a)) db =
    [("github.com", "user_1600500_p0q1"); ("github.com", "user_1600500_z7w2")] /\
  store interleaved_final !! "userId" = Some (VUserId "user_1600500_z7w2") /\
  (match (server 1700000 (get_req ["api"; "analytics"; "productivity"; "user_1600500_z7w2"]) db).2 with
   | (200%Z, RMetrics m) => Qred (m_totalTime m) = 600500%Q
   | _ => False
   end).
Proof. vm_compute. repeat split. Qed.
